(** * A shallow embedding of the chainlit news chatbot

    The repository holds two variants of one program:
    [src/chatbot/chat.py] (completions through the agents runner) and
    [src/chatbot/chatbot/chatlit.py] (completions through litellm).
    Both expose three chainlit hooks, [start], [main] and [end], and the
    helpers [get_real_news], [summarize_history] and [summarize_with_llm].

    Python objects are modelled by the tree type [pyval]; the handlers are
    written in a small state-and-exception monad over a [World] that holds
    the file system, the chainlit session variable and a log of every
    interaction with the outside (completion calls, HTTP requests, file
    accesses, clock reads, messages sent to the UI).  The outside itself
    (completion provider, news provider, clock) and the parts of the Python
    runtime whose tables are not in the repository ([str.strip],
    [str.lower], [str()] of non-strings and of exceptions, the [json]
    module) are parameters of the handlers. *)

From Stdlib Require Import ZArith QArith String List Ascii DecimalString Lia.
From stdpp Require Import gmap strings list fin_maps.

Local Open Scope string_scope.
Local Open Scope list_scope.
Set Warnings "-register-all".

(** ** Python values *)

(** The values that flow through the handlers: what [json.load] can return
    and what the handlers build.  JSON numbers are covered for integers
    only; no handler computes with a number.  A [dict] keeps its insertion
    order, as Python's does; [PDict] is read through [assoc], which takes
    the first binding of a key. *)
Inductive pyval : Type :=
| PNone
| PBool (b : bool)
| PInt (z : Z)
| PStr (s : string)
| PList (l : list pyval)
| PDict (d : list (string * pyval)).

(** Exceptions.  The first five come from the outside and carry the
    provider's text: [json.load] raises [JSONDecodeError] on text that is
    not JSON, [UnicodeDecodeError] when the bytes of the file are not text
    in its encoding, [RecursionError] when the document is nested deeper
    than the interpreter allows; the HTTP transport and the completion
    provider raise the next two.  The others are raised by the operations
    on [pyval] below. *)
Inductive exn : Type :=
| JSONDecodeError (msg : string)
| UnicodeDecodeError (msg : string)
| RecursionError (msg : string)
| TransportError (msg : string)
| ProviderError (msg : string)
| TypeError (operation : string) (v : pyval)
| KeyError (key : pyval)
| IndexError (v : pyval)
| AttributeError (v : pyval) (attr : string).

Inductive outcome (A : Type) : Type :=
| Ok (a : A)
| Raised (e : exn).
Arguments Ok {A} a.
Arguments Raised {A} e.

Definition nl : string := String (ascii_of_nat 10) "".

Definition string_of_Z (z : Z) : string := NilZero.string_of_int (Z.to_int z).

(** [x in s] for two strings: [sub] occurs in [s]. *)
Fixpoint str_contains (sub s : string) : bool :=
  String.prefix sub s ||
  match s with
  | EmptyString => false
  | String _ s' => str_contains sub s'
  end.

Fixpoint assoc (k : string) (d : list (string * pyval)) : option pyval :=
  match d with
  | [] => None
  | (k', v) :: d' => if String.eqb k k' then Some v else assoc k d'
  end.

(** Truth value of an object, as [if x:] and [x or y] take it. *)
Definition py_truthy (v : pyval) : bool :=
  match v with
  | PNone => false
  | PBool b => b
  | PInt z => negb (z =? 0)%Z
  | PStr s => negb (String.eqb s "")
  | PList l => match l with [] => false | _ => true end
  | PDict d => match d with [] => false | _ => true end
  end.

(** [x or []] *)
Definition py_or_empty_list (v : pyval) : pyval :=
  if py_truthy v then v else PList [].

(** [v[-1]] *)
Definition py_last (v : pyval) : outcome pyval :=
  match v with
  | PList l =>
      match last l with
      | Some x => Ok x
      | None => Raised (IndexError v)
      end
  | PStr s =>
      match last (list_ascii_of_string s) with
      | Some c => Ok (PStr (String c ""))
      | None => Raised (IndexError v)
      end
  | PDict _ => Raised (KeyError (PInt (-1)))
  | _ => Raised (TypeError "subscript" v)
  end.

(** [v[k]] for a string key [k] *)
Definition py_getitem (v : pyval) (k : string) : outcome pyval :=
  match v with
  | PDict d =>
      match assoc k d with
      | Some x => Ok x
      | None => Raised (KeyError (PStr k))
      end
  | _ => Raised (TypeError "subscript" v)
  end.

(** [v.get(k, default)] *)
Definition py_get (v : pyval) (k : string) (default : pyval) : outcome pyval :=
  match v with
  | PDict d => Ok (match assoc k d with Some x => x | None => default end)
  | _ => Raised (AttributeError v "get")
  end.

(** [v.append(x)]: only a list has the method. *)
Definition py_append (v x : pyval) : outcome (list pyval) :=
  match v with
  | PList l => Ok (l ++ [x])
  | _ => Raised (AttributeError v "append")
  end.

(** The elements of [v[:10]], in order.  A string is cut and iterated
    character by character; any other object raises (filed here under
    [TypeError], whatever the interpreter's own class for it). *)
Definition py_first10 (v : pyval) : outcome (list pyval) :=
  match v with
  | PList l => Ok (take 10 l)
  | PStr s =>
      Ok (map (fun c => PStr (String c "")) (take 10 (list_ascii_of_string s)))
  | _ => Raised (TypeError "slice" v)
  end.

(** [k in v] for a string [k] *)
Definition py_contains (k : string) (v : pyval) : outcome bool :=
  match v with
  | PDict d => Ok (match assoc k d with Some _ => true | None => false end)
  | PList l =>
      Ok (existsb (fun x => match x with PStr s => String.eqb s k | _ => false end) l)
  | PStr s => Ok (str_contains k s)
  | _ => Raised (TypeError "in" v)
  end.

(** A message of a prompt or of the session history: [{"role": r, "content": c}]. *)
Definition mk_message (role content : string) : pyval :=
  PDict [("role", PStr role); ("content", PStr content)].

(** A record of the archive: [{"timestamp": ts, "session": history}]. *)
Definition mk_record (timestamp : string) (session : pyval) : pyval :=
  PDict [("timestamp", PStr timestamp); ("session", session)].

(** [keys] has no repetition. *)
Fixpoint distinct (keys : list string) : bool :=
  match keys with
  | [] => true
  | k :: rest => negb (existsb (String.eqb k) rest) && distinct rest
  end.

(** A value made of [None], booleans, strings, lists and dicts whose keys
    are distinct: the values the archive is made of. *)
Fixpoint textual (v : pyval) : bool :=
  match v with
  | PNone | PBool _ | PStr _ => true
  | PInt _ => false
  | PList l => forallb textual l
  | PDict d => distinct (map fst d) && forallb (fun kv => textual (snd kv)) d
  end.

(** [history[-n:]] *)
Definition last_n {A : Type} (n : nat) (l : list A) : list A :=
  drop (length l - n) l.

(** ** The outside world *)

(** What [requests.get] hands back: the status code and the result of
    [response.json()], which raises when the body is not JSON. *)
Record Response : Type := mkResponse {
  status_code : Z;
  json : outcome pyval }.

(** A call to the completion provider, as each variant makes it:
    [Runner.run_sync(starting_agent=Agent(name, instructions, model), input,
    run_config)] in chat.py, [litellm.completion(model, messages,
    temperature)] in chatlit.py. *)
Inductive CompletionRequest : Type :=
| RunnerRunSync (agent_name instructions : string) (input : list pyval)
| LitellmCompletion (model : string) (messages : list pyval) (temperature : Q).

Definition request_messages (r : CompletionRequest) : list pyval :=
  match r with
  | RunnerRunSync _ _ input => input
  | LitellmCompletion _ messages _ => messages
  end.

Inductive event : Type :=
| Completion (request : CompletionRequest) (reply : outcome string)
| HttpGet (url : string) (reply : outcome Response)
| PathExists (filename : string) (present : bool)
| FileRead (filename : string)
| FileWrite (filename : string) (text : string)
| ClockRead (timestamp : string)
| MessageSent (content : string)
| Printed (line : string).

(** The providers answer a request by its position in the log and its
    content, so one [Env] fixes one possible behaviour of the outside. *)
Record Env : Type := mkEnv {
  llm : nat -> CompletionRequest -> outcome string;
  requests_get : nat -> string -> outcome Response;
  strftime_now : nat -> string }.

Record World : Type := mkWorld {
  files : gmap string string;
  chat_history : option pyval;
  log : list event }.

(** ** The monad of the handlers *)

Definition M (A : Type) : Type := World -> outcome A * World.

Definition ret {A : Type} (a : A) : M A := fun w => (Ok a, w).

Definition bind {A B : Type} (m : M A) (k : A -> M B) : M B :=
  fun w =>
    match m w with
    | (Ok a, w') => k a w'
    | (Raised e, w') => (Raised e, w')
    end.

Definition lift {A : Type} (o : outcome A) : M A := fun w => (o, w).

(** [try: body except Exception as e: handler(e)] *)
Definition try_except {A : Type} (body : M A) (handler : exn -> M A) : M A :=
  fun w =>
    match body w with
    | (Ok a, w') => (Ok a, w')
    | (Raised e, w') => handler e w'
    end.

(** [try: body except json.JSONDecodeError: handler] *)
Definition try_except_json {A : Type} (body : M A) (handler : M A) : M A :=
  fun w =>
    match body w with
    | (Raised (JSONDecodeError _), w') => handler w'
    | r => r
    end.

Notation "'let*' x ':=' m 'in' k" := (bind m (fun x => k))
  (at level 10, x name, m at level 100, k at level 200).
Notation "'let*' ' p ':=' m 'in' k" := (bind m (fun x => match x with p => k end))
  (at level 10, p pattern, m at level 100, k at level 200).
Notation "'do*' m 'in' k" := (bind m (fun _ => k))
  (at level 10, m at level 100, k at level 200).

Definition emit (e : event) : M unit :=
  fun w => (Ok tt, mkWorld (files w) (chat_history w) (log w ++ [e])).

(** [cl.user_session.get("chat_history")]: [None] when never set. *)
Definition session_get : M pyval :=
  fun w => (Ok (default PNone (chat_history w)), w).

(** [cl.user_session.set("chat_history", v)] *)
Definition session_set (v : pyval) : M unit :=
  fun w => (Ok tt, mkWorld (files w) (Some v) (log w)).

(** [os.path.exists(filename)] *)
Definition path_exists (filename : string) : M bool :=
  fun w =>
    let b := bool_decide (is_Some (files w !! filename)) in
    (Ok b, mkWorld (files w) (chat_history w) (log w ++ [PathExists filename b])).

(** The content of a file that exists, opened with [open(filename, "r")];
    its bytes are decoded when [json.load] reads them.  Opening and
    writing the archive do not fail in this model. *)
Definition read_file (filename : string) : M string :=
  fun w =>
    (Ok (default "" (files w !! filename)),
     mkWorld (files w) (chat_history w) (log w ++ [FileRead filename])).

(** [open(filename, "w")] followed by writing [text]. *)
Definition write_file (filename text : string) : M unit :=
  fun w =>
    (Ok tt,
     mkWorld (<[filename := text]> (files w)) (chat_history w)
             (log w ++ [FileWrite filename text])).

Definition send_message (content : string) : M unit := emit (MessageSent content).

Definition print (line : string) : M unit := emit (Printed line).

(** ** The two variants *)

Inductive variant : Type := chat | chatlit.

(** chat.py wraps every completion in an agent with a name and
    instructions of its own; chatlit.py passes the same model and
    temperature at each of its call sites and has no use for the two
    strings. *)
Definition completion_request (v : variant) (agent_name instructions : string)
    (prompt : list pyval) : CompletionRequest :=
  match v with
  | chat => RunnerRunSync agent_name instructions prompt
  | chatlit => LitellmCompletion "gemini/gemini-2.0-flash" prompt (7 # 10)
  end.

(** The [category_mapping] dict of chatlit.py's [get_real_news]. *)
Definition category_mapping : gmap string string :=
  list_to_map [("tech", "technology"); ("finance", "business"); ("health", "health")].

(** The [valid_categories] dict of [main]. *)
Definition valid_categories : gmap string string :=
  list_to_map [("news-tech", "technology"); ("news-health", "health");
               ("news-business", "business"); ("news-crypto", "cryptocurrency")].

Definition everything_endpoint : string := "https://newsapi.org/v2/everything?q=".
Definition top_headlines_endpoint : string :=
  "https://newsapi.org/v2/top-headlines?category=".

Definition summary_instructions : string :=
  "Summarize the following conversation history concisely, focusing on key details like the user's name, preferences, or previous search topics.".

Definition classification_instructions : string :=
  "Classify the user's message based on the conversation history and current input:" +:+ nl +:+
  "- If the user wants the **latest news**, classify it as one of: 'news-tech', 'news-health', 'news-business', 'news-crypto'." +:+ nl +:+
  "- If the user is asking a **general question** (e.g., definition, explanation, or follow-up like 'What was my last search?'), return 'general'." +:+ nl +:+
  "Consider the conversation history to identify follow-up questions or context (e.g., user’s name or previous searches)." +:+ nl +:+
  "Examples:" +:+ nl +:+
  "- 'What is an ulcer?' → general" +:+ nl +:+
  "- 'Tell me the latest about crypto' → news-crypto" +:+ nl +:+
  "- 'Explain AI' → general" +:+ nl +:+
  "- 'Any business updates?' → news-business" +:+ nl +:+
  "- 'What was my last news search?' → general" +:+ nl.

Definition news_instructions (category : string) : string :=
  "You are a smart news assistant. Summarize the following " +:+ category +:+
  " news for a user. " +:+
  "Use the conversation history summary to tailor the response if relevant.".

Definition general_instructions : string :=
  "You are a helpful assistant. Answer the user's question based on the conversation history provided below. " +:+
  "If the user asks about information from previous messages (e.g., their name or past searches), use the history to respond accurately.".

(** The content of the system message at the three prompt sites:
    [( "..." "..." f"\nConversation history summary: {history_summary}"
       if history_summary else "" )].
    Adjacent literals are joined before the conditional is read, so the
    instructions sit in its first branch together with the summary line. *)
Definition system_content (instructions history_summary : string) : string :=
  if String.eqb history_summary "" then ""
  else instructions +:+ nl +:+ "Conversation history summary: " +:+ history_summary.

Definition greeting : string :=
  "👋 Hi! Ask me about tech, health, business, or crypto news, or tell me something about yourself!".

Definition archive_file : string := "chat_history.json".

(** ** The handlers *)

(** The Python runtime: [str.strip], [str.lower], [str(x)] for an [x] that
    is not a string, [str(e)] for an exception, the [json] module
    ([json.load] on the content of a file, which it decodes and then
    parses, [json.dump] with [indent=2]), and the news key read from the
    process environment. *)
Record Runtime : Type := mkRuntime {
  str_strip : string -> string;
  str_lower : string -> string;
  py_repr : pyval -> string;
  exn_str : exn -> string;
  json_load : string -> outcome pyval;
  json_dump : pyval -> string;
  NEWS_API_KEY : string }.

Section Handlers.

Variable rt : Runtime.
Variable env : Env.

(** [f"{x}"] *)
Definition py_str (x : pyval) : string :=
  match x with
  | PStr s => s
  | _ => rt.(py_repr) x
  end.

(** One completion call; the reply is the text the variant reads off
    the result ([final_output], [choices[0].message.content]). *)
Definition complete (v : variant) (agent_name instructions : string)
    (prompt : list pyval) : M string :=
  fun w =>
    let request := completion_request v agent_name instructions prompt in
    let reply := llm env (length (log w)) request in
    (reply, mkWorld (files w) (chat_history w) (log w ++ [Completion request reply])).

(** [requests.get(url)] *)
Definition http_get (url : string) : M Response :=
  fun w =>
    let reply := requests_get env (length (log w)) url in
    (reply, mkWorld (files w) (chat_history w) (log w ++ [HttpGet url reply])).

(** [datetime.now().strftime("%Y-%m-%d %H:%M:%S")] *)
Definition clock : M string :=
  fun w =>
    let ts := strftime_now env (length (log w)) in
    (Ok ts, mkWorld (files w) (chat_history w) (log w ++ [ClockRead ts])).

Definition news_url (v : variant) (category : string) : string :=
  match v with
  | chat =>
      if String.eqb category "cryptocurrency" then
        everything_endpoint +:+ category +:+ "&apiKey=" +:+ rt.(NEWS_API_KEY) +:+
        "&language=en&sortBy=publishedAt"
      else
        top_headlines_endpoint +:+ category +:+ "&apiKey=" +:+ rt.(NEWS_API_KEY) +:+
        "&language=en"
  | chatlit =>
      let newsapi_category := default category (category_mapping !! category) in
      top_headlines_endpoint +:+ newsapi_category +:+ "&apiKey=" +:+ rt.(NEWS_API_KEY) +:+
      "&language=en"
  end.

(** [[f"- {article['title']}" for article in articles if 'title' in article]] *)
Fixpoint title_lines (articles : list pyval) : outcome (list string) :=
  match articles with
  | [] => Ok []
  | article :: rest =>
      match py_contains "title" article with
      | Raised e => Raised e
      | Ok false => title_lines rest
      | Ok true =>
          match py_getitem article "title" with
          | Raised e => Raised e
          | Ok title =>
              match title_lines rest with
              | Raised e => Raised e
              | Ok lines => Ok (("- " +:+ py_str title) :: lines)
              end
          end
      end
  end.

Definition get_real_news (v : variant) (category : string) : M string :=
  let url := news_url v category in
  try_except
    (let* response := http_get url in
     if negb (status_code response =? 200)%Z then
       let* body := lift (json response) in
       let* message := lift (py_get body "message" (PStr "Unknown error")) in
       ret ("Failed to fetch news: HTTP " +:+ string_of_Z (status_code response) +:+
            " - " +:+ py_str message)
     else
       let* body := lift (json response) in
       let* found := lift (py_get body "articles" (PList [])) in
       let* articles := lift (py_first10 found) in
       let* lines := lift (title_lines articles) in
       ret (String.concat nl lines))
    (fun e => ret ("Failed to fetch news: " +:+ rt.(exn_str) e)).

(** [[f"{msg['role']}: {msg['content']}" for msg in history]] *)
Fixpoint history_lines (history : list pyval) : outcome (list string) :=
  match history with
  | [] => Ok []
  | msg :: rest =>
      match py_getitem msg "role" with
      | Raised e => Raised e
      | Ok role =>
          match py_getitem msg "content" with
          | Raised e => Raised e
          | Ok content =>
              match history_lines rest with
              | Raised e => Raised e
              | Ok lines => Ok ((py_str role +:+ ": " +:+ py_str content) :: lines)
              end
          end
      end
  end.

Definition summarize_history (v : variant) (history : list pyval) : M string :=
  match history with
  | [] => ret ""
  | _ =>
      let* lines := lift (history_lines history) in
      let prompt :=
        [mk_message "system" summary_instructions;
         mk_message "user" (String.concat nl lines)] in
      complete v "Summarizer" "Summarize conversation history" prompt
  end.

(** [summarize_history(history) if len(history) > 10 else ""] *)
Definition history_summary_of (v : variant) (history : list pyval) : M string :=
  if (10 <? length history)%nat then summarize_history v history else ret "".

Definition summarize_with_llm (v : variant) (news_text category : string)
    (history : list pyval) : M string :=
  let* history_summary := history_summary_of v history in
  let prompt :=
    [mk_message "system" (system_content (news_instructions category) history_summary);
     mk_message "user" news_text] ++ last_n 5 history in
  complete v "Summarizer" "Summarize news" prompt.

(** chat.py also stores its run configuration and a triage agent in the
    session; no handler reads them back. *)
Definition start : M unit :=
  let filename := archive_file in
  let* present := path_exists filename in
  let* history :=
    (if present then
       try_except_json
         (let* text := read_file filename in
          let* all_history := lift (rt.(json_load) text) in
          if py_truthy all_history then
            let* most_recent := lift (py_last all_history) in
            lift (py_getitem most_recent "session")
          else ret (PList []))
         (ret (PList []))
     else ret (PList [])) in
  do* session_set history in
  send_message greeting.

Definition classification_prompt (history : list pyval)
    (history_summary content : string) : list pyval :=
  [mk_message "system" (system_content classification_instructions history_summary)]
  ++ last_n 5 history ++ [mk_message "user" content].

Definition general_prompt (history : list pyval) (history_summary : string)
    : list pyval :=
  [mk_message "system" (system_content general_instructions history_summary)]
  ++ last_n 10 history.

(** [main] up to [topic = ....strip().lower()]: the history with the
    incoming message appended, and the topic. *)
Definition classify (v : variant) (content : string) : M (list pyval * string) :=
  let* stored := session_get in
  let* history :=
    lift (py_append (py_or_empty_list stored) (mk_message "user" content)) in
  do* session_set (PList history) in
  let* history_summary := history_summary_of v history in
  let* output :=
    complete v "Triage Agent" "Classify message with history context"
      (classification_prompt history history_summary content) in
  ret (history, rt.(str_lower) (rt.(str_strip) output)).

(** The two branches of [main] on [topic in valid_categories]. *)
Definition respond (v : variant) (history : list pyval) (topic : string) : M string :=
  match valid_categories !! topic with
  | Some category =>
      let* news := get_real_news v category in
      let* summary := summarize_with_llm v news category history in
      ret ("📰 Here is the latest **" +:+ category +:+ "** news:" +:+ nl +:+ nl +:+ summary)
  | None =>
      let* history_summary := history_summary_of v history in
      complete v "General Assistant"
        "Answer general queries with context from chat history"
        (general_prompt history history_summary)
  end.

Definition main (v : variant) (content : string) : M unit :=
  let* '(history, topic) := classify v content in
  let* response := respond v history topic in
  do* session_set (PList (history ++ [mk_message "assistant" response])) in
  send_message response.

Definition end_ : M unit :=
  let* history := session_get in
  if negb (py_truthy history) then ret tt
  else
    let filename := archive_file in
    let* present := path_exists filename in
    let* all_history :=
      (if present then
         try_except_json
           (let* text := read_file filename in lift (rt.(json_load) text))
           (ret (PList []))
       else ret (PList [])) in
    let* all_history :=
      match all_history with
      | PList records =>
          let* timestamp := clock in
          ret (records ++ [mk_record timestamp history])
      | _ => lift (Raised (AttributeError all_history "append"))
      end in
    do* write_file filename (rt.(json_dump) (PList all_history)) in
    print ("✅ Chat history saved to " +:+ filename).

(** *** Derived computations, used to state the properties *)

(** A prompt site of [main] and [summarize_with_llm]: the optional
    history summary, then one completion whose system message embeds it. *)
Definition summarized_call (v : variant) (history : list pyval)
    (agent_name instr instructions : string) (rest : string -> list pyval)
    : M string :=
  let* history_summary := history_summary_of v history in
  complete v agent_name instr
    (mk_message "system" (system_content instructions history_summary)
     :: rest history_summary).

(** What the body of the [try] returns once the transport has answered. *)
Definition fetch_result (response : Response) : outcome string :=
  if negb (status_code response =? 200)%Z then
    match json response with
    | Raised e => Raised e
    | Ok body =>
        match py_get body "message" (PStr "Unknown error") with
        | Raised e => Raised e
        | Ok message =>
            Ok ("Failed to fetch news: HTTP " +:+ string_of_Z (status_code response) +:+
                " - " +:+ py_str message)
        end
    end
  else
    match json response with
    | Raised e => Raised e
    | Ok body =>
        match py_get body "articles" (PList []) with
        | Raised e => Raised e
        | Ok found =>
            match py_first10 found with
            | Raised e => Raised e
            | Ok articles =>
                match title_lines articles with
                | Raised e => Raised e
                | Ok lines => Ok (String.concat nl lines)
                end
            end
        end
    end.

Definition news_text (reply : outcome Response) : string :=
  match reply with
  | Raised e => "Failed to fetch news: " +:+ rt.(exn_str) e
  | Ok response =>
      match fetch_result response with
      | Ok text => text
      | Raised e => "Failed to fetch news: " +:+ rt.(exn_str) e
      end
  end.

(** The archive [end] starts from: the empty list when there is no file
    or its text is rejected, what [json.load] returns otherwise. *)
Definition loaded_archive (w : World) : outcome pyval :=
  match files w !! archive_file with
  | None => Ok (PList [])
  | Some text =>
      match rt.(json_load) text with
      | Raised (JSONDecodeError _) => Ok (PList [])
      | r => r
      end
  end.

(** A session ends with [history] in memory. *)
Definition session_end (history : pyval) (w : World) : World :=
  (end_ (mkWorld (files w) (Some history) (log w))).2.

(** One session after the other ends, each with its own history. *)
Fixpoint sessions_end (sessions : list pyval) (w : World) : World :=
  match sessions with
  | [] => w
  | history :: rest => sessions_end rest (session_end history w)
  end.

(** The records of [sessions], stamped with the clock's readings at the
    given positions of the log. *)
Definition stamped (sessions : list pyval) (readings : list nat) : list pyval :=
  zip_with (fun history n => mk_record (strftime_now env n) history) sessions readings.

(** The provider answers the messages, whatever API carries them. *)
Definition api_blind : Prop :=
  forall n r r', request_messages r = request_messages r' -> llm env n r = llm env n r'.

End Handlers.

(** ** A sample runtime

    Executable stand-ins for the runtime and the providers, used to run the
    handlers on concrete inputs.  A string is taken one character code
    (0..255) at a time. *)
Module Sample.

Definition is_space (c : ascii) : bool :=
  let n := nat_of_ascii c in
  ((9 <=? n) && (n <=? 13) || (28 <=? n) && (n <=? 32))%nat.

Fixpoint lstrip (s : string) : string :=
  match s with
  | String c s' => if is_space c then lstrip s' else s
  | EmptyString => EmptyString
  end.

Fixpoint rstrip (s : string) : string :=
  match s with
  | String c s' =>
      match rstrip s' with
      | EmptyString => if is_space c then EmptyString else String c EmptyString
      | t => String c t
      end
  | EmptyString => EmptyString
  end.

Definition strip (s : string) : string := rstrip (lstrip s).

Definition lower_char (c : ascii) : ascii :=
  let n := nat_of_ascii c in
  if ((65 <=? n) && (n <=? 90))%nat then ascii_of_nat (n + 32) else c.

Fixpoint lower (s : string) : string :=
  match s with
  | String c s' => String (lower_char c) (lower s')
  | EmptyString => EmptyString
  end.

Definition repr (v : pyval) : string :=
  match v with
  | PNone => "None"
  | PBool true => "True"
  | PBool false => "False"
  | PInt z => string_of_Z z
  | PStr s => s
  | PList _ => "[...]"
  | PDict _ => "{...}"
  end.

Definition exn_text (e : exn) : string :=
  match e with
  | JSONDecodeError msg => msg
  | UnicodeDecodeError msg => msg
  | RecursionError msg => msg
  | TransportError msg => msg
  | ProviderError msg => msg
  | TypeError operation _ => "unsupported operand for " +:+ operation
  | KeyError key => repr key
  | IndexError _ => "index out of range"
  | AttributeError _ attr => "object has no attribute " +:+ attr
  end.

(** *** JSON text *)

Definition dq : ascii := ascii_of_nat 34.
Definition backslash : ascii := ascii_of_nat 92.

Definition hex_digit (n : nat) : ascii :=
  if (n <? 10)%nat then ascii_of_nat (48 + n) else ascii_of_nat (87 + n).

Definition hex_value (c : ascii) : option nat :=
  let n := nat_of_ascii c in
  if ((48 <=? n) && (n <=? 57))%nat then Some (n - 48)
  else if ((97 <=? n) && (n <=? 102))%nat then Some (n - 87)
  else if ((65 <=? n) && (n <=? 70))%nat then Some (n - 55)
  else None.

(** One character of a string literal, escaped as [json.dump] does with
    [ensure_ascii]. *)
Definition escape_char (c : ascii) : string :=
  let n := nat_of_ascii c in
  if (n =? 34)%nat then String backslash (String dq "")
  else if (n =? 92)%nat then String backslash (String backslash "")
  else if (n =? 10)%nat then String backslash "n"
  else if (n =? 13)%nat then String backslash "r"
  else if (n =? 9)%nat then String backslash "t"
  else if (n =? 8)%nat then String backslash "b"
  else if (n =? 12)%nat then String backslash "f"
  else if ((32 <=? n) && (n <=? 126))%nat then String c ""
  else String backslash
         (String "u" (String "0" (String "0"
            (String (hex_digit (n / 16)) (String (hex_digit (n mod 16)) ""))))).

Fixpoint escape (s : string) : string :=
  match s with
  | String c s' => escape_char c +:+ escape s'
  | EmptyString => EmptyString
  end.

Definition quote (s : string) : string :=
  String dq (escape s +:+ String dq "").

Fixpoint spaces (n : nat) : string :=
  match n with
  | O => ""
  | S n' => String " " (spaces n')
  end.

(** The items of a list after the first, each behind [sep], then [close]. *)
Definition join_items (render : pyval -> string) (sep close : string)
  : list pyval -> string :=
  fix go (l : list pyval) : string :=
    match l with
    | [] => close
    | y :: l' => sep +:+ render y +:+ go l'
    end.

(** The members of a dict after the first. *)
Definition join_members (render : pyval -> string) (sep close : string)
  : list (string * pyval) -> string :=
  fix go (l : list (string * pyval)) : string :=
    match l with
    | [] => close
    | (k, y) :: l' => sep +:+ quote k +:+ ": " +:+ render y +:+ go l'
    end.

(** [json.dumps(v, indent=2)], at nesting depth [depth]. *)
Fixpoint dump_at (depth : nat) (v : pyval) : string :=
  let inner := S depth in
  match v with
  | PNone => "null"
  | PBool true => "true"
  | PBool false => "false"
  | PInt z => string_of_Z z
  | PStr s => quote s
  | PList [] => "[]"
  | PList (x :: xs) =>
      "[" +:+ nl +:+ spaces (2 * inner) +:+ dump_at inner x +:+
      join_items (dump_at inner) ("," +:+ nl +:+ spaces (2 * inner))
        (nl +:+ spaces (2 * depth) +:+ "]") xs
  | PDict [] => "{}"
  | PDict ((k, x) :: kxs) =>
      "{" +:+ nl +:+ spaces (2 * inner) +:+ quote k +:+ ": " +:+ dump_at inner x +:+
      join_members (dump_at inner) ("," +:+ nl +:+ spaces (2 * inner))
        (nl +:+ spaces (2 * depth) +:+ "}") kxs
  end.

Definition dump (v : pyval) : string := dump_at 0 v.

Definition is_json_space (c : ascii) : bool :=
  let n := nat_of_ascii c in
  ((n =? 32) || (n =? 10) || (n =? 13) || (n =? 9))%nat.

Fixpoint skip_ws (s : string) : string :=
  match s with
  | String c s' => if is_json_space c then skip_ws s' else s
  | EmptyString => EmptyString
  end.

(** The rest of a string literal, after its opening quote: the decoded
    text and what follows the closing quote. *)
Fixpoint parse_chars (s : string) : option (string * string) :=
  match s with
  | EmptyString => None
  | String c s' =>
      let n := nat_of_ascii c in
      if (n =? 34)%nat then Some ("", s')
      else if (n =? 92)%nat then
        match s' with
        | String e s'' =>
            let plain (d : nat) :=
              match parse_chars s'' with
              | Some (t, r) => Some (String (ascii_of_nat d) t, r)
              | None => None
              end in
            match nat_of_ascii e with
            | 34 => plain 34%nat
            | 92 => plain 92%nat
            | 47 => plain 47%nat
            | 98 => plain 8%nat
            | 102 => plain 12%nat
            | 110 => plain 10%nat
            | 114 => plain 13%nat
            | 116 => plain 9%nat
            | 117 =>
                match s'' with
                | String h1 (String h2 (String h3 (String h4 s4))) =>
                    match hex_value h1, hex_value h2, hex_value h3, hex_value h4 with
                    | Some 0%nat, Some 0%nat, Some a, Some b =>
                        match parse_chars s4 with
                        | Some (t, r) => Some (String (ascii_of_nat (16 * a + b)) t, r)
                        | None => None
                        end
                    | _, _, _, _ => None
                    end
                | _ => None
                end
            | _ => None
            end
        | EmptyString => None
        end
      else if (n <? 32)%nat then None
      else
        match parse_chars s' with
        | Some (t, r) => Some (String c t, r)
        | None => None
        end
  end.

Definition is_digit (c : ascii) : bool :=
  let n := nat_of_ascii c in ((48 <=? n) && (n <=? 57))%nat.

Fixpoint parse_digits (acc : Z) (s : string) : Z * string :=
  match s with
  | String c s' =>
      if is_digit c then parse_digits (10 * acc + Z.of_nat (nat_of_ascii c - 48)) s'
      else (acc, s)
  | EmptyString => (acc, s)
  end.

(** [d[k] = v] on a dict under construction: a repeated key keeps its
    place and takes the later value. *)
Fixpoint dict_set (k : string) (v : pyval) (d : list (string * pyval))
    : list (string * pyval) :=
  match d with
  | [] => [(k, v)]
  | (k', v') :: d' =>
      if String.eqb k k' then (k', v) :: d' else (k', v') :: dict_set k v d'
  end.

Fixpoint starts_with (p s : string) : option string :=
  match p, s with
  | EmptyString, _ => Some s
  | String a p', String b s' => if Ascii.eqb a b then starts_with p' s' else None
  | String _ _, EmptyString => None
  end.

(** An integer literal without its sign; a leading zero stands alone. *)
Definition parse_nat (s : string) : option (Z * string) :=
  match s with
  | String c s' =>
      if (nat_of_ascii c =? 48)%nat then Some (0%Z, s')
      else if is_digit c then Some (parse_digits 0 s)
      else None
  | EmptyString => None
  end.

Fixpoint parse_value (fuel : nat) (s : string) : option (pyval * string) :=
  match fuel with
  | O => None
  | S fuel' =>
      match skip_ws s with
      | EmptyString => None
      | String c rest =>
          match nat_of_ascii c with
          | 91 =>
              match skip_ws rest with
              | String "]" r => Some (PList [], r)
              | _ =>
                  match parse_items fuel' rest with
                  | Some (vs, r) => Some (PList vs, r)
                  | None => None
                  end
              end
          | 123 =>
              match skip_ws rest with
              | String "}" r => Some (PDict [], r)
              | _ =>
                  match parse_members fuel' [] rest with
                  | Some (d, r) => Some (PDict d, r)
                  | None => None
                  end
              end
          | 34 =>
              match parse_chars rest with
              | Some (t, r) => Some (PStr t, r)
              | None => None
              end
          | 45 =>
              match parse_nat rest with
              | Some (z, r) => Some (PInt (- z), r)
              | None => None
              end
          | _ =>
              if is_digit c then
                match parse_nat (String c rest) with
                | Some (z, r) => Some (PInt z, r)
                | None => None
                end
              else
                match starts_with "null" (String c rest) with
                | Some r => Some (PNone, r)
                | None =>
                    match starts_with "true" (String c rest) with
                    | Some r => Some (PBool true, r)
                    | None =>
                        match starts_with "false" (String c rest) with
                        | Some r => Some (PBool false, r)
                        | None => None
                        end
                    end
                end
          end
      end
  end
with parse_items (fuel : nat) (s : string) : option (list pyval * string) :=
  match fuel with
  | O => None
  | S fuel' =>
      match parse_value fuel' s with
      | Some (v, r) =>
          match skip_ws r with
          | String "," r' =>
              match parse_items fuel' r' with
              | Some (vs, r'') => Some (v :: vs, r'')
              | None => None
              end
          | String "]" r' => Some ([v], r')
          | _ => None
          end
      | None => None
      end
  end
with parse_members (fuel : nat) (acc : list (string * pyval)) (s : string)
    : option (list (string * pyval) * string) :=
  match fuel with
  | O => None
  | S fuel' =>
      match skip_ws s with
      | String q s1 =>
          if (nat_of_ascii q =? 34)%nat then
            match parse_chars s1 with
            | Some (k, s2) =>
                match skip_ws s2 with
                | String ":" s3 =>
                    match parse_value fuel' s3 with
                    | Some (v, r) =>
                        let acc' := dict_set k v acc in
                        match skip_ws r with
                        | String "," r' => parse_members fuel' acc' r'
                        | String "}" r' => Some (acc', r')
                        | _ => None
                        end
                    | None => None
                    end
                | _ => None
                end
            | None => None
            end
          else None
      | EmptyString => None
      end
  end.

(** [json.loads(text)]: one value, with nothing but blanks after it.
    Numbers with a fraction or an exponent have no [pyval] and are
    reported like malformed text. *)
Definition load (text : string) : outcome pyval :=
  match parse_value (S (String.length text)) text with
  | Some (v, r) =>
      match skip_ws r with
      | EmptyString => Ok v
      | _ => Raised (JSONDecodeError "Extra data")
      end
  | None => Raised (JSONDecodeError "Expecting value")
  end.

(** Fuel that is enough to parse the text of a value. *)
Fixpoint weight (v : pyval) : nat :=
  match v with
  | PList l => 2 + list_sum (map weight l)
  | PDict d => 2 + list_sum (map (fun kv => weight (snd kv)) d)
  | _ => 1
  end.

(** The text of [v], at any depth and before any text, parses back to [v]. *)
Definition parses (v : pyval) : Prop :=
  forall depth rest fuel,
    weight v <= fuel ->
    parse_value fuel (dump_at depth v +:+ rest) = Some (v, rest).

(** The first character of the text of a textual value. *)
Inductive opening : ascii -> Prop :=
| open_null : opening "n"
| open_true : opening "t"
| open_false : opening "f"
| open_string : opening dq
| open_list : opening "["
| open_dict : opening "{".

Definition no_reply : Env :=
  mkEnv (fun _ _ => Raised (ProviderError "no provider"))
        (fun _ _ => Raised (TransportError "no network"))
        (fun _ => "1970-01-01 00:00:00").

Definition empty_world : World := mkWorld ∅ None [].

Definition runtime : Runtime :=
  mkRuntime strip lower repr exn_text load dump "KEY".

(** The continuation bytes a lead byte calls for, each with the range it
    must fall in (the table of well-formed UTF-8 byte sequences); [None]
    for a byte that starts no sequence. *)
Definition utf8_sequence (lead : ascii) : option (list (nat * nat)) :=
  let n := nat_of_ascii lead in
  if (n <=? 127)%nat then Some []
  else if ((194 <=? n) && (n <=? 223))%nat then Some [(128, 191)]
  else if (n =? 224)%nat then Some [(160, 191); (128, 191)]
  else if (n =? 237)%nat then Some [(128, 159); (128, 191)]
  else if ((225 <=? n) && (n <=? 239))%nat then Some [(128, 191); (128, 191)]
  else if (n =? 240)%nat then Some [(144, 191); (128, 191); (128, 191)]
  else if ((241 <=? n) && (n <=? 243))%nat then Some [(128, 191); (128, 191); (128, 191)]
  else if (n =? 244)%nat then Some [(128, 143); (128, 191); (128, 191)]
  else None.

(** The bytes of [s] decode as UTF-8, [pending] being the continuation
    bytes the sequence under way still needs. *)
Fixpoint decodes_from (pending : list (nat * nat)) (s : string) : bool :=
  match s with
  | EmptyString => match pending with [] => true | _ => false end
  | String c rest =>
      match pending with
      | [] =>
          match utf8_sequence c with
          | Some needed => decodes_from needed rest
          | None => false
          end
      | (lo, hi) :: needed =>
          ((lo <=? nat_of_ascii c) && (nat_of_ascii c <=? hi))%nat
          && decodes_from needed rest
      end
  end.

Definition valid_utf8 (s : string) : bool := decodes_from [] s.

(** [json.load(f)] on a file opened in text mode where the encoding is
    UTF-8: the bytes are decoded before the parser sees the text. *)
Definition load_utf8 (text : string) : outcome pyval :=
  if valid_utf8 text then load text
  else Raised (UnicodeDecodeError "'utf-8' codec can't decode the file").

Definition utf8_runtime : Runtime :=
  mkRuntime strip lower repr exn_text load_utf8 dump "KEY".

(** Providers that give one answer to every completion and one to every
    news request; the clock stands still. *)
Definition answering (text : string) (news : outcome Response) : Env :=
  mkEnv (fun _ _ => Ok text) (fun _ _ => news) (fun _ => "1970-01-01 00:00:00").

Definition key_rejected : outcome Response :=
  Ok (mkResponse 401
        (Ok (PDict [("status", PStr "error"); ("code", PStr "apiKeyInvalid");
                    ("message", PStr "Your API key is invalid")]))).

Definition bad_gateway : outcome Response :=
  Ok (mkResponse 502 (Raised (JSONDecodeError "Expecting value: line 1 column 1 (char 0)"))).

Definition headlines : outcome Response :=
  Ok (mkResponse 200
        (Ok (PDict [("status", PStr "ok");
                    ("articles",
                     PList [PDict [("title", PStr "Markets rally")];
                            PDict [("source", PNone)];
                            PDict [("title", PStr "New chip announced")]])]))).

Definition greeting_exchange : list pyval :=
  [mk_message "user" "My name is Sam"; mk_message "assistant" "Nice to meet you, Sam"].

(** Ten earlier messages, so that the next one is the eleventh. *)
Definition ten_messages : list pyval :=
  greeting_exchange ++ greeting_exchange ++ greeting_exchange ++
  greeting_exchange ++ greeting_exchange.

Definition world_with_history (history : list pyval) : World :=
  mkWorld ∅ (Some (PList history)) [].

Definition world_with_archive (text : string) : World :=
  mkWorld {[ archive_file := text ]} None [].

End Sample.

(** ** Observations on a run *)

(** The events a computation adds to the log of [w]. *)
Definition trace_of {A : Type} (m : M A) (w : World) : list event :=
  drop (length (log w)) (log (m w).2).

(** The content of the first message of a completion request. *)
Definition prompt_head_content (r : CompletionRequest) : option string :=
  match request_messages r with
  | m :: _ =>
      match py_getitem m "content" with
      | Ok (PStr c) => Some c
      | _ => None
      end
  | [] => None
  end.

(** A history-summary call is a completion whose prompt opens with the
    instruction of [summarize_history]. *)
Definition is_history_summary_call (e : event) : bool :=
  match e with
  | Completion r _ =>
      match prompt_head_content r with
      | Some c => String.eqb c summary_instructions
      | None => false
      end
  | _ => false
  end.

Definition history_summary_calls (t : list event) : nat :=
  length (List.filter is_history_summary_call t).

Definition is_http_get (e : event) : bool :=
  match e with
  | HttpGet _ _ => true
  | _ => false
  end.

Definition http_requests (t : list event) : list string :=
  omap (fun e => match e with HttpGet url _ => Some url | _ => None end) t.

(** A message of the data model: a role and a content, both text. *)
Definition is_message (m : pyval) : Prop :=
  exists role content, m = mk_message role content.

(** The labels the classification prompt is meant to enumerate. *)
Definition label_vocabulary : list string :=
  ["news-tech"; "news-health"; "news-business"; "news-crypto"; "general"].

Definition enumerates_labels (text : string) : bool :=
  forallb (fun label => str_contains label text) label_vocabulary.

(** The history [main] works on once the incoming message is appended to
    what the session holds. *)
Definition turn_history (w : World) (content : string) : outcome (list pyval) :=
  py_append (py_or_empty_list (default PNone (chat_history w)))
            (mk_message "user" content).

(** ** Properties of the handlers *)

(** The request of [summarize_history] on a history flattened to [lines]. *)
Definition summary_request (v : variant) (lines : list string) : CompletionRequest :=
  completion_request v "Summarizer" "Summarize conversation history"
    [mk_message "system" summary_instructions;
     mk_message "user" (String.concat nl lines)].

Definition triage_request (v : variant) (history : list pyval) (hs content : string)
    : CompletionRequest :=
  completion_request v "Triage Agent" "Classify message with history context"
    (classification_prompt history hs content).

Definition general_request (v : variant) (history : list pyval) (hs : string)
    : CompletionRequest :=
  completion_request v "General Assistant"
    "Answer general queries with context from chat history" (general_prompt history hs).

Definition news_request (v : variant) (history : list pyval)
    (news category hs : string) : CompletionRequest :=
  completion_request v "Summarizer" "Summarize news"
    ([mk_message "system" (system_content (news_instructions category) hs);
      mk_message "user" news] ++ last_n 5 history).

Definition news_announcement (category summary : string) : string :=
  "📰 Here is the latest **" +:+ category +:+ "** news:" +:+ nl +:+ nl +:+ summary.


Definition archive_accesses (w : World) : list event :=
  match files w !! archive_file with
  | None => [PathExists archive_file false]
  | Some _ => [PathExists archive_file true; FileRead archive_file]
  end.

Definition saved_line : string := "✅ Chat history saved to " +:+ archive_file.

(** An event with the completion API taken out of a request: what is
    left is the list of messages and the reply. *)
Definition provider_view (e : event) : event :=
  match e with
  | Completion r reply => Completion (RunnerRunSync "" "" (request_messages r)) reply
  | _ => e
  end.

(** Two worlds that differ in the completion API alone. *)
Definition same_world (w w' : World) : Prop :=
  files w = files w' /\ chat_history w = chat_history w' /\
  map provider_view (log w) = map provider_view (log w').

(** Two computations that stay side by side from such worlds. *)
Definition same_run {A : Type} (m m' : M A) : Prop :=
  forall w w', same_world w w' ->
    (m w).1 = (m' w').1 /\ same_world (m w).2 (m' w').2.

(** ** Further observations *)

(** The title of an article that is a dict and has one. *)
Definition article_title (article : pyval) : option pyval :=
  match article with
  | PDict fields => assoc "title" fields
  | _ => None
  end.

Definition is_dict (v : pyval) : Prop := exists fields, v = PDict fields.

(** A call to a provider; a completion request that carries at most
    eleven messages. *)
Definition bounded_call (e : event) : bool :=
  match e with
  | Completion r _ => (length (request_messages r) <=? 11)%nat
  | HttpGet _ _ => true
  | _ => false
  end.

Definition is_provider_call (e : event) : bool :=
  match e with
  | Completion _ _ | HttpGet _ _ => true
  | _ => false
  end.

Definition is_completion (e : event) : bool :=
  match e with
  | Completion _ _ => true
  | _ => false
  end.

Definition is_message_sent (e : event) : bool :=
  match e with
  | MessageSent _ => true
  | _ => false
  end.

(** [m] leaves the files as they are and adds to the log only events that
    [allowed] accepts. *)
Definition confined {A : Type} (allowed : event -> bool) (m : M A) : Prop :=
  forall w,
    files (m w).2 = files w /\
    exists t, log (m w).2 = log w ++ t /\ forallb allowed t = true.

(** The session holds nothing yet, or a list of messages. *)
Definition holds_messages (w : World) : Prop :=
  match chat_history w with
  | None => True
  | Some (PList l) => Forall is_message l
  | Some _ => False
  end.

(** The history [start] takes from the text of the archive: the session
    of the last record; the empty list when the text is rejected or holds
    an empty document. *)
Definition resumed_history (rt : Runtime) (text : string) : outcome pyval :=
  match rt.(json_load) text with
  | Raised (JSONDecodeError _) => Ok (PList [])
  | Raised e => Raised e
  | Ok all_history =>
      if py_truthy all_history then
        match py_last all_history with
        | Raised e => Raised e
        | Ok most_recent => py_getitem most_recent "session"
        end
      else Ok (PList [])
  end.

(** The world the next session starts in: the files and the log as the
    last session left them, and a session that holds nothing. *)
Definition next_session (w : World) : World :=
  mkWorld (files w) None (log w).

(** The number of completion calls in a run. *)
Definition completions (t : list event) : nat :=
  length (List.filter is_completion t).

(** [m] makes at most [n] completion calls. *)
Definition within {A : Type} (n : nat) (m : M A) : Prop :=
  forall w, exists t, log (m w).2 = log w ++ t /\ completions t <= n.

Section Properties.

Variable rt : Runtime.
Variable env : Env.

(** *** Reading a run *)

Lemma trace_of_appended {A : Type} (m : M A) (w : World) (t : list event) :
  log (m w).2 = log w ++ t -> trace_of m w = t.
Proof. unfold trace_of. intros ->. apply drop_app_length. Qed.

Lemma bind_ok {A B : Type} (m : M A) (k : A -> M B) (w w1 : World) (a : A) :
  m w = (Ok a, w1) -> bind m k w = k a w1.
Proof. unfold bind. by intros ->. Qed.

Lemma bind_raised {A B : Type} (m : M A) (k : A -> M B) (w w1 : World) (e : exn) :
  m w = (Raised e, w1) -> bind m k w = (Raised e, w1).
Proof. unfold bind. by intros ->. Qed.

Lemma history_summary_calls_app (t1 t2 : list event) :
  history_summary_calls (t1 ++ t2) = history_summary_calls t1 + history_summary_calls t2.
Proof. unfold history_summary_calls. by rewrite List.filter_app, length_app. Qed.

Lemma history_summary_calls_cons (e : event) (t : list event) :
  history_summary_calls (e :: t) =
  (if is_history_summary_call e then 1 else 0) + history_summary_calls t.
Proof. unfold history_summary_calls. simpl. by destruct (is_history_summary_call e). Qed.

(** *** History summaries *)

Lemma history_lines_of_messages (history : list pyval) :
  Forall is_message history -> exists lines, history_lines rt history = Ok lines.
Proof.
  induction 1 as [|m rest [role [content ->]] _ [lines IH]]; [by exists []|].
  exists ((role +:+ ": " +:+ content) :: lines).
  simpl. by rewrite IH.
Qed.

Lemma history_summary_of_short (v : variant) (history : list pyval) (w : World) :
  length history <= 10 -> history_summary_of rt env v history w = (Ok "", w).
Proof.
  intros Hlen. unfold history_summary_of.
  destruct (Nat.ltb_spec 10 (length history)); [lia|done].
Qed.

Lemma history_summary_of_long (v : variant) (history : list pyval) (w : World) :
  10 < length history ->
  Forall is_message history ->
  exists lines,
    history_lines rt history = Ok lines /\
    let reply := llm env (length (log w)) (summary_request v lines) in
    history_summary_of rt env v history w =
      (reply, mkWorld (files w) (chat_history w)
                (log w ++ [Completion (summary_request v lines) reply])).
Proof.
  intros Hlen Hmsgs.
  destruct (history_lines_of_messages history Hmsgs) as [lines Hlines].
  exists lines. split; [done|].
  unfold history_summary_of.
  destruct (Nat.ltb_spec 10 (length history)); [|lia].
  unfold summarize_history. destruct history as [|m rest]; [simpl in Hlen; lia|].
  unfold bind, lift. rewrite Hlines. reflexivity.
Qed.

Lemma summary_request_is_summary_call (v : variant) (lines : list string)
    (reply : outcome string) :
  is_history_summary_call (Completion (summary_request v lines) reply) = true.
Proof. destruct v; reflexivity. Qed.

(** The system message of the three other prompts never reads as the
    summary instruction. *)
Lemma system_content_not_summary (instructions history_summary : string) :
  String.prefix "S" instructions = false ->
  String.eqb (system_content instructions history_summary) summary_instructions = false.
Proof.
  intros Hpre. unfold system_content.
  destruct (String.eqb history_summary ""); [done|].
  destruct instructions as [|c rest]; [done|].
  simpl in Hpre. unfold summary_instructions. simpl.
  destruct (Ascii.eqb c "S") eqn:Hc; [|done].
  apply Ascii.eqb_eq in Hc. subst c. simpl in Hpre. by destruct rest.
Qed.

Lemma other_call_not_summary_call (v : variant) (name instr instructions hs : string)
    (rest : list pyval) (reply : outcome string) :
  String.prefix "S" instructions = false ->
  is_history_summary_call
    (Completion (completion_request v name instr
                   (mk_message "system" (system_content instructions hs) :: rest)) reply)
  = false.
Proof.
  intros Hpre. pose proof (system_content_not_summary instructions hs Hpre) as Hne.
  destruct v; simpl; unfold prompt_head_content; simpl; exact Hne.
Qed.

Lemma summarized_call_short (v : variant) (history : list pyval)
    (agent_name instr instructions : string) (rest : string -> list pyval)
    (w : World) :
  length history <= 10 ->
  let request :=
    completion_request v agent_name instr
      (mk_message "system" (system_content instructions "") :: rest "") in
  let reply := llm env (length (log w)) request in
  summarized_call rt env v history agent_name instr instructions rest w =
    (reply, mkWorld (files w) (chat_history w) (log w ++ [Completion request reply])).
Proof.
  intros Hlen. unfold summarized_call.
  rewrite (bind_ok _ _ w w ""); [reflexivity|].
  by apply history_summary_of_short.
Qed.

Lemma summarized_call_long (v : variant) (history : list pyval)
    (agent_name instr instructions : string) (rest : string -> list pyval)
    (w : World) :
  10 < length history ->
  Forall is_message history ->
  exists lines,
    history_lines rt history = Ok lines /\
    let first := summary_request v lines in
    let w1 := mkWorld (files w) (chat_history w)
                (log w ++ [Completion first (llm env (length (log w)) first)]) in
    summarized_call rt env v history agent_name instr instructions rest w =
      match llm env (length (log w)) first with
      | Raised e => (Raised e, w1)
      | Ok history_summary =>
          let request :=
            completion_request v agent_name instr
              (mk_message "system" (system_content instructions history_summary)
               :: rest history_summary) in
          let reply := llm env (length (log w1)) request in
          (reply, mkWorld (files w) (chat_history w)
                    (log w1 ++ [Completion request reply]))
      end.
Proof.
  intros Hlen Hmsgs.
  destruct (history_summary_of_long v history w Hlen Hmsgs) as (lines & Hlines & Hrun).
  exists lines. split; [done|]. simpl in *.
  unfold summarized_call.
  destruct (llm env (length (log w)) (summary_request v lines)) as [hs|e] eqn:Hreply.
  - rewrite (bind_ok _ _ _ _ _ Hrun). reflexivity.
  - by rewrite (bind_raised _ _ _ _ _ Hrun).
Qed.

Lemma summarized_call_calls (v : variant) (history : list pyval)
    (agent_name instr instructions : string) (rest : string -> list pyval)
    (w : World) :
  String.prefix "S" instructions = false ->
  length history <= 10 \/ Forall is_message history ->
  exists t,
    log (summarized_call rt env v history agent_name instr instructions rest w).2 = log w ++ t /\
    files (summarized_call rt env v history agent_name instr instructions rest w).2 = files w /\
    chat_history (summarized_call rt env v history agent_name instr instructions rest w).2
      = chat_history w /\
    List.filter is_http_get t = [] /\
    history_summary_calls t = if (10 <? length history)%nat then 1 else 0.
Proof.
  intros Hpre Hwf.
  destruct (Nat.ltb_spec 10 (length history)) as [Hlong|Hshort].
  - destruct Hwf as [?|Hmsgs]; [lia|].
    destruct (summarized_call_long v history agent_name instr instructions rest w
                Hlong Hmsgs) as (lines & _ & Hrun).
    cbv zeta in Hrun. rewrite Hrun. clear Hrun.
    destruct (llm env (length (log w)) (summary_request v lines)) as [hs|e].
    + eexists [_; _]. cbn [snd log files chat_history]. rewrite <- app_assoc.
      split; [reflexivity|]. do 3 (split; [reflexivity|]).
      rewrite !history_summary_calls_cons, summary_request_is_summary_call.
      by rewrite other_call_not_summary_call.
    + eexists [_]. cbn [snd log files chat_history].
      split; [reflexivity|]. do 3 (split; [reflexivity|]).
      by rewrite !history_summary_calls_cons, summary_request_is_summary_call.
  - rewrite summarized_call_short by done.
    eexists [_]. cbn [snd log files chat_history].
    split; [reflexivity|]. do 3 (split; [reflexivity|]).
    rewrite !history_summary_calls_cons.
    by rewrite other_call_not_summary_call.
Qed.

Lemma history_summary_of_run (v : variant) (history : list pyval) (w : World) :
  history_summary_of rt env v history w =
  if (10 <? length history)%nat then
    match history_lines rt history with
    | Raised e => (Raised e, w)
    | Ok lines =>
        let reply := llm env (length (log w)) (summary_request v lines) in
        (reply, mkWorld (files w) (chat_history w)
                  (log w ++ [Completion (summary_request v lines) reply]))
    end
  else (Ok "", w).
Proof.
  unfold history_summary_of.
  destruct (10 <? length history)%nat eqn:Hlen; [|reflexivity].
  destruct history as [|m rest]; [discriminate|].
  unfold summarize_history, bind, lift.
  by destruct (history_lines rt (m :: rest)).
Qed.

(** The shape of a prompt site's run on any history: its events are
    history-summary calls and calls carrying the site's prompt, and a
    text it returns is the reply to its last call. *)
Lemma summarized_call_shape (v : variant) (history : list pyval)
    (agent_name instr instructions : string) (rest : string -> list pyval)
    (w : World) :
  let request hs :=
    completion_request v agent_name instr
      (mk_message "system" (system_content instructions hs) :: rest hs) in
  exists r t,
    summarized_call rt env v history agent_name instr instructions rest w =
      (r, mkWorld (files w) (chat_history w) (log w ++ t))
    /\ Forall (fun e => is_history_summary_call e = true \/
                        exists hs reply, e = Completion (request hs) reply) t
    /\ http_requests t = []
    /\ (forall text, r = Ok text ->
          exists hs before, t = before ++ [Completion (request hs) (Ok text)]).
Proof.
  intros request. unfold summarized_call, bind.
  rewrite history_summary_of_run.
  destruct (10 <? length history)%nat.
  - destruct (history_lines rt history) as [lines|e].
    + cbv zeta.
      destruct (llm env (length (log w)) (summary_request v lines)) as [hs|e] eqn:Hfirst.
      * unfold complete. cbn [log files chat_history].
        eexists _, [_; _]. rewrite <- app_assoc. split; [reflexivity|]. split; [|split].
        -- constructor; [left; apply summary_request_is_summary_call|].
           constructor; [right; by eexists _, _|constructor].
        -- reflexivity.
        -- intros text Htext. exists hs, [Completion (summary_request v lines) (Ok hs)].
           simpl. by rewrite Htext.
      * eexists _, [_]. split; [reflexivity|]. split; [|split].
        -- constructor; [left; apply summary_request_is_summary_call|constructor].
        -- reflexivity.
        -- intros text [=].
    + exists (Raised e), []. rewrite app_nil_r. split; [by destruct w|].
      split; [constructor|]. split; [reflexivity|]. intros text [=].
  - unfold complete. cbn [log files chat_history].
    eexists _, [_]. split; [reflexivity|]. split; [|split].
    + constructor; [right; by eexists _, _|constructor].
    + reflexivity.
    + intros text Htext. exists "", []. simpl. by rewrite Htext.
Qed.

Lemma bind_ret_world {A B : Type} (m : M A) (f : A -> B) (w : World) :
  (bind m (fun a => ret (f a)) w).2 = (m w).2.
Proof. unfold bind, ret. by destruct (m w) as [[a|e] w1]. Qed.

Lemma summarize_with_llm_unfold (v : variant) (news category : string)
    (history : list pyval) :
  summarize_with_llm rt env v news category history =
  summarized_call rt env v history "Summarizer" "Summarize news" (news_instructions category)
    (fun _ => mk_message "user" news :: last_n 5 history).
Proof. reflexivity. Qed.

Lemma classify_unfold (v : variant) (content : string) (w : World) :
  classify rt env v content w =
  match turn_history w content with
  | Raised e => (Raised e, w)
  | Ok history =>
      bind (summarized_call rt env v history "Triage Agent"
              "Classify message with history context" classification_instructions
              (fun _ => last_n 5 history ++ [mk_message "user" content]))
           (fun output => ret (history, rt.(str_lower) (rt.(str_strip) output)))
           (mkWorld (files w) (Some (PList history)) (log w))
  end.
Proof.
  unfold classify, turn_history, bind, session_get, lift, session_set.
  cbn [fst snd]. destruct (py_append _ _) as [history|e]; [|reflexivity].
  unfold summarized_call, bind.
  by destruct (history_summary_of _ _ _ _ _) as [[hs|e] w1].
Qed.

Lemma respond_general_unfold (v : variant) (history : list pyval) (topic : string) :
  valid_categories !! topic = None ->
  respond rt env v history topic =
  summarized_call rt env v history "General Assistant"
    "Answer general queries with context from chat history" general_instructions
    (fun _ => last_n 10 history).
Proof. unfold respond. by intros ->. Qed.

Lemma respond_news_unfold (v : variant) (history : list pyval) (topic category : string) :
  valid_categories !! topic = Some category ->
  respond rt env v history topic =
  (let* news := get_real_news rt env v category in
   let* summary := summarize_with_llm rt env v news category history in
   ret ("📰 Here is the latest **" +:+ category +:+ "** news:" +:+ nl +:+ nl +:+ summary)).
Proof. unfold respond. by intros ->. Qed.

(** *** The news fetcher *)

Lemma get_real_news_run (v : variant) (category : string) (w : World) :
  let url := news_url rt v category in
  let reply := requests_get env (length (log w)) url in
  get_real_news rt env v category w =
    (Ok (news_text rt reply),
     mkWorld (files w) (chat_history w) (log w ++ [HttpGet url reply])).
Proof.
  cbv zeta. unfold get_real_news, try_except, bind, http_get, news_text, fetch_result.
  destruct (requests_get env (length (log w)) (news_url rt v category))
    as [[code body]|e]; [|reflexivity].
  cbn [fst snd status_code json].
  destruct (negb (code =? 200)%Z); unfold lift, ret.
  - destruct body as [body|e]; [|reflexivity].
    by destruct (py_get body "message" (PStr "Unknown error")).
  - destruct body as [body|e]; [|reflexivity].
    destruct (py_get body "articles" (PList [])) as [found|e]; [|reflexivity].
    destruct (py_first10 found) as [articles|e]; [|reflexivity].
    by destruct (title_lines rt articles).
Qed.

Lemma news_instructions_prefix (category : string) :
  String.prefix "S" (news_instructions category) = false.
Proof. reflexivity. Qed.

Lemma classify_log (v : variant) (content : string) (w : World) (history : list pyval) :
  turn_history w content = Ok history ->
  (classify rt env v content w).2 =
  (summarized_call rt env v history "Triage Agent"
     "Classify message with history context" classification_instructions
     (fun _ => last_n 5 history ++ [mk_message "user" content])
     (mkWorld (files w) (Some (PList history)) (log w))).2.
Proof.
  intros Hturn. rewrite classify_unfold, Hturn. apply bind_ret_world.
Qed.

Lemma respond_news_world (v : variant) (history : list pyval) (topic category : string)
    (w : World) :
  valid_categories !! topic = Some category ->
  let url := news_url rt v category in
  let reply := requests_get env (length (log w)) url in
  (respond rt env v history topic w).2 =
  (summarize_with_llm rt env v (news_text rt reply) category history
     (mkWorld (files w) (chat_history w) (log w ++ [HttpGet url reply]))).2.
Proof.
  intros Htopic. cbv zeta. rewrite (respond_news_unfold _ _ _ _ Htopic).
  rewrite (bind_ok _ _ _ _ _ (get_real_news_run v category w)).
  apply bind_ret_world.
Qed.

(** C4.  A history of at most 10 entries gets the empty summary text and
    no history-summary call, at the classification step, at the news
    summarization step and at the answering step ([respond] covers both
    of its branches); a history of more than 10 messages gets exactly one
    such call at each of these steps. *)
Theorem history_summary_call_per_step (v : variant) (history : list pyval) :
  length history <= 10 \/ Forall is_message history ->
  let expected := if (10 <? length history)%nat then 1 else 0 in
  (length history <= 10 ->
     forall w, history_summary_of rt env v history w = (Ok "", w))
  /\ (forall w content,
        turn_history w content = Ok history ->
        history_summary_calls (trace_of (classify rt env v content) w) = expected)
  /\ (forall w news category,
        history_summary_calls
          (trace_of (summarize_with_llm rt env v news category history) w) = expected)
  /\ (forall w topic,
        history_summary_calls (trace_of (respond rt env v history topic) w) = expected).
Proof.
  intros Hwf expected.
  assert (Hnews : forall w news category,
    exists t,
      log (summarize_with_llm rt env v news category history w).2 = log w ++ t /\
      history_summary_calls t = expected).
  { intros w news category. rewrite summarize_with_llm_unfold.
    destruct (summarized_call_calls v history "Summarizer" "Summarize news"
                (news_instructions category)
                (fun _ => mk_message "user" news :: last_n 5 history) w
                (news_instructions_prefix category) Hwf)
      as (t & Hlog & _ & _ & _ & Hcalls).
    by exists t. }
  split; [|split; [|split]].
  - intros Hlen w. by apply history_summary_of_short.
  - intros w content Hturn.
    destruct (summarized_call_calls v history "Triage Agent"
                "Classify message with history context" classification_instructions
                (fun _ => last_n 5 history ++ [mk_message "user" content])
                (mkWorld (files w) (Some (PList history)) (log w))
                eq_refl Hwf)
      as (t & Hlog & _ & _ & _ & Hcalls).
    rewrite (trace_of_appended _ w t); [done|].
    by rewrite (classify_log _ _ _ _ Hturn).
  - intros w news category.
    destruct (Hnews w news category) as (t & Hlog & Hcalls).
    by rewrite (trace_of_appended _ w t).
  - intros w topic.
    destruct (valid_categories !! topic) as [category|] eqn:Htopic.
    + pose proof (respond_news_world v history topic category w Htopic) as Hworld.
      cbv zeta in Hworld.
      destruct (Hnews (mkWorld (files w) (chat_history w)
                         (log w ++ [HttpGet (news_url rt v category)
                            (requests_get env (length (log w)) (news_url rt v category))]))
                      (news_text rt (requests_get env (length (log w)) (news_url rt v category)))
                      category) as (t & Hlog & Hcalls).
      rewrite (trace_of_appended _ w ([HttpGet (news_url rt v category)
                            (requests_get env (length (log w)) (news_url rt v category))] ++ t)).
      * by rewrite history_summary_calls_app.
      * rewrite Hworld, Hlog. cbn [log]. by rewrite <- app_assoc.
    + rewrite (respond_general_unfold _ _ _ Htopic).
      destruct (summarized_call_calls v history "General Assistant"
                  "Answer general queries with context from chat history"
                  general_instructions (fun _ => last_n 10 history) w eq_refl Hwf)
        as (t & Hlog & _ & _ & _ & Hcalls).
      by rewrite (trace_of_appended _ w t).
Qed.

(** *** The classification prompt *)

Lemma turn_history_snoc (w : World) (content : string) (history : list pyval) :
  turn_history w content = Ok history ->
  exists earlier, history = earlier ++ [mk_message "user" content].
Proof.
  unfold turn_history, py_append.
  destruct (py_or_empty_list _) as [| | | |l|]; try discriminate.
  intros [= <-]. by exists l.
Qed.

Lemma last_n_snoc {A : Type} (n : nat) (l : list A) (x : A) :
  0 < n -> last_n n (l ++ [x]) = last_n (n - 1) l ++ [x].
Proof.
  intros Hn. unfold last_n. rewrite length_app. simpl.
  rewrite drop_app_le by lia. f_equal. f_equal. lia.
Qed.

Lemma classification_prompt_tail (earlier : list pyval) (hs content : string) :
  let message := mk_message "user" content in
  classification_prompt (earlier ++ [message]) hs content =
  (mk_message "system" (system_content classification_instructions hs)
   :: last_n 4 earlier) ++ [message; message].
Proof.
  cbv zeta. unfold classification_prompt.
  rewrite last_n_snoc by lia. simpl. by rewrite <- app_assoc.
Qed.

Lemma str_prefix_app (p a b : string) :
  String.prefix p a = true -> String.prefix p (a +:+ b) = true.
Proof.
  revert a. induction p as [|c p IH]; intros a.
  - intros _. by destruct (a +:+ b).
  - destruct a as [|d a]; [done|]. simpl.
    destruct (ascii_dec c d); [apply IH|done].
Qed.

Lemma str_contains_app (sub a b : string) :
  str_contains sub a = true -> str_contains sub (a +:+ b) = true.
Proof.
  induction a as [|c a IH].
  - simpl. rewrite orb_false_r. intros Hp.
    destruct sub; [|done]. by destruct b.
  - cbn [str_contains]. intros [Hp|Hin]%orb_true_iff;
      change (str_contains sub (String c (a +:+ b)) = true);
      cbn [str_contains]; apply orb_true_iff.
    + left. exact (str_prefix_app sub (String c a) b Hp).
    + right. exact (IH Hin).
Qed.

(** With a summary at hand the system message carries the instructions,
    every label among them. *)
Lemma system_content_with_summary_enumerates_labels (history_summary : string) :
  history_summary <> "" ->
  enumerates_labels (system_content classification_instructions history_summary) = true.
Proof.
  intros Hne. unfold system_content.
  destruct (String.eqb_spec history_summary ""); [done|].
  unfold enumerates_labels, label_vocabulary. cbn [forallb].
  rewrite !andb_true_iff. repeat split; apply str_contains_app; vm_compute; reflexivity.
Qed.

Lemma classify_short_trace (v : variant) (w : World) (content : string)
    (history : list pyval) :
  turn_history w content = Ok history ->
  length history <= 10 ->
  let request :=
    completion_request v "Triage Agent" "Classify message with history context"
      ([mk_message "system" ""] ++ last_n 5 history ++ [mk_message "user" content]) in
  trace_of (classify rt env v content) w =
    [Completion request (llm env (length (log w)) request)].
Proof.
  intros Hturn Hlen request.
  apply trace_of_appended. rewrite (classify_log _ _ _ _ Hturn).
  by rewrite summarized_call_short.
Qed.

(** C1.  Whenever the history of the turn has at most 10 entries, the
    classification request opens with a system message whose content is
    the empty string: the label vocabulary and the examples are not in
    it. *)
Theorem classification_system_message_short_history (v : variant) (w : World)
    (content : string) (history : list pyval) :
  turn_history w content = Ok history ->
  length history <= 10 ->
  let request :=
    completion_request v "Triage Agent" "Classify message with history context"
      ([mk_message "system" ""] ++ last_n 5 history ++ [mk_message "user" content]) in
  trace_of (classify rt env v content) w =
    [Completion request (llm env (length (log w)) request)]
  /\ prompt_head_content request = Some ""
  /\ enumerates_labels "" = false.
Proof.
  intros Hturn Hlen request. split; [|split].
  - by apply classify_short_trace.
  - by destruct v.
  - reflexivity.
Qed.

Lemma classify_world (v : variant) (w : World) (content : string)
    (history : list pyval) :
  turn_history w content = Ok history ->
  let request hs :=
    completion_request v "Triage Agent" "Classify message with history context"
      (classification_prompt history hs content) in
  exists r t,
    classify rt env v content w =
      (r, mkWorld (files w) (Some (PList history)) (log w ++ t))
    /\ Forall (fun e => is_history_summary_call e = true \/
                        exists hs reply, e = Completion (request hs) reply) t
    /\ http_requests t = []
    /\ (forall topic, r = Ok topic ->
          topic.1 = history /\
          exists hs before output,
            t = before ++ [Completion (request hs) (Ok output)] /\
            topic.2 = rt.(str_lower) (rt.(str_strip) output)).
Proof.
  intros Hturn request. rewrite classify_unfold, Hturn.
  destruct (summarized_call_shape v history "Triage Agent"
              "Classify message with history context" classification_instructions
              (fun _ => last_n 5 history ++ [mk_message "user" content])
              (mkWorld (files w) (Some (PList history)) (log w)))
    as (r & t & Hrun & Hshape & Hhttp & Hlast).
  unfold bind. rewrite Hrun. cbn [files chat_history log].
  destruct r as [output|e].
  - eexists _, t. split; [reflexivity|]. split; [exact Hshape|]. split; [exact Hhttp|].
    intros topic [= <-]. split; [reflexivity|].
    destruct (Hlast output eq_refl) as (hs & before & ->).
    by exists hs, before, output.
  - eexists _, t. split; [reflexivity|]. split; [exact Hshape|]. split; [exact Hhttp|].
    intros topic [=].
Qed.

(** C9.  The history of the turn ends with the incoming message, so the
    last-5 slice ends with it, and the classification prompt ends with
    that message twice: the slice's last element and the message appended
    after the slice.  Every call of the classification step other than a
    history-summary call carries such a prompt, and with at most 10
    entries the step consists of that one call. *)
Theorem classification_prompt_repeats_message (v : variant) (w : World)
    (content : string) (history : list pyval) :
  turn_history w content = Ok history ->
  let message := mk_message "user" content in
  last (last_n 5 history) = Some message
  /\ (exists slice_front,
        last_n 5 history = slice_front ++ [message]
        /\ forall history_summary,
             classification_prompt history history_summary content =
             [mk_message "system"
                (system_content classification_instructions history_summary)]
             ++ (slice_front ++ [message]) ++ [message])
  /\ Forall (fun e => is_history_summary_call e = true \/
                      exists request reply before,
                        e = Completion request reply /\
                        request_messages request = before ++ [message; message])
            (trace_of (classify rt env v content) w)
  /\ (length history <= 10 ->
      exists request reply before,
        trace_of (classify rt env v content) w = [Completion request reply]
        /\ request_messages request = before ++ [message; message]).
Proof.
  intros Hturn message.
  destruct (classify_world v w content history Hturn)
    as (r & t & Hrun & Hshape & _).
  pose proof (classify_short_trace v w content history Hturn) as Hshort.
  destruct (turn_history_snoc _ _ _ Hturn) as [earlier ->].
  split; [|split; [|split]].
  - rewrite last_n_snoc by lia. apply last_snoc.
  - exists (last_n 4 earlier). split; [by rewrite last_n_snoc by lia|].
    intros hs. unfold classification_prompt. by rewrite last_n_snoc by lia.
  - rewrite (trace_of_appended _ w t) by (by rewrite Hrun).
    eapply Forall_impl; [exact Hshape|].
    intros e [Hsum|(hs & reply & ->)]; [by left|right].
    eexists _, reply, _. split; [reflexivity|].
    destruct v; cbn [completion_request request_messages];
      apply (classification_prompt_tail earlier hs content).
  - intros Hlen. specialize (Hshort Hlen).
    eexists _, _, _. split; [exact Hshort|].
    destruct v; cbn [completion_request request_messages];
      apply (classification_prompt_tail earlier "" content).
Qed.

(** *** Routing *)


Lemma valid_categories_some (topic category : string) :
  valid_categories !! topic = Some category <->
  (topic, category) ∈ [("news-tech", "technology"); ("news-health", "health");
                       ("news-business", "business"); ("news-crypto", "cryptocurrency")].
Proof.
  unfold valid_categories. symmetry. apply elem_of_list_to_map.
  compute_done.
Qed.

Lemma main_unfold (v : variant) (content : string) (w : World) :
  main rt env v content w =
  match classify rt env v content w with
  | (Raised e, w1) => (Raised e, w1)
  | (Ok (history, topic), w1) =>
      match respond rt env v history topic w1 with
      | (Raised e, w2) => (Raised e, w2)
      | (Ok response, w2) =>
          (Ok tt,
           mkWorld (files w2)
             (Some (PList (history ++ [mk_message "assistant" response])))
             (log w2 ++ [MessageSent response]))
      end
  end.
Proof.
  unfold main, bind.
  destruct (classify rt env v content w) as [[[history topic]|e] w1]; [|reflexivity].
  by destruct (respond rt env v history topic w1) as [[response|e] w2].
Qed.

Lemma http_requests_app (t1 t2 : list event) :
  http_requests (t1 ++ t2) = http_requests t1 ++ http_requests t2.
Proof. apply omap_app. Qed.

(** The run of [respond] from any world: the one news request of the
    news branch, none in the general branch, and the provenance of the
    response. *)
Lemma respond_world (v : variant) (history : list pyval) (topic : string) (w : World) :
  exists r t,
    respond rt env v history topic w =
      (r, mkWorld (files w) (chat_history w) (log w ++ t))
    /\ match valid_categories !! topic with
       | None =>
           http_requests t = []
           /\ forall answer, r = Ok answer ->
                exists hs before,
                  t = before ++ [Completion (general_request v history hs) (Ok answer)]
       | Some category =>
           let url := news_url rt v category in
           let reply := requests_get env (length (log w)) url in
           http_requests t = [url]
           /\ (exists rest,
                 t = HttpGet url reply :: rest /\
                 Forall (fun e =>
                           is_history_summary_call e = true \/
                           exists hs reply',
                             e = Completion
                                   (news_request v history (news_text rt reply) category hs)
                                   reply') rest)
           /\ forall answer, r = Ok answer ->
                exists hs before summary,
                  t = before ++
                      [Completion (news_request v history (news_text rt reply) category hs)
                         (Ok summary)]
                  /\ answer = news_announcement category summary
       end.
Proof.
  destruct (valid_categories !! topic) as [category|] eqn:Htopic.
  - rewrite (respond_news_unfold _ _ _ _ Htopic).
    rewrite (bind_ok _ _ _ _ _ (get_real_news_run v category w)).
    rewrite summarize_with_llm_unfold.
    set (url := news_url rt v category).
    set (reply := requests_get env (length (log w)) url).
    destruct (summarized_call_shape v history "Summarizer" "Summarize news"
                (news_instructions category)
                (fun _ => mk_message "user" (news_text rt reply) :: last_n 5 history)
                (mkWorld (files w) (chat_history w) (log w ++ [HttpGet url reply])))
      as (r & t & Hrun & Hshape & Hhttp & Hlast).
    unfold bind. rewrite Hrun. cbn [files chat_history log].
    rewrite <- app_assoc.
    destruct r as [summary|e].
    + eexists _, _. split; [reflexivity|]. split; [|split].
      * rewrite http_requests_app, Hhttp. reflexivity.
      * by eexists.
      * intros answer [= <-].
        destruct (Hlast summary eq_refl) as (hs & before & ->).
        exists hs, (HttpGet url reply :: before), summary. by split.
    + eexists _, _. split; [reflexivity|]. split; [|split].
      * rewrite http_requests_app, Hhttp. reflexivity.
      * by eexists.
      * intros answer [=].
  - rewrite (respond_general_unfold _ _ _ Htopic).
    destruct (summarized_call_shape v history "General Assistant"
                "Answer general queries with context from chat history"
                general_instructions (fun _ => last_n 10 history) w)
      as (r & t & Hrun & _ & Hhttp & Hlast).
    exists r, t. split; [exact Hrun|]. split; [exact Hhttp|].
    intros answer ->. destruct (Hlast answer eq_refl) as (hs & before & ->).
    by exists hs, before.
Qed.

(** The run of a whole turn, from the result of its classification. *)
Lemma main_world (v : variant) (w w1 : World) (content : string)
    (history : list pyval) (topic : string) :
  classify rt env v content w = (Ok (history, topic), w1) ->
  exists t1 r t2,
    turn_history w content = Ok history
    /\ w1 = mkWorld (files w) (Some (PList history)) (log w ++ t1)
    /\ http_requests t1 = []
    /\ (exists before hs output,
          t1 = before ++ [Completion (triage_request v history hs content) (Ok output)] /\
          topic = rt.(str_lower) (rt.(str_strip) output))
    /\ respond rt env v history topic w1 =
         (r, mkWorld (files w1) (chat_history w1) (log w1 ++ t2))
    /\ trace_of (main rt env v content) w =
         t1 ++ t2 ++ match r with Ok response => [MessageSent response] | Raised _ => [] end
    /\ (main rt env v content w).1 =
         match r with Ok _ => Ok tt | Raised e => Raised e end
    /\ chat_history (main rt env v content w).2 =
         match r with
         | Ok response => Some (PList (history ++ [mk_message "assistant" response]))
         | Raised _ => Some (PList history)
         end.
Proof.
  intros Hclassify.
  destruct (turn_history w content) as [h|e] eqn:Hturn.
  2:{ rewrite classify_unfold, Hturn in Hclassify. discriminate. }
  destruct (classify_world v w content h Hturn) as (r1 & t1 & Hrun1 & _ & Hhttp1 & Hlast1).
  rewrite Hrun1 in Hclassify. injection Hclassify as -> <-.
  destruct (Hlast1 _ eq_refl) as (Hh & hs & before & output & Ht1 & Htopic).
  cbn [fst snd] in Hh, Htopic. subst h.
  destruct (respond_world v history topic
              (mkWorld (files w) (Some (PList history)) (log w ++ t1)))
    as (r & t2 & Hrun2 & _).
  exists t1, r, t2. split; [reflexivity|]. split; [reflexivity|].
  split; [exact Hhttp1|]. split; [by exists before, hs, output|].
  split; [exact Hrun2|].
  assert (Hmain : main rt env v content w =
    match r with
    | Ok response =>
        (Ok tt, mkWorld (files w)
                  (Some (PList (history ++ [mk_message "assistant" response])))
                  (log w ++ t1 ++ t2 ++ [MessageSent response]))
    | Raised e =>
        (Raised e, mkWorld (files w) (Some (PList history)) (log w ++ t1 ++ t2))
    end).
  { rewrite main_unfold, Hrun1, Hrun2. cbn [files chat_history log].
    destruct r; by rewrite <- !app_assoc. }
  split; [apply trace_of_appended|]; rewrite Hmain; destruct r; cbn [fst snd log chat_history];
    rewrite ?app_nil_r; done.
Qed.


(** *** The news request *)

(** C3.  chat.py builds the URL the way the specification says: the
    category "cryptocurrency" goes to the search-by-keyword endpoint and
    every other category to the headlines-by-category endpoint.  chatlit.py
    sends every category, "cryptocurrency" too, to the
    headlines-by-category endpoint, "tech" and "finance" renamed to
    "technology" and "business" on the way.  In both the URL built is the
    one requested, once. *)
Theorem news_url_by_category (category : string) :
  let tail := "&apiKey=" +:+ rt.(NEWS_API_KEY) +:+ "&language=en" in
  (category = "cryptocurrency" ->
     news_url rt chat category =
     everything_endpoint +:+ "cryptocurrency" +:+ "&apiKey=" +:+ rt.(NEWS_API_KEY) +:+
     "&language=en&sortBy=publishedAt")
  /\ (category <> "cryptocurrency" ->
        news_url rt chat category = top_headlines_endpoint +:+ category +:+ tail)
  /\ news_url rt chatlit category =
       top_headlines_endpoint +:+
       (if String.eqb category "tech" then "technology"
        else if String.eqb category "finance" then "business"
        else category) +:+ tail
  /\ forall v w,
       trace_of (get_real_news rt env v category) w =
       [HttpGet (news_url rt v category)
          (requests_get env (length (log w)) (news_url rt v category))].
Proof.
  cbv zeta. split; [|split; [|split]].
  - by intros ->.
  - intros Hne. unfold news_url.
    by destruct (String.eqb_spec category "cryptocurrency").
  - unfold news_url, category_mapping. f_equal. f_equal.
    destruct (String.eqb_spec category "tech") as [->|Htech]; [done|].
    destruct (String.eqb_spec category "finance") as [->|Hfin]; [done|].
    destruct (String.eqb_spec category "health") as [->|Hhealth]; [done|].
    cbn [list_to_map foldr uncurry fst snd curry].
    by rewrite !lookup_insert_ne, lookup_empty.
  - intros v w. apply trace_of_appended. by rewrite get_real_news_run.
Qed.

(** C6.  The news fetcher never raises.  On a status other than 200 whose
    body is a JSON object it returns "Failed to fetch news: HTTP <code> -
    <message>", the message being the body's "message" entry or "Unknown
    error"; when the body is not JSON, or is JSON but not an object, and
    when the transport raises, it returns "Failed to fetch news: " followed
    by the text of the exception.  Whatever it returns goes into
    summarization as it is: on the news path, once the optional history
    summary has been obtained, the summarization request is made with the
    returned text as the content of its user message, it is the last
    provider call of the turn, and the answer is the announcement
    followed by its reply.  With a history of ten messages at most that
    request is the one event after the fetch.  The request is left out
    only when the history summary itself raises. *)
Theorem news_fetch_never_raises (v : variant) (category : string) (w : World) :
  let url := news_url rt v category in
  let reply := requests_get env (length (log w)) url in
  exists text,
    get_real_news rt env v category w =
      (Ok text, mkWorld (files w) (chat_history w) (log w ++ [HttpGet url reply]))
    /\ (forall code d,
          reply = Ok (mkResponse code (Ok (PDict d))) -> code <> 200%Z ->
          text = "Failed to fetch news: HTTP " +:+ string_of_Z code +:+ " - " +:+
                 py_str rt (default (PStr "Unknown error") (assoc "message" d)))
    /\ (forall code e,
          reply = Ok (mkResponse code (Raised e)) ->
          text = "Failed to fetch news: " +:+ rt.(exn_str) e)
    /\ (forall code body,
          reply = Ok (mkResponse code (Ok body)) -> (forall d, body <> PDict d) ->
          text = "Failed to fetch news: " +:+ rt.(exn_str) (AttributeError body "get"))
    /\ (forall e, reply = Raised e -> text = "Failed to fetch news: " +:+ rt.(exn_str) e)
    /\ (forall history topic,
          valid_categories !! topic = Some category ->
          let fetched :=
            mkWorld (files w) (chat_history w) (log w ++ [HttpGet url reply]) in
          let answer_of (reply' : outcome string) :=
            match reply' with
            | Ok summary => Ok (news_announcement category summary)
            | Raised e => Raised e
            end in
          exists r rest,
            respond rt env v history topic w =
              (r, mkWorld (files w) (chat_history w)
                    (log w ++ HttpGet url reply :: rest))
            /\ Forall (fun e =>
                         is_history_summary_call e = true \/
                         exists hs reply',
                           e = Completion (news_request v history text category hs) reply')
                      rest
            /\ match history_summary_of rt env v history fetched with
               | (Ok hs, summarized) =>
                   let request := news_request v history text category hs in
                   let reply' := llm env (length (log summarized)) request in
                   log w ++ HttpGet url reply :: rest =
                     log summarized ++ [Completion request reply']
                   /\ r = answer_of reply'
               | (Raised e, _) => r = Raised e
               end
            /\ (length history <= 10 ->
                  let request := news_request v history text category "" in
                  let reply' := llm env (length (log fetched)) request in
                  rest = [Completion request reply'] /\ r = answer_of reply')).
Proof.
  intros url reply. exists (news_text rt reply).
  split; [apply get_real_news_run|].
  split; [|split; [|split; [|split]]].
  - intros code d Hreply Hcode. rewrite Hreply. unfold news_text, fetch_result.
    cbn [status_code json py_get].
    destruct (Z.eqb_spec code 200); [done|]. cbn [negb].
    by destruct (assoc "message" d).
  - intros code e Hreply. rewrite Hreply. unfold news_text, fetch_result.
    cbn [status_code json]. by destruct (negb (code =? 200)%Z).
  - intros code body Hreply Hbody. rewrite Hreply. unfold news_text, fetch_result.
    cbn [status_code json].
    destruct body as [| | | | |d]; try (by destruct (negb (code =? 200)%Z)).
    by destruct (Hbody d).
  - by intros e ->.
  - intros history topic Htopic fetched answer_of.
    destruct (respond_world v history topic w) as (r & t & Hrun & Hcase).
    rewrite Htopic in Hcase. destruct Hcase as (_ & (rest & -> & Hshape) & _).
    exists r, rest. split; [exact Hrun|]. split; [exact Hshape|].
    assert (Hpass :
              match history_summary_of rt env v history fetched with
              | (Ok hs, summarized) =>
                  let request := news_request v history (news_text rt reply) category hs in
                  let reply' := llm env (length (log summarized)) request in
                  log w ++ HttpGet url reply :: rest =
                    log summarized ++ [Completion request reply']
                  /\ r = answer_of reply'
              | (Raised e, _) => r = Raised e
              end).
    { rewrite (respond_news_unfold v history topic category Htopic) in Hrun.
      unfold bind at 1 in Hrun. rewrite get_real_news_run in Hrun.
      cbv zeta in Hrun. fold url reply fetched in Hrun.
      unfold bind at 1, summarize_with_llm, bind at 1 in Hrun.
      destruct (history_summary_of rt env v history fetched) as [[hs|e] summarized].
      - unfold complete, ret in Hrun. cbv zeta in Hrun.
        change (completion_request v "Summarizer" "Summarize news"
                  ([mk_message "system" (system_content (news_instructions category) hs);
                    mk_message "user" (news_text rt reply)] ++ last_n 5 history))
          with (news_request v history (news_text rt reply) category hs) in Hrun.
        cbv zeta.
        destruct (llm env (length (log summarized))
                    (news_request v history (news_text rt reply) category hs))
          as [summary|e]; injection Hrun as <- Hlog; by split.
      - by injection Hrun as <- _. }
    split; [exact Hpass|].
    intros Hshort request reply'.
    rewrite (history_summary_of_short v history fetched Hshort) in Hpass.
    cbv zeta in Hpass. destruct Hpass as [Hlog Hr]. split; [|exact Hr].
    change (log w ++ HttpGet url reply :: rest)
      with (log w ++ [HttpGet url reply] ++ rest) in Hlog.
    subst fetched. cbn [log] in Hlog. rewrite app_assoc in Hlog.
    by apply app_inv_head in Hlog.
Qed.

(** *** The archive *)

(** C7.  When the archive file is there and [json.load] raises on it,
    the outcome of [start] depends on the exception.  A
    [JSONDecodeError] (the text is not JSON) is caught: [start] completes
    normally and leaves the empty list as the session history.  Any
    other exception (the bytes are not text, the document is nested too
    deep) is not caught: it leaves [start], the session history is not
    initialised and no greeting is sent.  In both cases the file is read
    and not touched. *)
Theorem start_malformed_archive (w : World) (text : string) (e : exn) :
  files w !! archive_file = Some text ->
  rt.(json_load) text = Raised e ->
  start rt w =
    match e with
    | JSONDecodeError _ =>
        (Ok tt,
         mkWorld (files w) (Some (PList []))
           (log w ++ [PathExists archive_file true; FileRead archive_file;
                      MessageSent greeting]))
    | _ =>
        (Raised e,
         mkWorld (files w) (chat_history w)
           (log w ++ [PathExists archive_file true; FileRead archive_file]))
    end.
Proof.
  intros Hfile Hload.
  unfold start, bind, path_exists, try_except_json, read_file, lift, session_set,
    send_message, emit.
  cbn [fst snd files chat_history log].
  rewrite Hfile. rewrite bool_decide_eq_true_2 by (by eexists).
  cbn [fst snd files chat_history log]. rewrite Hfile.
  cbn [from_option id]. rewrite Hload. unfold ret.
  destruct e; cbn [files chat_history log]; by rewrite <- ?app_assoc.
Qed.

Lemma end_run (w : World) (history : pyval) :
  chat_history w = Some history ->
  py_truthy history = true ->
  end_ rt env w =
  match loaded_archive rt w with
  | Raised e =>
      (Raised e, mkWorld (files w) (chat_history w) (log w ++ archive_accesses w))
  | Ok (PList records) =>
      let timestamp :=
        strftime_now env (length (log w ++ archive_accesses w)) in
      let text := rt.(json_dump) (PList (records ++ [mk_record timestamp history])) in
      (Ok tt,
       mkWorld (<[archive_file := text]> (files w)) (chat_history w)
         (log w ++ archive_accesses w ++
          [ClockRead timestamp; FileWrite archive_file text; Printed saved_line]))
  | Ok other =>
      (Raised (AttributeError other "append"),
       mkWorld (files w) (chat_history w) (log w ++ archive_accesses w))
  end.
Proof.
  intros Hhistory Htruthy.
  unfold end_, bind, session_get. cbn [fst snd]. rewrite Hhistory. cbn [from_option id].
  rewrite Htruthy. cbn [negb].
  unfold path_exists, loaded_archive, archive_accesses.
  destruct (files w !! archive_file) as [text|] eqn:Hfile.
  - rewrite bool_decide_eq_true_2 by (by eexists).
    unfold try_except_json, bind, read_file, lift. cbn [fst snd files chat_history log].
    rewrite Hfile. cbn [from_option id].
    destruct (rt.(json_load) text) as [[| | | |records|]|[]];
      unfold clock, ret, write_file, print, emit, lift;
      cbn [fst snd files chat_history log];
      rewrite <- ?app_assoc, ?Hhistory; reflexivity.
  - rewrite bool_decide_eq_false_2 by (by intros [? ?]).
    unfold clock, ret, write_file, print, emit, lift.
    cbn [fst snd files chat_history log].
    rewrite <- ?app_assoc, ?Hhistory. reflexivity.
Qed.

(** C10.  With the session history unset or empty, [end] returns at once:
    the world, files and log included, is left as it was, so the archive
    is neither read nor written.  In any run of [end], a write to a file
    stores an archive whose last record holds the session history, and
    that history is not empty. *)
Theorem end_skips_empty_history (w : World) :
  (chat_history w = None \/ chat_history w = Some (PList []) ->
     end_ rt env w = (Ok tt, w))
  /\ (forall filename text,
        FileWrite filename text ∈ trace_of (end_ rt env) w ->
        exists history records timestamp,
          chat_history w = Some history
          /\ py_truthy history = true
          /\ filename = archive_file
          /\ text = rt.(json_dump) (PList (records ++ [mk_record timestamp history]))).
Proof.
  split.
  - intros [Hunset|Hempty]; unfold end_, bind, session_get; cbn [fst snd];
      [rewrite Hunset|rewrite Hempty]; reflexivity.
  - intros filename text Hin.
    destruct (chat_history w) as [history|] eqn:Hhistory.
    2:{ unfold trace_of, end_, bind, session_get in Hin. rewrite Hhistory in Hin.
        cbn in Hin. rewrite drop_all in Hin. by apply elem_of_nil in Hin. }
    destruct (py_truthy history) eqn:Htruthy.
    2:{ unfold trace_of, end_, bind, session_get in Hin. rewrite Hhistory in Hin.
        cbn [fst snd from_option id] in Hin. rewrite Htruthy in Hin.
        cbn in Hin. rewrite drop_all in Hin. by apply elem_of_nil in Hin. }
    exists history.
    rewrite (trace_of_appended _ w
               (drop (length (log w)) (log (end_ rt env w).2))) in Hin.
    2:{ rewrite (end_run w history Hhistory Htruthy).
        destruct (loaded_archive rt w) as [[| | | |records|]|e]; cbn [snd log];
          by rewrite drop_app_length. }
    rewrite (end_run w history Hhistory Htruthy) in Hin.
    unfold archive_accesses in Hin.
    destruct (loaded_archive rt w) as [[| | | |records|]|e]; cbn [snd log] in Hin;
      rewrite drop_app_length in Hin;
      destruct (files w !! archive_file);
      apply list_elem_of_In in Hin; cbn [In app] in Hin;
      repeat (destruct Hin as [Hin|Hin]; try discriminate Hin); try contradiction;
      injection Hin as <- <-; by eexists _, _.
Qed.

Lemma stamped_cons (history : pyval) (rest : list pyval) (n : nat) (readings : list nat) :
  stamped env (history :: rest) (n :: readings) =
  mk_record (strftime_now env n) history :: stamped env rest readings.
Proof. reflexivity. Qed.

Lemma stamped_sessions (sessions : list pyval) (readings : list nat) :
  length readings = length sessions ->
  Forall2 (fun record history => py_getitem record "session" = Ok history)
          (stamped env sessions readings) sessions.
Proof.
  revert readings. induction sessions as [|history rest IH]; intros [|n readings] Hlen;
    try discriminate; [constructor|].
  rewrite stamped_cons. constructor; [reflexivity|]. apply IH. by injection Hlen.
Qed.

Lemma stamped_last (sessions : list pyval) (readings : list nat) (history : pyval) :
  length readings = length sessions ->
  last sessions = Some history ->
  exists n, last (stamped env sessions readings) = Some (mk_record (strftime_now env n) history).
Proof.
  revert readings. induction sessions as [|h rest IH]; intros [|n readings] Hlen Hlast;
    try discriminate.
  rewrite stamped_cons. destruct rest as [|h' rest'].
  - injection Hlast as ->. exists n. reflexivity.
  - destruct readings as [|n' readings']; [discriminate|].
    destruct (IH (n' :: readings')) as [m Hm]; [simpl in *; lia|exact Hlast|].
    exists m. exact Hm.
Qed.

Lemma loaded_archive_files (w w' : World) :
  files w' = files w -> loaded_archive rt w' = loaded_archive rt w.
Proof. unfold loaded_archive. by intros ->. Qed.

Lemma sessions_end_archive (sessions : list pyval) :
  forall (done : list pyval) (w : World),
    loaded_archive rt w = Ok (PList done) ->
    Forall (fun history => py_truthy history = true) sessions ->
    (forall readings,
       rt.(json_load) (rt.(json_dump) (PList (done ++ stamped env sessions readings))) =
       Ok (PList (done ++ stamped env sessions readings))) ->
    exists readings,
      length readings = length sessions
      /\ (sessions <> [] ->
          files (sessions_end rt env sessions w) !! archive_file =
          Some (rt.(json_dump) (PList (done ++ stamped env sessions readings)))).
Proof.
  induction sessions as [|history rest IH]; intros done w Hloaded Htruthy Hcodec.
  - by exists [].
  - apply Forall_cons in Htruthy as [Hhistory Hrest].
    set (w0 := mkWorld (files w) (Some history) (log w)).
    set (n := length (log w0 ++ archive_accesses w0)).
    set (record := mk_record (strftime_now env n) history).
    assert (Hend : session_end rt env history w =
              mkWorld (<[archive_file := rt.(json_dump) (PList (done ++ [record]))]> (files w))
                (Some history)
                (log w0 ++ archive_accesses w0 ++
                 [ClockRead (strftime_now env n);
                  FileWrite archive_file (rt.(json_dump) (PList (done ++ [record])));
                  Printed saved_line])).
    { unfold session_end. fold w0. rewrite (end_run w0 history eq_refl Hhistory).
      rewrite (loaded_archive_files w w0 eq_refl), Hloaded. reflexivity. }
    assert (Hfile : files (session_end rt env history w) !! archive_file =
              Some (rt.(json_dump) (PList (done ++ [record])))).
    { rewrite Hend. cbn [files]. apply lookup_insert_eq. }
    destruct rest as [|history' rest'].
    + exists [n]. split; [reflexivity|]. intros _. exact Hfile.
    + destruct (IH (done ++ [record]) (session_end rt env history w)) as (readings & Hlen & Hfiles).
      * unfold loaded_archive. rewrite Hfile.
        specialize (Hcodec [n]). cbn [stamped zip_with] in Hcodec.
        fold record in Hcodec. by rewrite Hcodec.
      * exact Hrest.
      * intros readings. specialize (Hcodec (n :: readings)).
        rewrite stamped_cons in Hcodec. fold record in Hcodec.
        by rewrite <- app_assoc.
      * exists (n :: readings). split; [simpl; by rewrite Hlen|].
        intros _. rewrite stamped_cons. fold record.
        change (sessions_end rt env (history :: history' :: rest') w)
          with (sessions_end rt env (history' :: rest') (session_end rt env history w)).
        rewrite (Hfiles ltac:(done)).
        by rewrite <- app_assoc.
Qed.

Lemma start_resumes (w : World) (text timestamp : string) (records : list pyval)
    (history : pyval) :
  files w !! archive_file = Some text ->
  rt.(json_load) text = Ok (PList records) ->
  last records = Some (mk_record timestamp history) ->
  start rt w =
    (Ok tt,
     mkWorld (files w) (Some history)
       (log w ++ [PathExists archive_file true; FileRead archive_file;
                  MessageSent greeting])).
Proof.
  intros Hfile Hload Hlast.
  unfold start, bind, path_exists, try_except_json, read_file, lift, session_set,
    send_message, emit.
  cbn [fst snd files chat_history log].
  rewrite Hfile. rewrite bool_decide_eq_true_2 by (by eexists).
  cbn [fst snd files chat_history log]. rewrite Hfile.
  cbn [from_option id]. rewrite Hload.
  assert (Htruthy : py_truthy (PList records) = true).
  { destruct records; [discriminate|reflexivity]. }
  rewrite Htruthy. unfold py_last. rewrite Hlast.
  cbn [files chat_history log py_getitem mk_record assoc String.eqb Ascii.eqb Bool.eqb].
  by rewrite <- !app_assoc.
Qed.

Lemma textual_record (timestamp : string) (history : pyval) :
  textual (mk_record timestamp history) = textual history.
Proof.
  change (textual (mk_record timestamp history))
    with (true && (true && (textual history && true))).
  cbn [andb]. apply andb_true_r.
Qed.

Lemma textual_stamped (sessions : list pyval) (readings : list nat) :
  Forall (fun history => textual history = true) sessions ->
  textual (PList (stamped env sessions readings)) = true.
Proof.
  intros Htext. revert readings.
  induction Htext as [|history rest Hhistory _ IH]; intros [|n readings];
    try reflexivity.
  rewrite stamped_cons.
  change (textual (PList (?x :: ?l))) with (textual x && textual (PList l)).
  by rewrite textual_record, Hhistory, IH.
Qed.

(** C8.  Let the [json] module read back what it writes, for every textual
    value.  Starting without an archive file, let N sessions end one after
    the other, each with a history that is textual and not empty.  Then
    the archive read back holds N records, the i-th with the history of
    the i-th session as it was, stamped with the clock's reading at that
    session's end; and [start] resumes the history of the last one. *)
Theorem archive_round_trip (sessions : list pyval) (w : World) :
  files w !! archive_file = None ->
  Forall (fun history => py_truthy history = true) sessions ->
  Forall (fun history => textual history = true) sessions ->
  (forall v, textual v = true -> rt.(json_load) (rt.(json_dump) v) = Ok v) ->
  exists readings,
    let records := stamped env sessions readings in
    let w' := sessions_end rt env sessions w in
    length readings = length sessions
    /\ Forall2 (fun record history => py_getitem record "session" = Ok history)
               records sessions
    /\ loaded_archive rt w' = Ok (PList records)
    /\ (sessions <> [] ->
        exists text,
          files w' !! archive_file = Some text
          /\ rt.(json_load) text = Ok (PList records))
    /\ (forall history,
          last sessions = Some history ->
          chat_history (start rt w').2 = Some history).
Proof.
  intros Hfresh Htruthy Htext Hjson.
  assert (Hcodec : forall readings,
            rt.(json_load) (rt.(json_dump) (PList (stamped env sessions readings))) =
            Ok (PList (stamped env sessions readings))).
  { intros readings. apply Hjson. by apply textual_stamped. }
  destruct (sessions_end_archive sessions [] w) as (readings & Hlen & Hfile).
  { unfold loaded_archive. by rewrite Hfresh. }
  { exact Htruthy. }
  { exact Hcodec. }
  exists readings. cbv zeta. cbn [app] in Hfile.
  split; [exact Hlen|]. split; [by apply stamped_sessions|].
  assert (Hread : sessions <> [] ->
            exists text,
              files (sessions_end rt env sessions w) !! archive_file = Some text
              /\ rt.(json_load) text = Ok (PList (stamped env sessions readings))).
  { intros Hne. eexists. split; [exact (Hfile Hne)|apply Hcodec]. }
  split; [|split; [exact Hread|]].
  - destruct sessions as [|history rest].
    + unfold loaded_archive. cbn [sessions_end]. by rewrite Hfresh.
    + destruct Hread as (text & Hfiletext & Hload); [done|].
      unfold loaded_archive. by rewrite Hfiletext, Hload.
  - intros history Hlast.
    destruct Hread as (text & Hfiletext & Hload); [by intros ->|].
    destruct (stamped_last sessions readings history Hlen Hlast) as [n Hn].
    by rewrite (start_resumes _ text _ _ history Hfiletext Hload Hn).
Qed.

(** *** The two variants side by side *)

Lemma same_world_length (w w' : World) :
  same_world w w' -> length (log w) = length (log w').
Proof.
  intros (_ & _ & Hlog). apply (f_equal length) in Hlog. by rewrite !length_map in Hlog.
Qed.

Lemma same_world_emit (w w' : World) (e e' : event) :
  same_world w w' -> provider_view e = provider_view e' ->
  same_world (mkWorld (files w) (chat_history w) (log w ++ [e]))
             (mkWorld (files w') (chat_history w') (log w' ++ [e'])).
Proof.
  intros (Hfiles & Hhistory & Hlog) He. repeat split; cbn [files chat_history log];
    [done|done|]. by rewrite !map_app, Hlog; cbn [map]; rewrite He.
Qed.

Lemma same_run_ret {A : Type} (a : A) : same_run (ret a) (ret a).
Proof. by intros w w' Hw. Qed.

Lemma same_run_lift {A : Type} (o : outcome A) : same_run (lift o) (lift o).
Proof. by intros w w' Hw. Qed.

Lemma same_run_bind {A B : Type} (m m' : M A) (k k' : A -> M B) :
  same_run m m' -> (forall a, same_run (k a) (k' a)) -> same_run (bind m k) (bind m' k').
Proof.
  intros Hm Hk w w' Hw. destruct (Hm w w' Hw) as [Hout Hworld]. unfold bind.
  destruct (m w) as [[a|e] w1], (m' w') as [[a'|e'] w1']; cbn [fst snd] in *;
    try discriminate.
  - injection Hout as <-. by apply Hk.
  - by injection Hout as <-.
Qed.

Lemma same_run_complete (agent_name instr : string) (prompt : list pyval) :
  api_blind env ->
  same_run (complete env chat agent_name instr prompt)
           (complete env chatlit agent_name instr prompt).
Proof.
  intros Hblind w w' Hw. unfold complete. cbn [fst snd].
  rewrite <- (same_world_length w w' Hw).
  rewrite (Hblind (length (log w))
             (completion_request chat agent_name instr prompt)
             (completion_request chatlit agent_name instr prompt) eq_refl).
  split; [reflexivity|]. by apply same_world_emit.
Qed.

Lemma same_run_session_get : same_run session_get session_get.
Proof.
  intros w w' Hw. unfold session_get. cbn [fst snd].
  split; [|exact Hw]. destruct Hw as (_ & Hhistory & _). by rewrite Hhistory.
Qed.

Lemma same_run_session_set (v : pyval) : same_run (session_set v) (session_set v).
Proof. intros w w' (Hfiles & _ & Hlog). by repeat split. Qed.

Lemma same_run_send_message (content : string) :
  same_run (send_message content) (send_message content).
Proof.
  intros w w' Hw. unfold send_message, emit. cbn [fst snd].
  split; [reflexivity|]. by apply same_world_emit.
Qed.

Lemma same_run_history_summary_of (history : list pyval) :
  api_blind env ->
  same_run (history_summary_of rt env chat history)
           (history_summary_of rt env chatlit history).
Proof.
  intros Hblind. unfold history_summary_of.
  destruct (10 <? length history)%nat; [|apply same_run_ret].
  unfold summarize_history. destruct history as [|m rest]; [apply same_run_ret|].
  apply same_run_bind; [apply same_run_lift|].
  intros lines. by apply same_run_complete.
Qed.

Lemma same_run_summarize_with_llm (news category : string) (history : list pyval) :
  api_blind env ->
  same_run (summarize_with_llm rt env chat news category history)
           (summarize_with_llm rt env chatlit news category history).
Proof.
  intros Hblind. unfold summarize_with_llm.
  apply same_run_bind; [by apply same_run_history_summary_of|].
  intros hs. by apply same_run_complete.
Qed.

Lemma same_run_get_real_news (category : string) :
  news_url rt chat category = news_url rt chatlit category ->
  same_run (get_real_news rt env chat category) (get_real_news rt env chatlit category).
Proof.
  intros Hurl w w' Hw. rewrite !get_real_news_run. cbn [fst snd].
  rewrite <- Hurl, <- (same_world_length w w' Hw).
  split; [reflexivity|]. by apply same_world_emit.
Qed.

Lemma same_run_classify (content : string) :
  api_blind env ->
  same_run (classify rt env chat content) (classify rt env chatlit content).
Proof.
  intros Hblind. unfold classify.
  apply same_run_bind; [apply same_run_session_get|]. intros stored.
  apply same_run_bind; [apply same_run_lift|]. intros history.
  apply same_run_bind; [apply same_run_session_set|]. intros _.
  apply same_run_bind; [by apply same_run_history_summary_of|]. intros hs.
  apply same_run_bind; [by apply same_run_complete|]. intros output.
  apply same_run_ret.
Qed.

(** The three labels on whose category the two fetchers build one URL. *)
Lemma news_url_agree (topic category : string) :
  valid_categories !! topic = Some category ->
  topic <> "news-crypto" ->
  news_url rt chat category = news_url rt chatlit category.
Proof.
  intros Hlookup%valid_categories_some Hne.
  apply list_elem_of_In in Hlookup. cbn [In] in Hlookup.
  destruct Hlookup as [Heq|[Heq|[Heq|[Heq|[]]]]]; injection Heq as <- <-; done.
Qed.

Lemma same_run_respond (history : list pyval) (topic : string) :
  api_blind env ->
  topic <> "news-crypto" ->
  same_run (respond rt env chat history topic) (respond rt env chatlit history topic).
Proof.
  intros Hblind Hne. unfold respond.
  destruct (valid_categories !! topic) as [category|] eqn:Htopic.
  - apply same_run_bind.
    + apply same_run_get_real_news. by apply (news_url_agree topic).
    + intros news. apply same_run_bind; [by apply same_run_summarize_with_llm|].
      intros summary. apply same_run_ret.
  - apply same_run_bind; [by apply same_run_history_summary_of|].
    intros hs. by apply same_run_complete.
Qed.

Lemma same_world_refl (w : World) : same_world w w.
Proof. by repeat split. Qed.

(** X23.  Apart from turns labelled news-crypto the two variants are one
    program.  Let the provider answer the messages it is sent, whatever API
    carries them, and let the classifier's label for the turn be other than
    news-crypto.  Then the two variants run the turn side by side: same
    result, same files, same session history, and the same log once the API
    is taken out of the completion requests, the news request and the
    message sent to the user included. *)
Theorem variants_agree_outside_crypto (w : World) (content : string) :
  api_blind env ->
  (forall history topic w1,
     classify rt env chat content w = (Ok (history, topic), w1) ->
     topic <> "news-crypto") ->
  (main rt env chat content w).1 = (main rt env chatlit content w).1
  /\ same_world (main rt env chat content w).2 (main rt env chatlit content w).2
  /\ http_requests (log (main rt env chat content w).2) =
     http_requests (log (main rt env chatlit content w).2).
Proof.
  intros Hblind Hlabel.
  assert (Hrun : (main rt env chat content w).1 = (main rt env chatlit content w).1
                 /\ same_world (main rt env chat content w).2
                               (main rt env chatlit content w).2).
  { destruct (same_run_classify content Hblind w w (same_world_refl w)) as [Hout Hworld].
    rewrite !main_unfold.
    destruct (classify rt env chat content w) as [[[history topic]|e] w1] eqn:Hchat,
             (classify rt env chatlit content w) as [[[history' topic']|e'] w1'];
      cbn [fst snd] in *; try discriminate.
    - injection Hout as <- <-.
      specialize (Hlabel history topic w1 eq_refl).
      destruct (same_run_respond history topic Hblind Hlabel w1 w1' Hworld)
        as [Hout2 Hworld2].
      destruct (respond rt env chat history topic w1) as [[response|e] w2],
               (respond rt env chatlit history topic w1') as [[response'|e'] w2'];
        cbn [fst snd] in *; try discriminate.
      + injection Hout2 as <-. split; [reflexivity|].
        destruct Hworld2 as (Hfiles & Hhistory & Hlog).
        repeat split; cbn [files chat_history log]; [done|].
        by rewrite !map_app, Hlog.
      + injection Hout2 as <-. by split.
    - injection Hout as <-. by split. }
  destruct Hrun as [Hout Hworld]. split; [exact Hout|]. split; [exact Hworld|].
  destruct Hworld as (_ & _ & Hlog).
  assert (Hview : forall t, http_requests (map provider_view t) = http_requests t).
  { unfold http_requests. induction t as [|e t IH]; [reflexivity|].
    cbn [map omap list_omap]. rewrite IH. by destruct e. }
  by rewrite <- (Hview (log (main rt env chat content w).2)), Hlog, Hview.
Qed.

End Properties.

(** ** Further properties of the handlers

    What a handler touches and what it leaves alone, how the session
    history moves over a turn, how [start] and [end] treat an archive of
    any shape and how they compose, and the text [get_real_news] and
    [summarize_history] build. *)

Section Further.

Variable rt : Runtime.
Variable env : Env.

(** *** What a computation may touch *)

Lemma confined_ret {A : Type} (allowed : event -> bool) (a : A) :
  confined allowed (ret a).
Proof. intros w. split; [done|]. exists []. by rewrite app_nil_r. Qed.

Lemma confined_lift {A : Type} (allowed : event -> bool) (o : outcome A) :
  confined allowed (lift o).
Proof. intros w. split; [done|]. exists []. by rewrite app_nil_r. Qed.

Lemma confined_bind {A B : Type} (allowed : event -> bool) (m : M A) (k : A -> M B) :
  confined allowed m -> (forall a, confined allowed (k a)) ->
  confined allowed (bind m k).
Proof.
  intros Hm Hk w. unfold bind.
  destruct (Hm w) as (Hf & t & Hlog & Ht).
  destruct (m w) as [[a|e] w1]; cbn [snd] in *.
  - destruct (Hk a w1) as (Hf' & t' & Hlog' & Ht').
    split; [congruence|]. exists (t ++ t').
    rewrite Hlog', Hlog, <- app_assoc. split; [done|].
    by rewrite forallb_app, Ht, Ht'.
  - split; [done|]. by exists t.
Qed.

Lemma confined_session_get (allowed : event -> bool) : confined allowed session_get.
Proof. intros w. split; [done|]. exists []. by rewrite app_nil_r. Qed.

Lemma confined_session_set (allowed : event -> bool) (v : pyval) :
  confined allowed (session_set v).
Proof. intros w. split; [done|]. exists []. cbn. by rewrite app_nil_r. Qed.

Lemma confined_complete (v : variant) (agent_name instr : string) (prompt : list pyval) :
  length prompt <= 11 ->
  confined bounded_call (complete env v agent_name instr prompt).
Proof.
  intros Hlen w. split; [done|]. eexists. split; [reflexivity|].
  cbn [forallb bounded_call]. rewrite andb_true_r. apply Nat.leb_le.
  by destruct v.
Qed.

Lemma length_last_n {A : Type} (n : nat) (l : list A) :
  length (last_n n l) = Nat.min n (length l).
Proof. unfold last_n. rewrite length_drop. lia. Qed.

Lemma confined_get_real_news (v : variant) (category : string) :
  confined bounded_call (get_real_news rt env v category).
Proof.
  intros w. rewrite get_real_news_run. split; [done|]. by eexists.
Qed.

Lemma confined_summarize_history (v : variant) (history : list pyval) :
  confined bounded_call (summarize_history rt env v history).
Proof.
  destruct history as [|msg rest]; [apply confined_ret|].
  unfold summarize_history.
  apply confined_bind; [apply confined_lift|]. intros lines.
  apply confined_complete. cbn [length]. lia.
Qed.

Lemma confined_history_summary_of (v : variant) (history : list pyval) :
  confined bounded_call (history_summary_of rt env v history).
Proof.
  unfold history_summary_of.
  destruct (10 <? length history)%nat;
    [apply confined_summarize_history|apply confined_ret].
Qed.

Lemma confined_summarize_with_llm (v : variant) (news category : string)
    (history : list pyval) :
  confined bounded_call (summarize_with_llm rt env v news category history).
Proof.
  unfold summarize_with_llm.
  apply confined_bind; [apply confined_history_summary_of|]. intros hs.
  apply confined_complete. rewrite length_app, length_last_n. cbn [length]. lia.
Qed.

Lemma confined_classify (v : variant) (content : string) :
  confined bounded_call (classify rt env v content).
Proof.
  unfold classify.
  apply confined_bind; [apply confined_session_get|]. intros stored.
  apply confined_bind; [apply confined_lift|]. intros history.
  apply confined_bind; [apply confined_session_set|]. intros _.
  apply confined_bind; [apply confined_history_summary_of|]. intros hs.
  apply confined_bind; [|intros output; apply confined_ret].
  apply confined_complete. unfold classification_prompt.
  rewrite !length_app, length_last_n. cbn [length]. lia.
Qed.

Lemma confined_respond (v : variant) (history : list pyval) (topic : string) :
  confined bounded_call (respond rt env v history topic).
Proof.
  unfold respond. destruct (valid_categories !! topic) as [category|].
  - apply confined_bind; [apply confined_get_real_news|]. intros news.
    apply confined_bind; [apply confined_summarize_with_llm|]. intros summary.
    apply confined_ret.
  - apply confined_bind; [apply confined_history_summary_of|]. intros hs.
    apply confined_complete. unfold general_prompt.
    rewrite length_app, length_last_n. cbn [length]. lia.
Qed.

(** Where a turn leaves the world: the calls of [classify] and of
    [respond], then the answer if there is one. *)
Lemma main_run (v : variant) (content : string) (w : World) :
  match turn_history w content with
  | Raised e => main rt env v content w = (Raised e, w)
  | Ok history =>
      exists calls,
        forallb bounded_call calls = true /\
        ((exists e,
            main rt env v content w =
              (Raised e, mkWorld (files w) (Some (PList history)) (log w ++ calls)))
         \/ (exists response,
               main rt env v content w =
                 (Ok tt,
                  mkWorld (files w)
                    (Some (PList (history ++ [mk_message "assistant" response])))
                    (log w ++ calls ++ [MessageSent response]))))
  end.
Proof.
  destruct (turn_history w content) as [history|e] eqn:Hturn.
  2:{ rewrite main_unfold, classify_unfold, Hturn. reflexivity. }
  destruct (classify_world rt env v w content history Hturn)
    as (r & t1 & Hclassify & _ & _ & Htopic).
  destruct (confined_classify v content w) as (_ & t1' & Hlog1 & Hcalls1).
  rewrite Hclassify in Hlog1. cbn [snd log] in Hlog1.
  apply app_inv_head in Hlog1. subst t1'.
  rewrite main_unfold, Hclassify.
  destruct r as [[history' topic]|e].
  2:{ exists t1. split; [done|]. left. by exists e. }
  destruct (Htopic _ eq_refl) as [Hhistory _]. cbn [fst] in Hhistory. subst history'.
  set (w1 := mkWorld (files w) (Some (PList history)) (log w ++ t1)).
  destruct (respond_world rt env v history topic w1) as (r & t2 & Hrespond & _).
  destruct (confined_respond v history topic w1) as (_ & t2' & Hlog2 & Hcalls2).
  rewrite Hrespond in Hlog2. cbn [snd log] in Hlog2.
  apply app_inv_head in Hlog2. subst t2'.
  rewrite Hrespond. exists (t1 ++ t2).
  split; [by rewrite forallb_app, Hcalls1, Hcalls2|].
  subst w1. cbn [files chat_history log].
  destruct r as [response|e].
  - right. exists response. by rewrite <- !app_assoc.
  - left. exists e. by rewrite <- !app_assoc.
Qed.

Lemma bounded_call_provider (calls : list event) :
  forallb bounded_call calls = true -> forallb is_provider_call calls = true.
Proof.
  induction calls as [|e calls IH]; [done|]. cbn [forallb].
  intros [He Hcalls]%andb_true_iff. rewrite (IH Hcalls), andb_true_r.
  by destruct e.
Qed.

Lemma turn_history_earlier (w : World) (content : string) (history : list pyval) :
  turn_history w content = Ok history ->
  exists earlier,
    py_or_empty_list (default PNone (chat_history w)) = PList earlier /\
    history = earlier ++ [mk_message "user" content].
Proof.
  unfold turn_history, py_append.
  destruct (py_or_empty_list (default PNone (chat_history w))) as [| | | |earlier|];
    try discriminate.
  intros [= <-]. by exists earlier.
Qed.

(** *** A turn *)

(** X1.  A turn never touches a file, the clock or the console.  All it
    does to the outside is a run of provider calls (completions and one
    news request at most), followed, when the turn completes, by the one
    message sent to the user; a turn that raises sends nothing. *)
Theorem main_touches_providers_only (v : variant) (content : string) (w : World) :
  files (main rt env v content w).2 = files w
  /\ exists calls,
       forallb is_provider_call calls = true
       /\ ((exists e,
              (main rt env v content w).1 = Raised e /\
              trace_of (main rt env v content) w = calls)
           \/ (exists response,
                 (main rt env v content w).1 = Ok tt /\
                 trace_of (main rt env v content) w = calls ++ [MessageSent response])).
Proof.
  pose proof (main_run v content w) as Hrun.
  destruct (turn_history w content) as [history|e].
  - destruct Hrun as (calls & Hcalls & [[e Hmain]|[response Hmain]]).
    + split; [by rewrite Hmain|]. exists calls.
      split; [by apply bounded_call_provider|]. left. exists e.
      split; [by rewrite Hmain|]. apply trace_of_appended. by rewrite Hmain.
    + split; [by rewrite Hmain|]. exists calls.
      split; [by apply bounded_call_provider|]. right. exists response.
      split; [by rewrite Hmain|]. apply trace_of_appended. by rewrite Hmain.
  - split; [by rewrite Hrun|]. exists []. split; [done|]. left. exists e.
    split; [by rewrite Hrun|]. apply trace_of_appended. rewrite Hrun.
    cbn [snd]. by rewrite app_nil_r.
Qed.

(** X2.  However long the history, no completion request of a turn
    carries more than eleven messages: the prompts take the last five or
    the last ten messages of the history, and the summary request has
    two. *)
Theorem main_requests_bounded (v : variant) (content : string) (w : World) :
  Forall (fun e => forall request reply,
            e = Completion request reply ->
            length (request_messages request) <= 11)
         (trace_of (main rt env v content) w).
Proof.
  assert (Hbounded : forall calls,
            forallb bounded_call calls = true ->
            Forall (fun e => forall request reply,
                      e = Completion request reply ->
                      length (request_messages request) <= 11) calls).
  { induction calls as [|e calls IH]; [constructor|]. cbn [forallb].
    intros [He Hcalls]%andb_true_iff. constructor; [|by apply IH].
    intros request reply ->. cbn [bounded_call] in He. by apply Nat.leb_le. }
  pose proof (main_run v content w) as Hrun.
  destruct (turn_history w content) as [history|e].
  - destruct Hrun as (calls & Hcalls & [[e Hmain]|[response Hmain]]).
    + rewrite (trace_of_appended _ w calls) by (by rewrite Hmain). by apply Hbounded.
    + rewrite (trace_of_appended _ w (calls ++ [MessageSent response]))
        by (by rewrite Hmain).
      apply Forall_app. split; [by apply Hbounded|].
      constructor; [|constructor]. intros request reply Heq. discriminate Heq.
  - rewrite (trace_of_appended _ w []) by (rewrite Hrun; cbn [snd]; by rewrite app_nil_r).
    constructor.
Qed.

(** X3.  A turn that completes leaves in the session the history it
    found (nothing, when the session held none or an empty one), then
    the user's message, then the assistant's answer; the message sent to
    the user is that answer, and it is the last event of the turn. *)
Theorem main_appends_exchange (v : variant) (content : string) (w w2 : World) :
  main rt env v content w = (Ok tt, w2) ->
  exists earlier response,
    py_or_empty_list (default PNone (chat_history w)) = PList earlier
    /\ chat_history w2 =
         Some (PList (earlier ++ [mk_message "user" content;
                                  mk_message "assistant" response]))
    /\ last (log w2) = Some (MessageSent response).
Proof.
  intros Hmain. pose proof (main_run v content w) as Hrun.
  destruct (turn_history w content) as [history|e] eqn:Hturn.
  2:{ rewrite Hmain in Hrun. discriminate Hrun. }
  destruct (turn_history_earlier _ _ _ Hturn) as (earlier & Hstored & ->).
  destruct Hrun as (calls & _ & [[e Hrun]|[response Hrun]]);
    rewrite Hmain in Hrun; [discriminate Hrun|].
  injection Hrun as ->. exists earlier, response.
  split; [exact Hstored|]. cbn [chat_history log]. split.
  - by rewrite <- app_assoc.
  - by rewrite !app_assoc, last_snoc.
Qed.

(** X4.  A turn that raises after the incoming message was appended
    leaves that message in the session, with no answer after it, and
    sends nothing; a turn that raises on the append itself (the session
    holds something that is not a list) leaves the world as it was. *)
Theorem main_failed_turn (v : variant) (content : string) (w w2 : World) (e : exn) :
  main rt env v content w = (Raised e, w2) ->
  files w2 = files w
  /\ forallb (fun ev => negb (is_message_sent ev)) (trace_of (main rt env v content) w)
     = true
  /\ match py_or_empty_list (default PNone (chat_history w)) with
     | PList earlier =>
         chat_history w2 = Some (PList (earlier ++ [mk_message "user" content]))
     | other => e = AttributeError other "append" /\ w2 = w
     end.
Proof.
  intros Hmain. pose proof (main_run v content w) as Hrun.
  assert (Hquiet : forall calls,
            forallb bounded_call calls = true ->
            forallb (fun ev => negb (is_message_sent ev)) calls = true).
  { induction calls as [|ev calls IH]; [done|]. cbn [forallb].
    intros [He Hcalls]%andb_true_iff. rewrite (IH Hcalls), andb_true_r.
    by destruct ev. }
  unfold turn_history, py_append in Hrun.
  destruct (py_or_empty_list (default PNone (chat_history w))) as [| | | |earlier|] eqn:Hstored.
  5:{ destruct Hrun as (calls & Hcalls & [[e' Hrun]|[response Hrun]]);
        rewrite Hmain in Hrun; [|discriminate Hrun].
      injection Hrun as -> ->. cbn [files chat_history].
      split; [done|]. split; [|done].
      rewrite (trace_of_appended _ w calls) by (by rewrite Hmain).
      by apply Hquiet. }
  all: rewrite Hmain in Hrun; injection Hrun as -> ->.
  all: split; [done|]; split; [|done].
  all: by rewrite (trace_of_appended _ w []) by (rewrite Hmain; cbn [snd]; by rewrite app_nil_r).
Qed.

Lemma holds_messages_turn (w : World) (content : string) :
  holds_messages w ->
  exists earlier,
    py_or_empty_list (default PNone (chat_history w)) = PList earlier
    /\ turn_history w content = Ok (earlier ++ [mk_message "user" content])
    /\ Forall is_message (earlier ++ [mk_message "user" content]).
Proof.
  unfold holds_messages, turn_history. intros Hw.
  assert (Huser : Forall is_message [mk_message "user" content]).
  { constructor; [by exists "user", content|constructor]. }
  destruct (chat_history w) as [[| | | |l|]|]; try contradiction.
  - destruct l as [|m l].
    + exists []. by repeat split.
    + exists (m :: l). repeat split. by apply Forall_app.
  - exists []. by repeat split.
Qed.

Lemma summarized_call_raises (v : variant) (history : list pyval)
    (agent_name instr instructions : string) (rest : string -> list pyval)
    (w w' : World) (e : exn) :
  Forall is_message history ->
  summarized_call rt env v history agent_name instr instructions rest w = (Raised e, w') ->
  exists before request, log w' = before ++ [Completion request (Raised e)].
Proof.
  intros Hmessages.
  destruct (Nat.le_gt_cases (length history) 10) as [Hshort|Hlong].
  - rewrite summarized_call_short by exact Hshort. cbv zeta.
    intros [= Hreply <-]. cbn [log]. rewrite Hreply. by eexists _, _.
  - destruct (summarized_call_long rt env v history agent_name instr instructions rest w
                Hlong Hmessages) as (lines & _ & Hcall).
    cbv zeta in Hcall. rewrite Hcall.
    destruct (llm env (length (log w)) (summary_request v lines)) as [hs|e'] eqn:Hfirst.
    + intros [= Hreply <-]. cbn [log]. rewrite Hreply. by eexists _, _.
    + intros [= <- <-]. cbn [log]. by eexists _, _.
Qed.

(** X5.  The session keeps its shape over a turn: if it holds nothing or
    a list of messages when a message comes in, it holds a list of
    messages, not empty, when the turn is over, whether the turn
    completed or raised. *)
Theorem main_keeps_messages (v : variant) (content : string) (w : World) :
  holds_messages w ->
  exists l,
    chat_history (main rt env v content w).2 = Some (PList l)
    /\ l <> []
    /\ Forall is_message l.
Proof.
  intros Hw.
  destruct (holds_messages_turn w content Hw) as (earlier & _ & Hturn & Hmessages).
  pose proof (main_run v content w) as Hrun. rewrite Hturn in Hrun.
  destruct Hrun as (calls & _ & [[e Hmain]|[response Hmain]]); rewrite Hmain;
    cbn [snd chat_history]; eexists; (split; [reflexivity|]).
  - split; [by destruct earlier|exact Hmessages].
  - split; [by destruct earlier|]. apply Forall_app. split; [exact Hmessages|].
    constructor; [by exists "assistant", response|constructor].
Qed.

(** X6.  With a session that holds nothing or a list of messages, the
    only way a turn raises is a completion call that failed: the last
    event of the turn is that call, and the exception is the provider's. *)
Theorem main_fails_only_with_provider (v : variant) (content : string)
    (w w2 : World) (e : exn) :
  holds_messages w ->
  main rt env v content w = (Raised e, w2) ->
  exists before request, log w2 = before ++ [Completion request (Raised e)].
Proof.
  intros Hw.
  destruct (holds_messages_turn w content Hw) as (earlier & _ & Hturn & Hmessages).
  set (history := earlier ++ [mk_message "user" content]) in *.
  rewrite main_unfold, classify_unfold, Hturn. unfold bind at 1.
  destruct (summarized_call rt env v history "Triage Agent"
              "Classify message with history context" classification_instructions
              (fun _ => last_n 5 history ++ [mk_message "user" content])
              (mkWorld (files w) (Some (PList history)) (log w)))
    as [[output|e1] w1] eqn:Hclassify.
  2:{ intros [= <- <-]. by apply summarized_call_raises in Hclassify. }
  unfold ret.
  destruct (valid_categories !! rt.(str_lower) (rt.(str_strip) output))
    as [category|] eqn:Htopic.
  - rewrite (respond_news_unfold rt env v history _ category Htopic).
    unfold bind at 1. rewrite get_real_news_run. cbv zeta.
    unfold bind at 1. rewrite summarize_with_llm_unfold.
    match goal with
    | |- context [summarized_call ?a ?b ?c ?d ?f ?g ?h ?i ?j] =>
        destruct (summarized_call a b c d f g h i j) as [[summary|e2] w3] eqn:Hnews
    end.
    + discriminate.
    + intros [= <- <-]. by apply summarized_call_raises in Hnews.
  - rewrite (respond_general_unfold rt env v history _ Htopic).
    match goal with
    | |- context [summarized_call ?a ?b ?c ?d ?f ?g ?h ?i ?j] =>
        destruct (summarized_call a b c d f g h i j) as [[answer|e2] w3] eqn:Hgeneral
    end.
    + discriminate.
    + intros [= <- <-]. by apply summarized_call_raises in Hgeneral.
Qed.

(** X7.  On the news path the answer is built by the handler, not by the
    provider alone: it is the announcement that names the category, a
    blank line, then the summarizer's reply as it came; that text is
    what is sent and what the history records for the assistant. *)
Theorem main_news_answer (v : variant) (content : string) (w w1 w2 : World)
    (history : list pyval) (topic category : string) :
  classify rt env v content w = (Ok (history, topic), w1) ->
  valid_categories !! topic = Some category ->
  main rt env v content w = (Ok tt, w2) ->
  exists before news hs summary,
    let answer :=
      "📰 Here is the latest **" +:+ category +:+ "** news:" +:+ nl +:+ nl +:+ summary in
    log w2 = before ++ [Completion (news_request v history news category hs) (Ok summary);
                        MessageSent answer]
    /\ chat_history w2 = Some (PList (history ++ [mk_message "assistant" answer])).
Proof.
  intros Hclassify Htopic. rewrite main_unfold, Hclassify.
  destruct (respond_world rt env v history topic w1) as (r & t & Hrespond & Hshape).
  rewrite Htopic in Hshape. cbv zeta in Hshape.
  destruct Hshape as (_ & _ & Hanswer). rewrite Hrespond.
  destruct r as [response|e]; [|discriminate].
  intros [= <-].
  destruct (Hanswer response eq_refl) as (hs & before & summary & -> & ->).
  exists (log w1 ++ before). eexists. exists hs, summary. cbv zeta. cbn [log chat_history].
  split; [|reflexivity]. by rewrite <- !app_assoc.
Qed.

(** *** The start of a session *)

Lemma py_last_not_json (v : pyval) (msg : string) :
  py_last v <> Raised (JSONDecodeError msg).
Proof.
  unfold py_last. destruct v as [| | |s|l|d]; try discriminate.
  - by destruct (last (list_ascii_of_string s)).
  - by destruct (last l).
Qed.

Lemma py_getitem_not_json (v : pyval) (k msg : string) :
  py_getitem v k <> Raised (JSONDecodeError msg).
Proof.
  unfold py_getitem. destruct v as [| | | | |d]; try discriminate.
  by destruct (assoc k d).
Qed.

Lemma start_run (w : World) :
  start rt w =
  match files w !! archive_file with
  | None =>
      (Ok tt,
       mkWorld (files w) (Some (PList []))
         (log w ++ [PathExists archive_file false; MessageSent greeting]))
  | Some text =>
      match resumed_history rt text with
      | Ok history =>
          (Ok tt,
           mkWorld (files w) (Some history)
             (log w ++ [PathExists archive_file true; FileRead archive_file;
                        MessageSent greeting]))
      | Raised e =>
          (Raised e,
           mkWorld (files w) (chat_history w)
             (log w ++ [PathExists archive_file true; FileRead archive_file]))
      end
  end.
Proof.
  unfold start, bind, path_exists, try_except_json, read_file, lift, session_set,
    send_message, emit, ret, resumed_history.
  cbn [fst snd files chat_history log].
  destruct (files w !! archive_file) as [text|] eqn:Hfile.
  2:{ rewrite bool_decide_eq_false_2 by (by intros [? ?]).
      cbn [files chat_history log]. by rewrite <- !app_assoc. }
  rewrite bool_decide_eq_true_2 by (by eexists).
  cbn [fst snd files chat_history log]. rewrite Hfile. cbn [from_option id].
  destruct (rt.(json_load) text) as [all_history|e].
  2:{ destruct e; cbn [files chat_history log]; by rewrite <- !app_assoc. }
  destruct (py_truthy all_history).
  2:{ cbn [files chat_history log]. by rewrite <- !app_assoc. }
  pose proof (py_last_not_json all_history) as Hlast.
  destruct (py_last all_history) as [most_recent|e].
  2:{ destruct e; cbn [files chat_history log]; rewrite <- ?app_assoc;
        try reflexivity. by destruct (Hlast msg). }
  pose proof (py_getitem_not_json most_recent "session") as Hsession.
  destruct (py_getitem most_recent "session") as [history|e].
  { cbn [files chat_history log]. by rewrite <- !app_assoc. }
  destruct e; cbn [files chat_history log]; rewrite <- ?app_assoc;
    try reflexivity. by destruct (Hsession msg).
Qed.

Lemma resumed_history_last (text : string) (earlier : list pyval) (record : pyval) :
  rt.(json_load) text = Ok (PList (earlier ++ [record])) ->
  resumed_history rt text = py_getitem record "session".
Proof.
  intros Hload. unfold resumed_history. rewrite Hload.
  assert (Htruthy : py_truthy (PList (earlier ++ [record])) = true)
    by (by destruct earlier).
  rewrite Htruthy. unfold py_last. by rewrite last_snoc.
Qed.

(** X8.  [start] never writes: the files are as they were, and all it
    does to the outside is look for the archive, read it when it is
    there, and greet.  It greets exactly when it completes, and then the
    session holds a history; when it raises, the session is as it was
    and nothing is sent. *)
Theorem start_footprint (w : World) :
  files (start rt w).2 = files w
  /\ match (start rt w).1 with
     | Ok _ =>
         trace_of (start rt) w = archive_accesses w ++ [MessageSent greeting]
         /\ is_Some (chat_history (start rt w).2)
     | Raised _ =>
         trace_of (start rt) w = archive_accesses w
         /\ chat_history (start rt w).2 = chat_history w
     end.
Proof.
  pose proof (start_run w) as Hrun. unfold archive_accesses.
  destruct (files w !! archive_file) as [text|].
  - destruct (resumed_history rt text) as [history|e].
    + rewrite Hrun. cbn [fst snd files chat_history].
      split; [done|]. split; [|by eexists].
      apply trace_of_appended. by rewrite Hrun.
    + rewrite Hrun. cbn [fst snd files chat_history].
      split; [done|]. split; [|done].
      apply trace_of_appended. by rewrite Hrun.
  - rewrite Hrun. cbn [fst snd files chat_history].
    split; [done|]. split; [|by eexists].
    apply trace_of_appended. by rewrite Hrun.
Qed.

(** X9.  Of an archive that holds records, [start] reads the last one
    only: the session resumes with what that record has under
    ["session"], whatever the records before it are. *)
Theorem start_resumes_last_record (w : World) (text : string)
    (earlier : list pyval) (record history : pyval) :
  files w !! archive_file = Some text ->
  rt.(json_load) text = Ok (PList (earlier ++ [record])) ->
  py_getitem record "session" = Ok history ->
  start rt w =
    (Ok tt,
     mkWorld (files w) (Some history)
       (log w ++ [PathExists archive_file true; FileRead archive_file;
                  MessageSent greeting])).
Proof.
  intros Hfile Hload Hsession.
  rewrite start_run, Hfile, (resumed_history_last _ _ _ Hload), Hsession.
  reflexivity.
Qed.

(** X10.  An archive that is well-formed JSON but whose last record is a
    dict without a ["session"] key is not treated as malformed: the
    [KeyError] leaves [start], the session is not initialised and no
    greeting is sent. *)
Theorem start_record_without_session (w : World) (text : string)
    (earlier : list pyval) (fields : list (string * pyval)) :
  files w !! archive_file = Some text ->
  rt.(json_load) text = Ok (PList (earlier ++ [PDict fields])) ->
  assoc "session" fields = None ->
  start rt w =
    (Raised (KeyError (PStr "session")),
     mkWorld (files w) (chat_history w)
       (log w ++ [PathExists archive_file true; FileRead archive_file])).
Proof.
  intros Hfile Hload Hfields.
  rewrite start_run, Hfile, (resumed_history_last _ _ _ Hload).
  unfold py_getitem. by rewrite Hfields.
Qed.

(** X11.  With no archive, or an archive whose document is empty (an
    empty list or dict, [null], an empty string, zero, [false]),
    [start] completes with the empty history. *)
Theorem start_without_sessions (w : World) :
  (files w !! archive_file = None
   \/ exists text document,
        files w !! archive_file = Some text
        /\ rt.(json_load) text = Ok document
        /\ py_truthy document = false) ->
  (start rt w).1 = Ok tt
  /\ chat_history (start rt w).2 = Some (PList []).
Proof.
  intros [Hfile|(text & document & Hfile & Hload & Hempty)]; rewrite start_run, Hfile.
  - done.
  - unfold resumed_history. by rewrite Hload, Hempty.
Qed.

(** X12.  [start] takes the last session as it finds it.  When the last
    record holds under ["session"] something that is not a list and not
    empty (a string, a number, a dict), [start] completes, and every
    message of the session then raises [AttributeError] before any
    provider is called, leaving the world as it was. *)
Theorem resumed_non_list_session_breaks_turn (w : World) (text : string)
    (earlier : list pyval) (record session : pyval) :
  files w !! archive_file = Some text ->
  rt.(json_load) text = Ok (PList (earlier ++ [record])) ->
  py_getitem record "session" = Ok session ->
  py_truthy session = true ->
  (forall l, session <> PList l) ->
  let w1 := (start rt w).2 in
  (start rt w).1 = Ok tt
  /\ forall v content,
       main rt env v content w1 = (Raised (AttributeError session "append"), w1).
Proof.
  intros Hfile Hload Hsession Htruthy Hshape.
  rewrite start_run, Hfile, (resumed_history_last _ _ _ Hload), Hsession.
  cbv zeta. cbn [fst snd]. split; [reflexivity|]. intros v content.
  match goal with |- main _ _ _ _ ?w1 = _ => pose proof (main_run v content w1) as Hrun end.
  unfold turn_history, py_or_empty_list in Hrun.
  cbn [chat_history from_option id] in Hrun. rewrite Htruthy in Hrun.
  unfold py_append in Hrun.
  destruct session as [| | | |l|]; try exact Hrun.
  by destruct (Hshape l).
Qed.

(** *** The end of a session *)

Lemma end_run_found (w : World) (history : pyval) (text : string) :
  chat_history w = Some history ->
  py_truthy history = true ->
  files w !! archive_file = Some text ->
  end_ rt env w =
  let accessed := log w ++ [PathExists archive_file true; FileRead archive_file] in
  match rt.(json_load) text with
  | Raised (JSONDecodeError _) =>
      let timestamp := strftime_now env (length accessed) in
      let new_text := rt.(json_dump) (PList [mk_record timestamp history]) in
      (Ok tt,
       mkWorld (<[archive_file := new_text]> (files w)) (chat_history w)
         (accessed ++ [ClockRead timestamp; FileWrite archive_file new_text;
                       Printed saved_line]))
  | Raised e => (Raised e, mkWorld (files w) (chat_history w) accessed)
  | Ok (PList records) =>
      let timestamp := strftime_now env (length accessed) in
      let new_text := rt.(json_dump) (PList (records ++ [mk_record timestamp history])) in
      (Ok tt,
       mkWorld (<[archive_file := new_text]> (files w)) (chat_history w)
         (accessed ++ [ClockRead timestamp; FileWrite archive_file new_text;
                       Printed saved_line]))
  | Ok other =>
      (Raised (AttributeError other "append"),
       mkWorld (files w) (chat_history w) accessed)
  end.
Proof.
  intros Hhistory Htruthy Hfile.
  rewrite (end_run rt env w history Hhistory Htruthy).
  unfold loaded_archive, archive_accesses. rewrite Hfile. cbv zeta.
  destruct (rt.(json_load) text) as [[| | | |records|]|[]];
    rewrite <- ?app_assoc; reflexivity.
Qed.

(** X13.  [end] appends: when the archive holds a list of records, the
    archive written is that list, in its order, followed by one record
    with the session's history and the time read from the clock.  No
    other file changes and the session keeps its history. *)
Theorem end_appends_record (w : World) (history : pyval) (text : string)
    (records : list pyval) :
  chat_history w = Some history ->
  py_truthy history = true ->
  files w !! archive_file = Some text ->
  rt.(json_load) text = Ok (PList records) ->
  let w' := (end_ rt env w).2 in
  let timestamp := strftime_now env (length (log w) + 2) in
  (end_ rt env w).1 = Ok tt
  /\ files w' !! archive_file =
       Some (rt.(json_dump) (PList (records ++ [mk_record timestamp history])))
  /\ (forall filename, filename <> archive_file ->
        files w' !! filename = files w !! filename)
  /\ chat_history w' = Some history
  /\ ClockRead timestamp ∈ trace_of (end_ rt env) w.
Proof.
  intros Hhistory Htruthy Hfile Hload. cbv zeta.
  pose proof (end_run_found w history text Hhistory Htruthy Hfile) as Hrun.
  rewrite Hload in Hrun. cbv zeta in Hrun.
  rewrite length_app in Hrun. cbn [length] in Hrun.
  split; [by rewrite Hrun|]. split; [|split; [|split]].
  - rewrite Hrun. cbn [snd files]. by rewrite lookup_insert_eq.
  - intros filename Hother. rewrite Hrun. cbn [snd files].
    by rewrite lookup_insert_ne.
  - rewrite Hrun. cbn [snd chat_history]. exact Hhistory.
  - erewrite trace_of_appended; [|rewrite Hrun; cbn [snd log]; by rewrite <- app_assoc].
    cbn [app]. apply list_elem_of_In. cbn [In]. tauto.
Qed.

(** X14.  An archive that [json.load] rejects is not kept: [end] starts
    again from the empty list, so the file it writes holds one record,
    that of the session that ends, and what the file held is gone. *)
Theorem end_replaces_rejected_archive (w : World) (history : pyval)
    (text msg : string) :
  chat_history w = Some history ->
  py_truthy history = true ->
  files w !! archive_file = Some text ->
  rt.(json_load) text = Raised (JSONDecodeError msg) ->
  let timestamp := strftime_now env (length (log w) + 2) in
  (end_ rt env w).1 = Ok tt
  /\ files (end_ rt env w).2 !! archive_file =
       Some (rt.(json_dump) (PList [mk_record timestamp history])).
Proof.
  intros Hhistory Htruthy Hfile Hload. cbv zeta.
  pose proof (end_run_found w history text Hhistory Htruthy Hfile) as Hrun.
  rewrite Hload in Hrun. cbv zeta in Hrun.
  rewrite length_app in Hrun. cbn [length] in Hrun.
  rewrite Hrun. cbn [fst snd files]. split; [done|]. by rewrite lookup_insert_eq.
Qed.

(** X15.  An archive that is well-formed JSON but not a list (a dict, a
    string, [null]) makes [end] raise [AttributeError] on the append:
    nothing is written, the clock is not read, and the session's history
    is not saved. *)
Theorem end_archive_not_a_list (w : World) (history other : pyval) (text : string) :
  chat_history w = Some history ->
  py_truthy history = true ->
  files w !! archive_file = Some text ->
  rt.(json_load) text = Ok other ->
  (forall records, other <> PList records) ->
  end_ rt env w =
    (Raised (AttributeError other "append"),
     mkWorld (files w) (chat_history w)
       (log w ++ [PathExists archive_file true; FileRead archive_file])).
Proof.
  intros Hhistory Htruthy Hfile Hload Hshape.
  rewrite (end_run_found w history text Hhistory Htruthy Hfile), Hload. cbv zeta.
  destruct other as [| | | |records|]; try reflexivity.
  by destruct (Hshape records).
Qed.

Lemma end_run_archive (w : World) (history : pyval) (records : list pyval) :
  chat_history w = Some history ->
  py_truthy history = true ->
  loaded_archive rt w = Ok (PList records) ->
  exists timestamp,
    (end_ rt env w).1 = Ok tt
    /\ files (end_ rt env w).2 !! archive_file =
         Some (rt.(json_dump) (PList (records ++ [mk_record timestamp history]))).
Proof.
  intros Hhistory Htruthy Hloaded.
  rewrite (end_run rt env w history Hhistory Htruthy), Hloaded. cbv zeta.
  eexists. cbn [fst snd files]. split; [reflexivity|]. by rewrite lookup_insert_eq.
Qed.

(** X16.  What [end] saves, the next [start] resumes.  Over any archive
    [end] can extend (none, a rejected one, a list of records), with a
    [json] module that reads back what it writes, the session started
    after [end] holds the history the ended session had. *)
Theorem end_then_start (w : World) (history : pyval) (records : list pyval) :
  chat_history w = Some history ->
  py_truthy history = true ->
  textual history = true ->
  loaded_archive rt w = Ok (PList records) ->
  textual (PList records) = true ->
  (forall v, textual v = true -> rt.(json_load) (rt.(json_dump) v) = Ok v) ->
  let w' := (end_ rt env w).2 in
  (end_ rt env w).1 = Ok tt
  /\ start rt (next_session w') =
       (Ok tt,
        mkWorld (files w') (Some history)
          (log w' ++ [PathExists archive_file true; FileRead archive_file;
                      MessageSent greeting])).
Proof.
  intros Hhistory Htruthy Htext Hloaded Hrecords Hjson. cbv zeta.
  destruct (end_run_archive w history records Hhistory Htruthy Hloaded)
    as (timestamp & Hok & Hfile).
  split; [exact Hok|].
  rewrite start_run. cbn [next_session files chat_history log]. rewrite Hfile.
  rewrite (resumed_history_last _ records (mk_record timestamp history)).
  - reflexivity.
  - apply Hjson. cbn [textual] in *. rewrite forallb_app, Hrecords.
    cbn [forallb]. by rewrite textual_record, Htext.
Qed.

(** X17.  An exchange completed before the session ends is there when
    the next one starts: after a turn that completed, [end] and then
    [start] leave in the new session the history the turn left. *)
Theorem turn_survives_restart (v : variant) (content : string) (w w1 : World)
    (records : list pyval) :
  holds_messages w ->
  loaded_archive rt w = Ok (PList records) ->
  textual (PList records) = true ->
  (forall x, textual x = true -> rt.(json_load) (rt.(json_dump) x) = Ok x) ->
  main rt env v content w = (Ok tt, w1) ->
  exists earlier response,
    let history :=
      PList (earlier ++ [mk_message "user" content; mk_message "assistant" response]) in
    chat_history w1 = Some history
    /\ (end_ rt env w1).1 = Ok tt
    /\ chat_history (start rt (next_session (end_ rt env w1).2)).2 = Some history.
Proof.
  intros Hw Hloaded Hrecords Hjson Hmain.
  destruct (holds_messages_turn w content Hw) as (earlier & _ & Hturn & Hmessages).
  pose proof (main_run v content w) as Hrun. rewrite Hturn in Hrun.
  destruct Hrun as (calls & _ & [[e Hrun]|[response Hrun]]);
    rewrite Hmain in Hrun; [discriminate Hrun|].
  injection Hrun as ->. exists earlier, response. cbv zeta.
  rewrite <- app_assoc. cbn [app chat_history]. split; [reflexivity|].
  set (history := PList (earlier ++ [mk_message "user" content;
                                     mk_message "assistant" response])).
  set (w1 := mkWorld (files w) (Some history)
               (log w ++ calls ++ [MessageSent response])).
  assert (Htruthy : py_truthy history = true) by (by destruct earlier).
  assert (Htext : textual history = true).
  { cbn [history textual]. apply forallb_forall. intros m Hm.
    apply Forall_app in Hmessages as [Hearlier _].
    apply in_app_or in Hm as [Hm|Hm].
    - apply list_elem_of_In in Hm. rewrite Forall_forall in Hearlier.
      by destruct (Hearlier m Hm) as (role & text & ->).
    - cbn [In] in Hm. by destruct Hm as [<-|[<-|[]]]. }
  destruct (end_run_archive w1 history records eq_refl Htruthy Hloaded)
    as (timestamp & Hok & Hfile).
  split; [exact Hok|].
  rewrite start_run. cbn [next_session files]. rewrite Hfile.
  rewrite (resumed_history_last _ records (mk_record timestamp history)).
  - reflexivity.
  - apply Hjson. cbn [textual] in *. rewrite forallb_app, Hrecords.
    cbn [forallb]. by rewrite textual_record, Htext.
Qed.

(** *** The news text and the history summary *)

Lemma title_lines_dicts (articles : list pyval) :
  Forall is_dict articles ->
  title_lines rt articles =
  Ok (map (fun title => "- " +:+ py_str rt title) (omap article_title articles)).
Proof.
  induction 1 as [|article rest [fields ->] _ IH]; [reflexivity|].
  cbn [title_lines py_contains py_getitem omap list_omap article_title].
  destruct (assoc "title" fields) as [title|]; [|exact IH].
  rewrite IH. reflexivity.
Qed.

Lemma length_omap_le {A B : Type} (f : A -> option B) (l : list A) :
  length (omap f l) <= length l.
Proof.
  induction l as [|a l IH]; [done|]. cbn [omap list_omap length].
  destruct (f a); cbn [length]; lia.
Qed.

(** X18.  When NewsAPI answers 200 with a document whose ["articles"]
    are dicts, the news text is one line ["- <title>"] for each of the
    first ten articles that has a title, in their order, joined by
    newlines.  An article without a title is skipped, so there are ten
    lines at most; a document without ["articles"] gives the empty
    text. *)
Theorem get_real_news_headlines (v : variant) (category : string) (w : World)
    (d : list (string * pyval)) (articles : list pyval) :
  requests_get env (length (log w)) (news_url rt v category)
    = Ok (mkResponse 200 (Ok (PDict d))) ->
  default (PList []) (assoc "articles" d) = PList articles ->
  Forall is_dict articles ->
  let titles := omap article_title (take 10 articles) in
  (get_real_news rt env v category w).1 =
    Ok (String.concat nl (map (fun title => "- " +:+ py_str rt title) titles))
  /\ length titles <= 10.
Proof.
  intros Hreply Harticles Hdicts. cbv zeta. split.
  - rewrite get_real_news_run. cbv zeta. cbn [fst]. rewrite Hreply.
    unfold news_text, fetch_result. cbn [status_code json Z.eqb Pos.eqb negb py_get].
    assert (Hfound : match assoc "articles" d with
                     | Some x => x
                     | None => PList []
                     end = PList articles).
    { by destruct (assoc "articles" d). }
    rewrite Hfound. cbn [py_first10].
    rewrite title_lines_dicts by (by apply Forall_take). reflexivity.
  - etransitivity; [apply length_omap_le|]. rewrite length_take. lia.
Qed.

Lemma history_lines_turns (turns : list (string * string)) :
  history_lines rt (map (fun t => mk_message t.1 t.2) turns) =
  Ok (map (fun t => t.1 +:+ ": " +:+ t.2) turns).
Proof.
  induction turns as [|[role content] turns IH]; [reflexivity|].
  cbn [map fst snd]. cbn [map fst snd] in IH.
  change (history_lines rt (mk_message role content :: ?l))
    with (match history_lines rt l with
          | Raised e => Raised e
          | Ok lines => Ok ((role +:+ ": " +:+ content) :: lines)
          end).
  by rewrite IH.
Qed.

(** X19.  [summarize_history] on a history that is not empty makes one
    completion call and returns its reply, a failure included.  The
    request has two messages: the summary instruction as the system
    message, and a user message with one line ["<role>: <content>"] for
    each message of the history, in order, joined by newlines. *)
Theorem summarize_history_request (v : variant) (turns : list (string * string))
    (w : World) :
  turns <> [] ->
  let history := map (fun t => mk_message t.1 t.2) turns in
  let request :=
    completion_request v "Summarizer" "Summarize conversation history"
      [mk_message "system" summary_instructions;
       mk_message "user" (String.concat nl (map (fun t => t.1 +:+ ": " +:+ t.2) turns))] in
  let reply := llm env (length (log w)) request in
  summarize_history rt env v history w =
    (reply, mkWorld (files w) (chat_history w) (log w ++ [Completion request reply])).
Proof.
  intros Hturns. cbv zeta.
  pose proof (history_lines_turns turns) as Hlines.
  destruct turns as [|turn rest]; [done|].
  unfold summarize_history. cbn [map] in *.
  unfold bind, lift. rewrite Hlines. reflexivity.
Qed.

Lemma history_lines_ill_shaped (good rest : list pyval) (bad : pyval) (e : exn) :
  Forall is_message good ->
  (py_getitem bad "role" = Raised e
   \/ exists role, py_getitem bad "role" = Ok role /\
                   py_getitem bad "content" = Raised e) ->
  history_lines rt (good ++ bad :: rest) = Raised e.
Proof.
  intros Hgood Hbad.
  induction Hgood as [|m good (role & content & ->) _ IH].
  - cbn [app history_lines].
    destruct Hbad as [Hrole|(role & Hrole & Hcontent)]; rewrite Hrole; [done|].
    by rewrite Hcontent.
  - cbn [app].
    change (history_lines rt (mk_message role content :: ?l))
      with (match history_lines rt l with
            | Raised e => Raised e
            | Ok lines => Ok ((role +:+ ": " +:+ content) :: lines)
            end).
    by rewrite IH.
Qed.

(** X20.  A history with an entry that has no ["role"] or no
    ["content"] makes [summarize_history] raise while it builds the
    prompt: the exception is that of the first such entry, and no
    completion call is made. *)
Theorem summarize_history_ill_shaped (v : variant) (good rest : list pyval)
    (bad : pyval) (e : exn) (w : World) :
  Forall is_message good ->
  (py_getitem bad "role" = Raised e
   \/ exists role, py_getitem bad "role" = Ok role /\
                   py_getitem bad "content" = Raised e) ->
  summarize_history rt env v (good ++ bad :: rest) w = (Raised e, w).
Proof.
  intros Hgood Hbad.
  pose proof (history_lines_ill_shaped good rest bad e Hgood Hbad) as Hlines.
  destruct (good ++ bad :: rest) as [|m l] eqn:Hhistory.
  { by destruct good. }
  unfold summarize_history, bind, lift. by rewrite Hlines.
Qed.

(** *** The calls of a turn *)

Lemma completions_app (t1 t2 : list event) :
  completions (t1 ++ t2) = completions t1 + completions t2.
Proof. unfold completions. by rewrite List.filter_app, length_app. Qed.

Lemma within_silent {A : Type} (m : M A) :
  (forall w, log (m w).2 = log w) -> within 0 m.
Proof. intros Hm w. exists []. by rewrite app_nil_r, Hm. Qed.

Lemma within_bind {A B : Type} (n1 n2 : nat) (m : M A) (k : A -> M B) :
  within n1 m -> (forall a, within n2 (k a)) -> within (n1 + n2) (bind m k).
Proof.
  intros Hm Hk w. unfold bind.
  destruct (Hm w) as (t & Hlog & Ht).
  destruct (m w) as [[a|e] w1]; cbn [snd] in *.
  - destruct (Hk a w1) as (t' & Hlog' & Ht').
    exists (t ++ t'). rewrite Hlog', Hlog, <- app_assoc. split; [done|].
    rewrite completions_app. lia.
  - exists t. split; [done|]. lia.
Qed.

Lemma within_complete (v : variant) (agent_name instr : string) (prompt : list pyval) :
  within 1 (complete env v agent_name instr prompt).
Proof. intros w. eexists. split; [reflexivity|]. cbn. lia. Qed.

Lemma within_history_summary_of (v : variant) (history : list pyval) :
  within 1 (history_summary_of rt env v history).
Proof.
  unfold history_summary_of.
  destruct (10 <? length history)%nat.
  2:{ intros w. exists []. split; [by rewrite app_nil_r|]. cbn. lia. }
  destruct history as [|msg rest].
  { intros w. exists []. split; [by rewrite app_nil_r|]. cbn. lia. }
  unfold summarize_history.
  apply (within_bind 0 1); [by apply within_silent|]. intros lines.
  apply within_complete.
Qed.

Lemma within_classify (v : variant) (content : string) :
  within 2 (classify rt env v content).
Proof.
  unfold classify.
  apply (within_bind 0 2); [by apply within_silent|]. intros stored.
  apply (within_bind 0 2); [by apply within_silent|]. intros history.
  apply (within_bind 0 2); [by apply within_silent|]. intros _.
  apply (within_bind 1 1); [apply within_history_summary_of|]. intros hs.
  apply (within_bind 1 0); [apply within_complete|]. intros output.
  by apply within_silent.
Qed.

Lemma within_respond (v : variant) (history : list pyval) (topic : string) :
  within 2 (respond rt env v history topic).
Proof.
  unfold respond. destruct (valid_categories !! topic) as [category|].
  - apply (within_bind 0 2).
    { intros w. rewrite get_real_news_run. eexists. split; [reflexivity|]. cbn. lia. }
    intros news. apply (within_bind 2 0); [|intros summary; by apply within_silent].
    unfold summarize_with_llm.
    apply (within_bind 1 1); [apply within_history_summary_of|]. intros hs.
    apply within_complete.
  - apply (within_bind 1 1); [apply within_history_summary_of|]. intros hs.
    apply within_complete.
Qed.

(** X21.  A turn makes four completion calls at most: the classifier's
    and the answering one, each preceded by a history summary when the
    history is longer than ten messages. *)
Theorem main_completion_budget (v : variant) (content : string) (w : World) :
  completions (trace_of (main rt env v content) w) <= 4.
Proof.
  assert (Hmain : within 4 (main rt env v content)).
  { unfold main. apply (within_bind 2 2); [apply within_classify|].
    intros [history topic].
    apply (within_bind 2 0); [apply within_respond|]. intros response.
    apply (within_bind 0 0); [by apply within_silent|]. intros _.
    intros w0. eexists. split; [reflexivity|]. cbn. lia. }
  destruct (Hmain w) as (t & Hlog & Ht).
  by rewrite (trace_of_appended _ w t Hlog).
Qed.

(** X22.  On both paths, the request that produces the answer ends with
    the incoming message: the slice of the history it carries is taken
    after the message was appended. *)
Theorem answering_request_ends_with_message (v : variant) (content : string)
    (w w1 w2 : World) (history : list pyval) (topic answer : string) :
  classify rt env v content w = (Ok (history, topic), w1) ->
  respond rt env v history topic w1 = (Ok answer, w2) ->
  exists before request reply,
    log w2 = before ++ [Completion request reply]
    /\ last (request_messages request) = Some (mk_message "user" content).
Proof.
  intros Hclassify Hrespond.
  destruct (main_world rt env v w w1 content history topic Hclassify)
    as (_ & _ & _ & Hturn & _).
  destruct (turn_history_snoc w content history Hturn) as [earlier ->].
  destruct (respond_world rt env v (earlier ++ [mk_message "user" content]) topic w1)
    as (r & t & Hrun & Hshape).
  rewrite Hrespond in Hrun. injection Hrun as <- ->. cbn [log].
  destruct (valid_categories !! topic) as [category|].
  - cbv zeta in Hshape. destruct Hshape as (_ & _ & Hanswer).
    destruct (Hanswer answer eq_refl) as (hs & before & summary & -> & _).
    exists (log w1 ++ before). eexists _, _. rewrite <- app_assoc.
    split; [reflexivity|].
    replace (request_messages (news_request v (earlier ++ [mk_message "user" content])
               _ category hs))
      with ([mk_message "system" (system_content (news_instructions category) hs);
             mk_message "user"
               (news_text rt (requests_get env (length (log w1)) (news_url rt v category)))]
            ++ last_n 5 (earlier ++ [mk_message "user" content]))
      by (by destruct v).
    rewrite last_n_snoc by lia. by rewrite !app_assoc, last_snoc.
  - destruct Hshape as (_ & Hanswer).
    destruct (Hanswer answer eq_refl) as (hs & before & ->).
    exists (log w1 ++ before). eexists _, _. rewrite <- app_assoc.
    split; [reflexivity|].
    replace (request_messages (general_request v (earlier ++ [mk_message "user" content]) hs))
      with (general_prompt (earlier ++ [mk_message "user" content]) hs)
      by (by destruct v).
    unfold general_prompt. rewrite last_n_snoc by lia. by rewrite !app_assoc, last_snoc.
Qed.

End Further.

(** ** The sample codec

    The sample decoder reads back what the sample encoder writes, for
    every textual value. *)
Module SampleCodec.
Import Sample.

Lemma append_assoc (a b c : string) : (a +:+ b) +:+ c = a +:+ (b +:+ c).
Proof.
  induction a as [|x a IH]; [reflexivity|].
  change (String x ((a +:+ b) +:+ c) = String x (a +:+ (b +:+ c))). by f_equal.
Qed.

Lemma append_nil_r (a : string) : a +:+ "" = a.
Proof.
  induction a as [|x a IH]; [reflexivity|].
  change (String x (a +:+ "") = String x a). by f_equal.
Qed.

Lemma length_append (a b : string) :
  String.length (a +:+ b) = String.length a + String.length b.
Proof.
  induction a as [|x a IH]; [reflexivity|].
  change (S (String.length (a +:+ b)) = S (String.length a + String.length b)).
  by f_equal.
Qed.

Lemma parse_chars_escape_char (c : ascii) (s : string) :
  parse_chars (escape_char c +:+ s) =
  match parse_chars s with
  | Some (t, r) => Some (String c t, r)
  | None => None
  end.
Proof. destruct c as [[] [] [] [] [] [] [] []]; reflexivity. Qed.

Lemma parse_chars_escape (s rest : string) :
  parse_chars (escape s +:+ String dq rest) = Some (s, rest).
Proof.
  induction s as [|c s IH]; [reflexivity|].
  cbn [escape]. rewrite append_assoc, parse_chars_escape_char. by rewrite IH.
Qed.

Lemma skip_ws_spaces (n : nat) (s : string) : skip_ws (spaces n +:+ s) = skip_ws s.
Proof. induction n as [|n IH]; [reflexivity|]. exact IH. Qed.

Lemma skip_ws_indent (n : nat) (s : string) : skip_ws (nl +:+ spaces n +:+ s) = skip_ws s.
Proof. apply skip_ws_spaces. Qed.


Lemma pyval_nested_ind (P : pyval -> Prop) :
  P PNone -> (forall b, P (PBool b)) -> (forall z, P (PInt z)) -> (forall s, P (PStr s)) ->
  (forall l, Forall P l -> P (PList l)) ->
  (forall d, Forall (fun kv => P (snd kv)) d -> P (PDict d)) ->
  forall v, P v.
Proof.
  intros HNone HBool HInt HStr HList HDict.
  fix IH 1. intros [| b | z | s | l | d].
  - exact HNone.
  - apply HBool.
  - apply HInt.
  - apply HStr.
  - apply HList.
    exact ((fix go (l : list pyval) : Forall P l :=
              match l with
              | [] => @List.Forall_nil _ P
              | x :: l' => @List.Forall_cons _ P x l' (IH x) (go l')
              end) l).
  - apply HDict.
    exact ((fix go (d : list (string * pyval)) : Forall (fun kv => P (snd kv)) d :=
              match d with
              | [] => @List.Forall_nil _ _
              | kv :: d' => @List.Forall_cons _ _ kv d' (IH (snd kv)) (go d')
              end) d).
Qed.

Lemma parse_value_skip (fuel : nat) (s t : string) :
  skip_ws s = skip_ws t -> parse_value fuel s = parse_value fuel t.
Proof. destruct fuel as [|fuel]; [reflexivity|]. cbn [parse_value]. by intros ->. Qed.

Lemma parse_value_string (fuel : nat) (s : string) :
  parse_value (S fuel) (String dq s) =
  match parse_chars s with
  | Some (t, r) => Some (PStr t, r)
  | None => None
  end.
Proof. reflexivity. Qed.

Lemma parse_value_list (fuel : nat) (s : string) :
  parse_value (S fuel) ("[" +:+ s) =
  match skip_ws s with
  | String "]" r => Some (PList [], r)
  | _ =>
      match parse_items fuel s with
      | Some (vs, r) => Some (PList vs, r)
      | None => None
      end
  end.
Proof. reflexivity. Qed.

Lemma parse_value_dict (fuel : nat) (s : string) :
  parse_value (S fuel) ("{" +:+ s) =
  match skip_ws s with
  | String "}" r => Some (PDict [], r)
  | _ =>
      match parse_members fuel [] s with
      | Some (d, r) => Some (PDict d, r)
      | None => None
      end
  end.
Proof. reflexivity. Qed.

Lemma parse_items_unfold (fuel : nat) (s : string) :
  parse_items (S fuel) s =
  match parse_value fuel s with
  | Some (v, r) =>
      match skip_ws r with
      | String "," r' =>
          match parse_items fuel r' with
          | Some (vs, r'') => Some (v :: vs, r'')
          | None => None
          end
      | String "]" r' => Some ([v], r')
      | _ => None
      end
  | None => None
  end.
Proof. reflexivity. Qed.

Lemma dump_at_opening (depth : nat) (v : pyval) (more : string) :
  textual v = true ->
  exists c rest, dump_at depth v +:+ more = String c rest /\ opening c.
Proof.
  destruct v as [|[]|z|s|[|x xs]|[|[k x] kxs]]; intros Htext; try discriminate;
    eexists _, _; (split; [reflexivity|constructor]).
Qed.

Lemma opening_skip (c : ascii) (rest : string) :
  opening c -> skip_ws (String c rest) = String c rest.
Proof. by destruct 1. Qed.


Lemma weight_pos (v : pyval) : 1 <= weight v.
Proof. destruct v; simpl; lia. Qed.

Lemma skip_ws_comma (s : string) : skip_ws ("," +:+ s) = String "," s.
Proof. reflexivity. Qed.

Lemma skip_ws_close_list (n : nat) (rest : string) :
  skip_ws ((nl +:+ spaces n +:+ "]") +:+ rest) = String "]" rest.
Proof. rewrite !append_assoc, skip_ws_indent. reflexivity. Qed.

Lemma skip_ws_close_dict (n : nat) (rest : string) :
  skip_ws ((nl +:+ spaces n +:+ "}") +:+ rest) = String "}" rest.
Proof. rewrite !append_assoc, skip_ws_indent. reflexivity. Qed.

Lemma parse_items_dump (inner k' : nat) (xs : list pyval) :
  Forall (fun x => textual x = true -> parses x) xs ->
  forallb textual xs = true ->
  forall x fuel rest,
    parses x ->
    1 + weight x + list_sum (map weight xs) <= fuel ->
    parse_items fuel
      (nl +:+ spaces (2 * inner) +:+ dump_at inner x +:+
       join_items (dump_at inner) ("," +:+ nl +:+ spaces (2 * inner))
         (nl +:+ spaces k' +:+ "]") xs +:+ rest) = Some (x :: xs, rest).
Proof.
  induction 1 as [|y ys Hy Hys IH]; intros Htext x fuel rest Px Hfuel;
    (destruct fuel as [|fuel]; [simpl in Hfuel; lia|]);
    rewrite parse_items_unfold;
    rewrite (parse_value_skip fuel _ _ (skip_ws_indent _ _));
    rewrite Px by (simpl in Hfuel; lia).
  - cbn [join_items]. by rewrite skip_ws_close_list.
  - cbn [forallb] in Htext. apply andb_true_iff in Htext as [Hytext Hystext].
    cbn [join_items]. rewrite !append_assoc, skip_ws_comma.
    rewrite (IH Hystext y fuel rest (Hy Hytext)); [reflexivity|].
    pose proof (weight_pos x). simpl in Hfuel |- *. lia.
Qed.


Lemma quote_append (key rest : string) :
  quote key +:+ rest = String dq (escape key +:+ String dq rest).
Proof.
  change (quote key +:+ rest) with (String dq ((escape key +:+ String dq "") +:+ rest)).
  by rewrite append_assoc.
Qed.

Lemma parse_members_unfold (fuel : nat) (acc : list (string * pyval)) (s s1 : string) :
  skip_ws s = String dq s1 ->
  parse_members (S fuel) acc s =
  match parse_chars s1 with
  | Some (k, s2) =>
      match skip_ws s2 with
      | String ":" s3 =>
          match parse_value fuel s3 with
          | Some (v, r) =>
              match skip_ws r with
              | String "," r' => parse_members fuel (dict_set k v acc) r'
              | String "}" r' => Some (dict_set k v acc, r')
              | _ => None
              end
          | None => None
          end
      | _ => None
      end
  | None => None
  end.
Proof. intros Hskip. cbn [parse_members]. rewrite Hskip. reflexivity. Qed.

Lemma parse_members_member (fuel n : nat) (acc : list (string * pyval))
    (key rest : string) :
  parse_members (S fuel) acc (nl +:+ spaces n +:+ quote key +:+ ": " +:+ rest) =
  match parse_value fuel rest with
  | Some (v, r) =>
      match skip_ws r with
      | String "," r' => parse_members fuel (dict_set key v acc) r'
      | String "}" r' => Some (dict_set key v acc, r')
      | _ => None
      end
  | None => None
  end.
Proof.
  rewrite (parse_members_unfold fuel acc _ (escape key +:+ String dq (": " +:+ rest))).
  2:{ rewrite skip_ws_indent, quote_append. apply opening_skip. constructor. }
  rewrite parse_chars_escape.
  change (skip_ws (": " +:+ rest)) with (String ":" (String " " rest)).
  cbv iota beta.
  by rewrite (parse_value_skip fuel (String " " rest) rest eq_refl).
Qed.


Lemma dict_set_fresh (key : string) (v : pyval) (acc : list (string * pyval))
    (later : list string) :
  distinct (map fst acc ++ key :: later) = true ->
  dict_set key v acc = acc ++ [(key, v)].
Proof.
  induction acc as [|[k' v'] acc IH]; [reflexivity|].
  cbn [map fst app distinct dict_set]. intros [Hfresh Hrest]%andb_true_iff.
  apply negb_true_iff in Hfresh. rewrite existsb_app in Hfresh.
  apply orb_false_iff in Hfresh as [_ Hfresh]. cbn [existsb] in Hfresh.
  apply orb_false_iff in Hfresh as [Hne _].
  rewrite String.eqb_sym, Hne. by rewrite (IH Hrest).
Qed.

Lemma parse_members_dump (inner k' : nat) (kxs : list (string * pyval)) :
  Forall (fun kv => textual (snd kv) = true -> parses (snd kv)) kxs ->
  forallb (fun kv => textual (snd kv)) kxs = true ->
  forall key x acc fuel rest,
    parses x ->
    distinct (map fst acc ++ key :: map fst kxs) = true ->
    1 + weight x + list_sum (map (fun kv => weight (snd kv)) kxs) <= fuel ->
    parse_members fuel acc
      (nl +:+ spaces (2 * inner) +:+ quote key +:+ ": " +:+ dump_at inner x +:+
       join_members (dump_at inner) ("," +:+ nl +:+ spaces (2 * inner))
         (nl +:+ spaces k' +:+ "}") kxs +:+ rest) = Some (acc ++ (key, x) :: kxs, rest).
Proof.
  induction 1 as [|[k y] kys Hy Hys IH]; intros Htext key x acc fuel rest Px Hkeys Hfuel;
    (destruct fuel as [|fuel]; [simpl in Hfuel; lia|]);
    rewrite parse_members_member;
    rewrite Px by (simpl in Hfuel; lia);
    rewrite (dict_set_fresh key x acc _ Hkeys).
  - cbn [join_members]. by rewrite skip_ws_close_dict.
  - cbn [forallb snd] in Htext. apply andb_true_iff in Htext as [Hytext Hystext].
    cbn [join_members]. rewrite !append_assoc, skip_ws_comma.
    cbn [snd] in Hy.
    rewrite (IH Hystext k y (acc ++ [(key, x)]) fuel rest (Hy Hytext)).
    + by rewrite <- app_assoc.
    + rewrite map_app, <- app_assoc. exact Hkeys.
    + pose proof (weight_pos x). simpl in Hfuel |- *. lia.
Qed.

Lemma opening_not_close_list (c : ascii) (s : string) {A : Type} (a b : string -> A) :
  opening c ->
  match String c s with
  | String "]" r => a r
  | _ => b (String c s)
  end = b (String c s).
Proof. by destruct 1. Qed.

Lemma parse_value_dump (v : pyval) : textual v = true -> parses v.
Proof.
  induction v as [|b|z|s|l IH|d IH] using pyval_nested_ind;
    intros Htext depth rest fuel Hfuel;
    (destruct fuel as [|fuel]; [simpl in Hfuel; lia|]).
  - reflexivity.
  - by destruct b.
  - discriminate.
  - cbn [dump_at]. rewrite quote_append, parse_value_string.
    by rewrite parse_chars_escape.
  - destruct l as [|x xs]; [reflexivity|].
    cbn [textual forallb] in Htext. apply andb_true_iff in Htext as [Hx Hxs].
    apply Forall_cons in IH as [IHx IHxs].
    cbn [dump_at]. rewrite !append_assoc.
    rewrite (parse_value_list fuel).
    rewrite (parse_items_dump (S depth) (2 * depth) xs IHxs Hxs x fuel rest (IHx Hx))
      by (simpl in Hfuel |- *; lia).
    rewrite skip_ws_indent.
    destruct (dump_at_opening (S depth) x
                (join_items (dump_at (S depth)) ("," +:+ nl +:+ spaces (2 * S depth))
                   (nl +:+ spaces (2 * depth) +:+ "]") xs +:+ rest) Hx)
      as (c & r & -> & Hc).
    rewrite (opening_skip c r Hc). by destruct Hc.
  - destruct d as [|[k x] kxs]; [reflexivity|].
    cbn [textual map fst distinct forallb snd] in Htext.
    apply andb_true_iff in Htext as [Hkeys [Hx Hxs]%andb_true_iff].
    apply Forall_cons in IH as [IHx IHxs]. cbn [snd] in IHx.
    cbn [dump_at]. rewrite !append_assoc.
    rewrite (parse_value_dict fuel).
    rewrite (parse_members_dump (S depth) (2 * depth) kxs IHxs Hxs k x [] fuel rest
               (IHx Hx) Hkeys)
      by (simpl in Hfuel |- *; lia).
    rewrite skip_ws_indent, quote_append.
    by rewrite (opening_skip dq _ open_string).
Qed.

Lemma weight_le_length (v : pyval) :
  textual v = true -> forall depth, weight v <= String.length (dump_at depth v).
Proof.
  induction v as [|b|z|s|l IH|d IH] using pyval_nested_ind; intros Htext depth.
  - simpl. lia.
  - destruct b; simpl; lia.
  - discriminate.
  - simpl. lia.
  - destruct l as [|x xs]; [simpl; lia|].
    cbn [textual forallb] in Htext. apply andb_true_iff in Htext as [Hx Hxs].
    apply Forall_cons in IH as [IHx IHxs].
    cbn [dump_at weight map]. rewrite !length_append.
    change (list_sum (?a :: ?l)) with (a + list_sum l).
    specialize (IHx Hx (S depth)).
    assert (Hjoin : forall sep close,
              1 <= String.length close ->
              1 + list_sum (map weight xs) <=
              String.length (join_items (dump_at (S depth)) sep close xs)).
    { intros sep close Hclose.
      induction IHxs as [|y ys Hy _ IHys]; [simpl; lia|].
      cbn [forallb] in Hxs. apply andb_true_iff in Hxs as [Hytext Hystext].
      cbn [join_items map]. rewrite !length_append.
      change (list_sum (?a :: ?l)) with (a + list_sum l).
      specialize (Hy Hytext (S depth)). specialize (IHys Hystext). lia. }
    specialize (Hjoin ("," +:+ nl +:+ spaces (2 * S depth))
                  (nl +:+ spaces (2 * depth) +:+ "]")).
    rewrite !length_append in Hjoin.
    change (String.length nl) with 1 in *. change (String.length "]") with 1 in *.
    change (String.length "[") with 1 in *. lia.
  - destruct d as [|[k x] kxs]; [simpl; lia|].
    cbn [textual map fst distinct forallb snd] in Htext.
    apply andb_true_iff in Htext as [Hkeys [Hx Hxs]%andb_true_iff].
    apply Forall_cons in IH as [IHx IHxs]. cbn [snd] in IHx.
    cbn [dump_at weight map snd]. rewrite !length_append.
    change (list_sum (?a :: ?l)) with (a + list_sum l).
    specialize (IHx Hx (S depth)). clear Hkeys.
    assert (Hjoin : forall sep close,
              1 <= String.length close ->
              1 + list_sum (map (fun kv => weight (snd kv)) kxs) <=
              String.length (join_members (dump_at (S depth)) sep close kxs)).
    { intros sep close Hclose.
      induction IHxs as [|[k' y] ys Hy _ IHys]; [simpl; lia|].
      cbn [forallb snd] in Hxs. apply andb_true_iff in Hxs as [Hytext Hystext].
      cbn [join_members map snd]. rewrite !length_append.
      change (list_sum (?a :: ?l)) with (a + list_sum l).
      cbn [snd] in Hy. specialize (Hy Hytext (S depth)). specialize (IHys Hystext). lia. }
    specialize (Hjoin ("," +:+ nl +:+ spaces (2 * S depth))
                  (nl +:+ spaces (2 * depth) +:+ "}")).
    rewrite !length_append in Hjoin.
    change (String.length nl) with 1 in *. change (String.length "}") with 1 in *.
    change (String.length "{") with 1 in *. lia.
Qed.

(** The sample decoder reads back what the sample encoder writes for a
    value made of strings, lists and dicts with distinct keys. *)
Lemma load_dump (v : pyval) : textual v = true -> load (dump v) = Ok v.
Proof.
  intros Htext. unfold load, dump.
  pose proof (parse_value_dump v Htext 0 "" (S (String.length (dump_at 0 v)))) as Hparse.
  rewrite append_nil_r in Hparse. rewrite Hparse; [reflexivity|].
  pose proof (weight_le_length v Htext 0). lia.
Qed.

End SampleCodec.

(** ** Concrete runs

    The theorems above applied to the sample runtime, and the runs on which
    the code and the specification part. *)

(** C1 on the first message of a conversation: the request the
    classifier receives has an empty system message. *)
Lemma classification_system_message_short_history_witness :
  let content := "Tell me the latest about crypto" in
  let history := [mk_message "user" content] in
  let request :=
    completion_request chat "Triage Agent" "Classify message with history context"
      ([mk_message "system" ""] ++ last_n 5 history ++ [mk_message "user" content]) in
  turn_history Sample.empty_world content = Ok history
  /\ length history <= 10
  /\ trace_of (classify Sample.runtime (Sample.answering "news-crypto" Sample.headlines)
                 chat content) Sample.empty_world =
     [Completion request (Ok "news-crypto")]
  /\ prompt_head_content request = Some ""
  /\ enumerates_labels "" = false.
Proof.
  cbv zeta. split; [reflexivity|]. split; [simpl; lia|].
  apply (classification_system_message_short_history Sample.runtime
           (Sample.answering "news-crypto" Sample.headlines) chat Sample.empty_world
           "Tell me the latest about crypto"
           [mk_message "user" "Tell me the latest about crypto"]);
    [reflexivity|simpl; lia].
Defined.

(** C2.  On a turn labelled news-crypto, with one provider and one
    history for both, the two variants do not issue the same news request:
    chat.py searches by keyword, chatlit.py asks for the headlines of a
    category the provider does not have. *)
Lemma crypto_turn_requests_differ :
  let env := Sample.answering "news-crypto" Sample.headlines in
  let content := "Tell me the latest about crypto" in
  http_requests (log (main Sample.runtime env chat content Sample.empty_world).2) =
    ["https://newsapi.org/v2/everything?q=cryptocurrency&apiKey=KEY&language=en&sortBy=publishedAt"]
  /\ http_requests (log (main Sample.runtime env chatlit content Sample.empty_world).2) =
    ["https://newsapi.org/v2/top-headlines?category=cryptocurrency&apiKey=KEY&language=en"]
  /\ http_requests (log (main Sample.runtime env chat content Sample.empty_world).2) <>
     http_requests (log (main Sample.runtime env chatlit content Sample.empty_world).2).
Proof.
  cbv zeta. split; [vm_compute; reflexivity|]. split; [vm_compute; reflexivity|].
  vm_compute. discriminate.
Qed.

(** The two variants side by side on a turn labelled news-tech. *)
Lemma variants_agree_on_tech_turn :
  let env := Sample.answering " News-Tech " Sample.headlines in
  let content := "Any chip news?" in
  api_blind env
  /\ (forall history topic w1,
        classify Sample.runtime env chat content Sample.empty_world =
          (Ok (history, topic), w1) ->
        topic <> "news-crypto")
  /\ (main Sample.runtime env chat content Sample.empty_world).1 =
     (main Sample.runtime env chatlit content Sample.empty_world).1
  /\ same_world (main Sample.runtime env chat content Sample.empty_world).2
                (main Sample.runtime env chatlit content Sample.empty_world).2
  /\ http_requests (log (main Sample.runtime env chat content Sample.empty_world).2) =
     http_requests (log (main Sample.runtime env chatlit content Sample.empty_world).2).
Proof.
  cbv zeta.
  assert (Hblind : api_blind (Sample.answering " News-Tech " Sample.headlines)).
  { intros n r r' _. reflexivity. }
  assert (Hlabel : forall history topic w1,
            classify Sample.runtime (Sample.answering " News-Tech " Sample.headlines)
              chat "Any chip news?" Sample.empty_world = (Ok (history, topic), w1) ->
            topic <> "news-crypto").
  { intros history topic w1 Hrun. vm_compute in Hrun. injection Hrun as _ <- _.
    discriminate. }
  split; [exact Hblind|]. split; [exact Hlabel|].
  exact (variants_agree_outside_crypto Sample.runtime
           (Sample.answering " News-Tech " Sample.headlines) Sample.empty_world
           "Any chip news?" Hblind Hlabel).
Defined.

(** C3 on "cryptocurrency" in both variants, and on two other categories. *)
Lemma news_url_by_category_witness :
  news_url Sample.runtime chat "cryptocurrency" =
    "https://newsapi.org/v2/everything?q=cryptocurrency&apiKey=KEY&language=en&sortBy=publishedAt"
  /\ news_url Sample.runtime chatlit "cryptocurrency" =
    "https://newsapi.org/v2/top-headlines?category=cryptocurrency&apiKey=KEY&language=en"
  /\ news_url Sample.runtime chat "health" =
    "https://newsapi.org/v2/top-headlines?category=health&apiKey=KEY&language=en"
  /\ news_url Sample.runtime chatlit "tech" =
    "https://newsapi.org/v2/top-headlines?category=technology&apiKey=KEY&language=en".
Proof.
  split; [|split; [|split]].
  - exact (proj1 (news_url_by_category Sample.runtime Sample.no_reply "cryptocurrency")
             eq_refl).
  - exact (proj1 (proj2 (proj2
             (news_url_by_category Sample.runtime Sample.no_reply "cryptocurrency")))).
  - apply (proj1 (proj2 (news_url_by_category Sample.runtime Sample.no_reply "health"))).
    discriminate.
  - exact (proj1 (proj2 (proj2
             (news_url_by_category Sample.runtime Sample.no_reply "tech")))).
Defined.

(** C4 on the eleventh message of a conversation. *)
Lemma history_summary_call_per_step_witness :
  let env := Sample.answering "Sam asked about chips" Sample.headlines in
  let history := Sample.ten_messages ++ [mk_message "user" "Any chip news?"] in
  Forall is_message history
  /\ turn_history (Sample.world_with_history Sample.ten_messages) "Any chip news?" = Ok history
  /\ history_summary_calls
       (trace_of (classify Sample.runtime env chat "Any chip news?")
          (Sample.world_with_history Sample.ten_messages)) = 1
  /\ history_summary_calls
       (trace_of (summarize_with_llm Sample.runtime env chat "- New chip announced"
                    "technology" history) Sample.empty_world) = 1
  /\ history_summary_calls
       (trace_of (respond Sample.runtime env chat history "general") Sample.empty_world) = 1.
Proof.
  cbv zeta.
  assert (Hmsgs : Forall is_message
            (Sample.ten_messages ++ [mk_message "user" "Any chip news?"])).
  { repeat (apply Forall_cons_2; [by eexists _, _|]). apply Forall_nil_2. }
  split; [exact Hmsgs|]. split; [reflexivity|].
  destruct (history_summary_call_per_step Sample.runtime
              (Sample.answering "Sam asked about chips" Sample.headlines) chat
              (Sample.ten_messages ++ [mk_message "user" "Any chip news?"])
              (or_intror Hmsgs)) as (_ & Hclassify & Hnews & Hrespond).
  split; [|split].
  - apply Hclassify. reflexivity.
  - apply Hnews.
  - apply Hrespond.
Defined.


(** C6 fails on a status 502 whose body is not JSON: the string returned
    carries the decoder's message and no status code. *)
Lemma bad_gateway_not_reported_as_http :
  let env := Sample.answering "summary" Sample.bad_gateway in
  (get_real_news Sample.runtime env chat "technology" Sample.empty_world).1 =
    Ok "Failed to fetch news: Expecting value: line 1 column 1 (char 0)"
  /\ String.prefix "Failed to fetch news: HTTP 502 - "
       "Failed to fetch news: Expecting value: line 1 column 1 (char 0)" = false.
Proof. split; vm_compute; reflexivity. Qed.

(** C6 on a rejected key: the failure string is returned, and it is what
    the summarizer is asked to summarize on the news path. *)
Lemma news_fetch_never_raises_witness :
  let env := Sample.answering "summary" Sample.key_rejected in
  let history := [mk_message "user" "Any health news?"] in
  let text := "Failed to fetch news: HTTP 401 - Your API key is invalid" in
  (get_real_news Sample.runtime env chat "health" Sample.empty_world).1 = Ok text
  /\ valid_categories !! "news-health" = Some "health"
  /\ respond Sample.runtime env chat history "news-health" Sample.empty_world =
       (Ok (news_announcement "health" "summary"),
        mkWorld (files Sample.empty_world) None
          [HttpGet (news_url Sample.runtime chat "health") Sample.key_rejected;
           Completion (news_request chat history text "health" "") (Ok "summary")]).
Proof.
  cbv zeta.
  destruct (news_fetch_never_raises Sample.runtime
              (Sample.answering "summary" Sample.key_rejected) chat "health"
              Sample.empty_world) as (text & Hrun & Hhttp & _ & _ & _ & Hpass).
  assert (Htext : text = "Failed to fetch news: HTTP 401 - Your API key is invalid").
  { apply (Hhttp 401%Z [("status", PStr "error"); ("code", PStr "apiKeyInvalid");
                        ("message", PStr "Your API key is invalid")]);
      [reflexivity|discriminate]. }
  subst text. split; [by rewrite Hrun|].
  assert (Hlabel : valid_categories !! "news-health" = Some "health").
  { vm_compute. reflexivity. }
  split; [exact Hlabel|].
  destruct (Hpass [mk_message "user" "Any health news?"] "news-health" Hlabel)
    as (r & rest & Hrespond & _ & _ & Hshort).
  destruct Hshort as [Hrest Hr]; [simpl; lia|].
  rewrite Hrespond, Hrest, Hr. reflexivity.
Defined.

(** C7 on an archive cut after its first character. *)
Lemma start_malformed_archive_witness :
  files (Sample.world_with_archive "{") !! archive_file = Some "{"
  /\ json_load Sample.runtime "{" = Raised (JSONDecodeError "Expecting value")
  /\ start Sample.runtime (Sample.world_with_archive "{") =
     (Ok tt,
      mkWorld (files (Sample.world_with_archive "{")) (Some (PList []))
        [PathExists archive_file true; FileRead archive_file; MessageSent greeting]).
Proof.
  split; [reflexivity|]. split; [reflexivity|].
  apply (start_malformed_archive Sample.runtime (Sample.world_with_archive "{") "{"
           (JSONDecodeError "Expecting value")); reflexivity.
Defined.

(** C7 fails on an archive whose one byte, 0xFF, is not UTF-8 text: the
    file is malformed, reading it raises [UnicodeDecodeError], and the
    exception leaves [start] with the session history unset and no
    greeting sent.  The same reader still rejects a cut archive with
    [JSONDecodeError] and accepts the text of the greeting. *)
Lemma undecodable_archive_escapes_start :
  let text := String (ascii_of_nat 255) EmptyString in
  let e := UnicodeDecodeError "'utf-8' codec can't decode the file" in
  json_load Sample.utf8_runtime text = Raised e
  /\ start Sample.utf8_runtime (Sample.world_with_archive text) =
     (Raised e,
      mkWorld (files (Sample.world_with_archive text)) None
        [PathExists archive_file true; FileRead archive_file])
  /\ json_load Sample.utf8_runtime "{" = Raised (JSONDecodeError "Expecting value")
  /\ Sample.valid_utf8 greeting = true.
Proof. cbv zeta. repeat split; vm_compute; reflexivity. Qed.

(** C8 fails on a record with an empty session: [end] writes nothing, so
    no archive is there to read the record back from. *)
Lemma empty_session_leaves_no_record :
  sessions_end Sample.runtime Sample.no_reply [PList []] Sample.empty_world =
    mkWorld ∅ (Some (PList [])) []
  /\ files (sessions_end Sample.runtime Sample.no_reply [PList []] Sample.empty_world)
       !! archive_file = None.
Proof. split; reflexivity. Qed.

(** C8 on two sessions, with the sample codec. *)
Lemma archive_round_trip_witness :
  let sessions := [PList Sample.greeting_exchange;
                   PList [mk_message "user" "Any chip news?";
                          mk_message "assistant" "📰 Here is the latest"]] in
  let records := map (mk_record "1970-01-01 00:00:00") sessions in
  exists text,
    files (sessions_end Sample.runtime Sample.no_reply sessions Sample.empty_world)
      !! archive_file = Some text
    /\ json_load Sample.runtime text = Ok (PList records)
    /\ chat_history
         (start Sample.runtime
            (sessions_end Sample.runtime Sample.no_reply sessions Sample.empty_world)).2
       = last sessions.
Proof.
  cbv zeta.
  set (sessions := [PList Sample.greeting_exchange;
                    PList [mk_message "user" "Any chip news?";
                           mk_message "assistant" "📰 Here is the latest"]]).
  assert (Hfresh : files Sample.empty_world !! archive_file = None) by reflexivity.
  assert (Htruthy : Forall (fun history => py_truthy history = true) sessions).
  { repeat (apply Forall_cons_2; [reflexivity|]). apply Forall_nil_2. }
  assert (Htext : Forall (fun history => textual history = true) sessions).
  { repeat (apply Forall_cons_2; [reflexivity|]). apply Forall_nil_2. }
  pose proof (archive_round_trip Sample.runtime Sample.no_reply sessions
                Sample.empty_world Hfresh Htruthy Htext SampleCodec.load_dump) as Hthm.
  destruct Hthm as [readings Hthm].
  destruct Hthm as (Hlen & _ & _ & Hread & Hstart).
  destruct Hread as (text & Hfile & Hload); [discriminate|].
  exists text. split; [exact Hfile|]. split.
  - rewrite Hload. destruct readings as [|n1 [|n2 [|n3 readings]]]; try discriminate Hlen.
    reflexivity.
  - apply Hstart. reflexivity.
Defined.

(** C9 on the third message of a conversation. *)
Lemma classification_prompt_repeats_message_witness :
  let content := "Any chip news?" in
  let message := mk_message "user" content in
  let history := Sample.greeting_exchange ++ [message] in
  turn_history (Sample.world_with_history Sample.greeting_exchange) content = Ok history
  /\ last (last_n 5 history) = Some message
  /\ exists slice_front,
       last_n 5 history = slice_front ++ [message]
       /\ classification_prompt history "" content =
          [mk_message "system" ""] ++ (slice_front ++ [message]) ++ [message].
Proof.
  cbv zeta. split; [reflexivity|].
  destruct (classification_prompt_repeats_message Sample.runtime Sample.no_reply chat
              (Sample.world_with_history Sample.greeting_exchange) "Any chip news?"
              (Sample.greeting_exchange ++ [mk_message "user" "Any chip news?"]) eq_refl)
    as (Hlast & (slice_front & Hslice & Hprompt) & _).
  split; [exact Hlast|]. exists slice_front. split; [exact Hslice|]. exact (Hprompt "").
Defined.

(** C10 with the history unset and with the history empty, an archive
    being on disk. *)
Lemma end_skips_empty_history_witness :
  chat_history (Sample.world_with_archive "[]") = None
  /\ end_ Sample.runtime Sample.no_reply (Sample.world_with_archive "[]") =
     (Ok tt, Sample.world_with_archive "[]")
  /\ end_ Sample.runtime Sample.no_reply
       (mkWorld (files (Sample.world_with_archive "[]")) (Some (PList [])) []) =
     (Ok tt, mkWorld (files (Sample.world_with_archive "[]")) (Some (PList [])) []).
Proof.
  split; [reflexivity|]. split.
  - apply (proj1 (end_skips_empty_history Sample.runtime Sample.no_reply
                    (Sample.world_with_archive "[]"))).
    left. reflexivity.
  - apply (proj1 (end_skips_empty_history Sample.runtime Sample.no_reply
                    (mkWorld (files (Sample.world_with_archive "[]")) (Some (PList [])) []))).
    right. reflexivity.
Defined.

(** ** Further concrete runs *)

(** X3 on the third message of a conversation. *)
Lemma main_appends_exchange_witness :
  let env := Sample.answering "general" Sample.headlines in
  let w := Sample.world_with_history Sample.greeting_exchange in
  let w2 := (main Sample.runtime env chat "What is an ulcer?" w).2 in
  main Sample.runtime env chat "What is an ulcer?" w = (Ok tt, w2)
  /\ exists earlier response,
       py_or_empty_list (default PNone (chat_history w)) = PList earlier
       /\ chat_history w2 =
            Some (PList (earlier ++ [mk_message "user" "What is an ulcer?";
                                     mk_message "assistant" response]))
       /\ last (log w2) = Some (MessageSent response).
Proof.
  cbv zeta. split; [vm_compute; reflexivity|].
  apply (main_appends_exchange Sample.runtime
           (Sample.answering "general" Sample.headlines) chat "What is an ulcer?"
           (Sample.world_with_history Sample.greeting_exchange)).
  vm_compute. reflexivity.
Defined.

(** X4 on a first message that no provider answers. *)
Lemma main_failed_turn_witness :
  let w2 := (main Sample.runtime Sample.no_reply chat "Hello" Sample.empty_world).2 in
  main Sample.runtime Sample.no_reply chat "Hello" Sample.empty_world =
    (Raised (ProviderError "no provider"), w2)
  /\ chat_history w2 = Some (PList [mk_message "user" "Hello"])
  /\ forallb (fun ev => negb (is_message_sent ev)) (log w2) = true.
Proof.
  cbv zeta.
  assert (Hrun : main Sample.runtime Sample.no_reply chat "Hello" Sample.empty_world =
                 (Raised (ProviderError "no provider"),
                  (main Sample.runtime Sample.no_reply chat "Hello" Sample.empty_world).2)).
  { vm_compute. reflexivity. }
  split; [exact Hrun|].
  destruct (main_failed_turn Sample.runtime Sample.no_reply chat "Hello"
              Sample.empty_world _ _ Hrun) as (_ & Hquiet & Hhistory).
  split; [exact Hhistory|exact Hquiet].
Defined.

(** X5 on the first message of a conversation. *)
Lemma main_keeps_messages_witness :
  holds_messages Sample.empty_world
  /\ exists l,
       chat_history (main Sample.runtime Sample.no_reply chatlit "Hello"
                       Sample.empty_world).2 = Some (PList l)
       /\ l <> []
       /\ Forall is_message l.
Proof.
  split; [exact I|].
  apply (main_keeps_messages Sample.runtime Sample.no_reply chatlit "Hello"
           Sample.empty_world).
  exact I.
Defined.

(** X6 on a first message that no provider answers. *)
Lemma main_fails_only_with_provider_witness :
  let w2 := (main Sample.runtime Sample.no_reply chatlit "Hello" Sample.empty_world).2 in
  holds_messages Sample.empty_world
  /\ main Sample.runtime Sample.no_reply chatlit "Hello" Sample.empty_world =
       (Raised (ProviderError "no provider"), w2)
  /\ exists before request,
       log w2 = before ++ [Completion request (Raised (ProviderError "no provider"))].
Proof.
  cbv zeta. split; [exact I|]. split; [vm_compute; reflexivity|].
  apply (main_fails_only_with_provider Sample.runtime Sample.no_reply chatlit "Hello"
           Sample.empty_world).
  - exact I.
  - vm_compute. reflexivity.
Defined.

(** X7 on a turn labelled news-tech. *)
Lemma main_news_answer_witness :
  let env := Sample.answering " News-Tech " Sample.headlines in
  let content := "Any chip news?" in
  let history := [mk_message "user" content] in
  let w1 := (classify Sample.runtime env chat content Sample.empty_world).2 in
  let w2 := (main Sample.runtime env chat content Sample.empty_world).2 in
  classify Sample.runtime env chat content Sample.empty_world =
    (Ok (history, "news-tech"), w1)
  /\ valid_categories !! "news-tech" = Some "technology"
  /\ main Sample.runtime env chat content Sample.empty_world = (Ok tt, w2)
  /\ exists before news hs summary,
       let answer :=
         "📰 Here is the latest **technology** news:" +:+ nl +:+ nl +:+ summary in
       log w2 = before ++ [Completion (news_request chat history news "technology" hs)
                             (Ok summary);
                           MessageSent answer]
       /\ chat_history w2 = Some (PList (history ++ [mk_message "assistant" answer])).
Proof.
  cbv zeta. split; [vm_compute; reflexivity|]. split; [vm_compute; reflexivity|].
  split; [vm_compute; reflexivity|].
  apply (main_news_answer Sample.runtime (Sample.answering " News-Tech " Sample.headlines)
           chat "Any chip news?" Sample.empty_world
           (classify Sample.runtime (Sample.answering " News-Tech " Sample.headlines)
              chat "Any chip news?" Sample.empty_world).2
           _ [mk_message "user" "Any chip news?"] "news-tech" "technology");
    vm_compute; reflexivity.
Defined.

(** X9 on an archive whose first record is not a session record. *)
Lemma start_resumes_last_record_witness :
  let earlier := [PDict [("note", PNone)]] in
  let record := mk_record "2026-01-01 10:00:00" (PList Sample.greeting_exchange) in
  let text := Sample.dump (PList (earlier ++ [record])) in
  let w := Sample.world_with_archive text in
  files w !! archive_file = Some text
  /\ json_load Sample.runtime text = Ok (PList (earlier ++ [record]))
  /\ py_getitem record "session" = Ok (PList Sample.greeting_exchange)
  /\ start Sample.runtime w =
       (Ok tt,
        mkWorld (files w) (Some (PList Sample.greeting_exchange))
          [PathExists archive_file true; FileRead archive_file; MessageSent greeting]).
Proof.
  cbv zeta. split; [reflexivity|]. split; [vm_compute; reflexivity|].
  split; [reflexivity|].
  refine (start_resumes_last_record Sample.runtime
            (Sample.world_with_archive
               (Sample.dump
                  (PList ([PDict [("note", PNone)]] ++
                          [mk_record "2026-01-01 10:00:00"
                             (PList Sample.greeting_exchange)]))))
            _ [PDict [("note", PNone)]]
            (mk_record "2026-01-01 10:00:00" (PList Sample.greeting_exchange))
            (PList Sample.greeting_exchange) eq_refl _ eq_refl).
  vm_compute. reflexivity.
Defined.

(** X10 on an archive whose one record has a timestamp and no session. *)
Lemma start_record_without_session_witness :
  let fields := [("timestamp", PStr "2026-01-01 10:00:00")] in
  let text := Sample.dump (PList [PDict fields]) in
  let w := Sample.world_with_archive text in
  files w !! archive_file = Some text
  /\ json_load Sample.runtime text = Ok (PList ([] ++ [PDict fields]))
  /\ assoc "session" fields = None
  /\ start Sample.runtime w =
       (Raised (KeyError (PStr "session")),
        mkWorld (files w) None [PathExists archive_file true; FileRead archive_file]).
Proof.
  cbv zeta. split; [reflexivity|]. split; [vm_compute; reflexivity|].
  split; [reflexivity|].
  refine (start_record_without_session Sample.runtime
            (Sample.world_with_archive
               (Sample.dump (PList [PDict [("timestamp", PStr "2026-01-01 10:00:00")]])))
            _ [] [("timestamp", PStr "2026-01-01 10:00:00")] eq_refl _ eq_refl).
  vm_compute. reflexivity.
Defined.

(** X11 on an archive that holds an empty object. *)
Lemma start_without_sessions_witness :
  files (Sample.world_with_archive "{}") !! archive_file = Some "{}"
  /\ json_load Sample.runtime "{}" = Ok (PDict [])
  /\ py_truthy (PDict []) = false
  /\ (start Sample.runtime (Sample.world_with_archive "{}")).1 = Ok tt
  /\ chat_history (start Sample.runtime (Sample.world_with_archive "{}")).2 =
       Some (PList []).
Proof.
  split; [reflexivity|]. split; [vm_compute; reflexivity|]. split; [reflexivity|].
  apply (start_without_sessions Sample.runtime (Sample.world_with_archive "{}")).
  right. exists "{}", (PDict []).
  split; [reflexivity|]. split; [vm_compute; reflexivity|reflexivity].
Defined.

(** X12 on an archive whose last session is a string. *)
Lemma resumed_non_list_session_breaks_turn_witness :
  let record := mk_record "2026-01-01 10:00:00" (PStr "My name is Sam") in
  let text := Sample.dump (PList [record]) in
  let w := Sample.world_with_archive text in
  let w1 := (start Sample.runtime w).2 in
  files w !! archive_file = Some text
  /\ json_load Sample.runtime text = Ok (PList ([] ++ [record]))
  /\ py_getitem record "session" = Ok (PStr "My name is Sam")
  /\ py_truthy (PStr "My name is Sam") = true
  /\ (start Sample.runtime w).1 = Ok tt
  /\ main Sample.runtime Sample.no_reply chat "Hello" w1 =
       (Raised (AttributeError (PStr "My name is Sam") "append"), w1).
Proof.
  cbv zeta. split; [reflexivity|]. split; [vm_compute; reflexivity|].
  split; [reflexivity|]. split; [reflexivity|].
  destruct (resumed_non_list_session_breaks_turn Sample.runtime Sample.no_reply
              (Sample.world_with_archive
                 (Sample.dump
                    (PList [mk_record "2026-01-01 10:00:00" (PStr "My name is Sam")])))
              (Sample.dump
                 (PList [mk_record "2026-01-01 10:00:00" (PStr "My name is Sam")]))
              [] (mk_record "2026-01-01 10:00:00" (PStr "My name is Sam"))
              (PStr "My name is Sam"))
    as [Hstart Hmain];
    [reflexivity|vm_compute; reflexivity|reflexivity|reflexivity|discriminate|].
  split; [exact Hstart|]. apply Hmain.
Defined.

(** X13 on an archive of one record. *)
Lemma end_appends_record_witness :
  let records := [mk_record "2026-01-01 10:00:00" (PList Sample.greeting_exchange)] in
  let history := PList [mk_message "user" "Any chip news?"] in
  let text := Sample.dump (PList records) in
  let w := mkWorld (files (Sample.world_with_archive text)) (Some history) [] in
  let w' := (end_ Sample.runtime Sample.no_reply w).2 in
  py_truthy history = true
  /\ json_load Sample.runtime text = Ok (PList records)
  /\ (end_ Sample.runtime Sample.no_reply w).1 = Ok tt
  /\ files w' !! archive_file =
       Some (Sample.dump (PList (records ++ [mk_record "1970-01-01 00:00:00" history])))
  /\ chat_history w' = Some history.
Proof.
  cbv zeta. split; [reflexivity|].
  assert (Hload : json_load Sample.runtime
                    (Sample.dump
                       (PList [mk_record "2026-01-01 10:00:00"
                                 (PList Sample.greeting_exchange)])) =
                  Ok (PList [mk_record "2026-01-01 10:00:00"
                               (PList Sample.greeting_exchange)])).
  { vm_compute. reflexivity. }
  split; [exact Hload|].
  destruct (end_appends_record Sample.runtime Sample.no_reply
              (mkWorld
                 (files (Sample.world_with_archive
                           (Sample.dump
                              (PList [mk_record "2026-01-01 10:00:00"
                                        (PList Sample.greeting_exchange)]))))
                 (Some (PList [mk_message "user" "Any chip news?"])) [])
              (PList [mk_message "user" "Any chip news?"])
              (Sample.dump
                 (PList [mk_record "2026-01-01 10:00:00"
                           (PList Sample.greeting_exchange)]))
              [mk_record "2026-01-01 10:00:00" (PList Sample.greeting_exchange)]
              eq_refl eq_refl eq_refl Hload)
    as (Hok & Hfile & _ & Hhistory & _).
  split; [exact Hok|]. split; [exact Hfile|exact Hhistory].
Defined.

(** X14 on an archive cut after its first character. *)
Lemma end_replaces_rejected_archive_witness :
  let history := PList [mk_message "user" "Any chip news?"] in
  let w := mkWorld (files (Sample.world_with_archive "[")) (Some history) [] in
  json_load Sample.runtime "[" = Raised (JSONDecodeError "Expecting value")
  /\ (end_ Sample.runtime Sample.no_reply w).1 = Ok tt
  /\ files (end_ Sample.runtime Sample.no_reply w).2 !! archive_file =
       Some (Sample.dump (PList [mk_record "1970-01-01 00:00:00" history])).
Proof.
  cbv zeta.
  assert (Hload : json_load Sample.runtime "[" = Raised (JSONDecodeError "Expecting value")).
  { vm_compute. reflexivity. }
  split; [exact Hload|].
  exact (end_replaces_rejected_archive Sample.runtime Sample.no_reply
           (mkWorld (files (Sample.world_with_archive "["))
              (Some (PList [mk_message "user" "Any chip news?"])) [])
           (PList [mk_message "user" "Any chip news?"]) "[" "Expecting value"
           eq_refl eq_refl eq_refl Hload).
Defined.

(** X15 on an archive that holds an empty object. *)
Lemma end_archive_not_a_list_witness :
  let history := PList [mk_message "user" "Any chip news?"] in
  let w := mkWorld (files (Sample.world_with_archive "{}")) (Some history) [] in
  json_load Sample.runtime "{}" = Ok (PDict [])
  /\ end_ Sample.runtime Sample.no_reply w =
       (Raised (AttributeError (PDict []) "append"),
        mkWorld (files w) (Some history)
          [PathExists archive_file true; FileRead archive_file]).
Proof.
  cbv zeta.
  assert (Hload : json_load Sample.runtime "{}" = Ok (PDict [])).
  { vm_compute. reflexivity. }
  split; [exact Hload|].
  apply (end_archive_not_a_list Sample.runtime Sample.no_reply
           (mkWorld (files (Sample.world_with_archive "{}"))
              (Some (PList [mk_message "user" "Any chip news?"])) [])
           (PList [mk_message "user" "Any chip news?"]) (PDict []) "{}"
           eq_refl eq_refl eq_refl Hload).
  discriminate.
Defined.

(** X16 on a first session, with the sample codec. *)
Lemma end_then_start_witness :
  let history := PList Sample.greeting_exchange in
  let w := Sample.world_with_history Sample.greeting_exchange in
  let w' := (end_ Sample.runtime Sample.no_reply w).2 in
  loaded_archive Sample.runtime w = Ok (PList [])
  /\ (end_ Sample.runtime Sample.no_reply w).1 = Ok tt
  /\ start Sample.runtime (next_session w') =
       (Ok tt,
        mkWorld (files w') (Some history)
          (log w' ++ [PathExists archive_file true; FileRead archive_file;
                      MessageSent greeting])).
Proof.
  cbv zeta. split; [reflexivity|].
  exact (end_then_start Sample.runtime Sample.no_reply
           (Sample.world_with_history Sample.greeting_exchange)
           (PList Sample.greeting_exchange) []
           eq_refl eq_refl eq_refl eq_refl eq_refl SampleCodec.load_dump).
Defined.

(** X17 on a first exchange, with the sample codec. *)
Lemma turn_survives_restart_witness :
  let env := Sample.answering "general" Sample.headlines in
  let w1 := (main Sample.runtime env chat "What is an ulcer?" Sample.empty_world).2 in
  main Sample.runtime env chat "What is an ulcer?" Sample.empty_world = (Ok tt, w1)
  /\ exists earlier response,
       let history :=
         PList (earlier ++ [mk_message "user" "What is an ulcer?";
                            mk_message "assistant" response]) in
       chat_history w1 = Some history
       /\ (end_ Sample.runtime env w1).1 = Ok tt
       /\ chat_history (start Sample.runtime (next_session (end_ Sample.runtime env w1).2)).2
          = Some history.
Proof.
  cbv zeta.
  assert (Hrun : main Sample.runtime (Sample.answering "general" Sample.headlines) chat
                   "What is an ulcer?" Sample.empty_world =
                 (Ok tt,
                  (main Sample.runtime (Sample.answering "general" Sample.headlines) chat
                     "What is an ulcer?" Sample.empty_world).2)).
  { vm_compute. reflexivity. }
  split; [exact Hrun|].
  exact (turn_survives_restart Sample.runtime
           (Sample.answering "general" Sample.headlines) chat "What is an ulcer?"
           Sample.empty_world _ [] I eq_refl eq_refl SampleCodec.load_dump Hrun).
Defined.

(** X18 on three articles, one of them without a title. *)
Lemma get_real_news_headlines_witness :
  let env := Sample.answering "summary" Sample.headlines in
  let articles := [PDict [("title", PStr "Markets rally")];
                   PDict [("source", PNone)];
                   PDict [("title", PStr "New chip announced")]] in
  Forall is_dict articles
  /\ (get_real_news Sample.runtime env chat "technology" Sample.empty_world).1 =
       Ok ("- Markets rally" +:+ nl +:+ "- New chip announced").
Proof.
  cbv zeta.
  assert (Hdicts : Forall is_dict [PDict [("title", PStr "Markets rally")];
                                   PDict [("source", PNone)];
                                   PDict [("title", PStr "New chip announced")]]).
  { repeat (apply Forall_cons_2; [by eexists|]). apply Forall_nil_2. }
  split; [exact Hdicts|].
  exact (proj1 (get_real_news_headlines Sample.runtime
                  (Sample.answering "summary" Sample.headlines) chat "technology"
                  Sample.empty_world _ _ eq_refl eq_refl Hdicts)).
Defined.

(** X19 on a history of two messages. *)
Lemma summarize_history_request_witness :
  let env := Sample.answering "The user is Sam" Sample.headlines in
  let request :=
    completion_request chatlit "Summarizer" "Summarize conversation history"
      [mk_message "system" summary_instructions;
       mk_message "user"
         ("user: My name is Sam" +:+ nl +:+ "assistant: Nice to meet you, Sam")] in
  summarize_history Sample.runtime env chatlit Sample.greeting_exchange Sample.empty_world =
    (Ok "The user is Sam",
     mkWorld ∅ None [Completion request (Ok "The user is Sam")]).
Proof.
  cbv zeta.
  apply (summarize_history_request Sample.runtime
           (Sample.answering "The user is Sam" Sample.headlines) chatlit
           [("user", "My name is Sam"); ("assistant", "Nice to meet you, Sam")]
           Sample.empty_world).
  discriminate.
Defined.

(** X20 on a history whose second entry has no content. *)
Lemma summarize_history_ill_shaped_witness :
  let good := [mk_message "user" "Hello"] in
  let bad := PDict [("role", PStr "assistant")] in
  Forall is_message good
  /\ py_getitem bad "role" = Ok (PStr "assistant")
  /\ py_getitem bad "content" = Raised (KeyError (PStr "content"))
  /\ summarize_history Sample.runtime Sample.no_reply chat (good ++ [bad])
       Sample.empty_world =
     (Raised (KeyError (PStr "content")), Sample.empty_world).
Proof.
  cbv zeta.
  assert (Hgood : Forall is_message [mk_message "user" "Hello"]).
  { apply Forall_cons_2; [by eexists _, _|]. apply Forall_nil_2. }
  split; [exact Hgood|]. split; [reflexivity|]. split; [reflexivity|].
  apply (summarize_history_ill_shaped Sample.runtime Sample.no_reply chat
           [mk_message "user" "Hello"] [] (PDict [("role", PStr "assistant")])).
  - exact Hgood.
  - right. exists (PStr "assistant"). split; reflexivity.
Defined.

(** X22 on a general question, the third message of a conversation. *)
Lemma answering_request_ends_with_message_witness :
  let env := Sample.answering "general" Sample.headlines in
  let content := "What is an ulcer?" in
  let w := Sample.world_with_history Sample.greeting_exchange in
  let history := Sample.greeting_exchange ++ [mk_message "user" content] in
  let w1 := (classify Sample.runtime env chat content w).2 in
  let w2 := (respond Sample.runtime env chat history "general" w1).2 in
  classify Sample.runtime env chat content w = (Ok (history, "general"), w1)
  /\ respond Sample.runtime env chat history "general" w1 = (Ok "general", w2)
  /\ exists before request reply,
       log w2 = before ++ [Completion request reply]
       /\ last (request_messages request) = Some (mk_message "user" content).
Proof.
  cbv zeta. split; [vm_compute; reflexivity|]. split; [vm_compute; reflexivity|].
  apply (answering_request_ends_with_message Sample.runtime
           (Sample.answering "general" Sample.headlines) chat "What is an ulcer?"
           (Sample.world_with_history Sample.greeting_exchange)
           (classify Sample.runtime (Sample.answering "general" Sample.headlines) chat
              "What is an ulcer?" (Sample.world_with_history Sample.greeting_exchange)).2
           _ (Sample.greeting_exchange ++ [mk_message "user" "What is an ulcer?"])
           "general" "general");
    vm_compute; reflexivity.
Defined.
